(** * Customer search and card selection: a shallow embedding

    The development follows the TypeScript sources file by file:

    - [JsString]: the JavaScript string primitives the code relies on
      (truthiness, [trim], [slice], [split], [includes], [parseInt],
      [toLowerCase], [padStart]);
    - [Regex]: a small backtracking matcher for the regular expression
      literals of the sources;
    - [SearchValidation]: [src/lib/utils/search-validation.ts];
    - [CardSecurity]: [src/lib/utils/card-security.utils.ts];
    - [JsDates]: the [Date] objects built from the text of a date column;
    - [Schema] and [Db]: the tables of [src/lib/db/schema.ts] and the
      promise-returning queries issued against them;
    - [Cards]: the card server actions ([getCustomerCards], [getCardById]);
    - [CustomerSearch]: [src/lib/actions/customer-search.ts];
    - [SinglePredicate]: the search as the specification words it;
    - [Sample] and [Terms]: a small registry and the vocabulary of the
      statements.

    Strings are [string]s whose characters stand for UTF-16 code units
    below 256; the accented letters of the fixed Spanish messages appear in
    their UTF-8 encoding, and nothing below depends on their length. *)

From Stdlib Require Import Bool List ZArith Lia Ascii String DecimalString.
Import ListNotations.

Local Open Scope string_scope.
Local Open Scope list_scope.

(* ================================================================== *)
(** ** JavaScript string primitives *)

Module JsString.

(** [if (s)] on a string: every string but the empty one is truthy. *)
Definition truthy (s : string) : bool :=
  match s with EmptyString => false | String _ _ => true end.

(** [a || b] on strings. *)
Definition or_else (a b : string) : string := if truthy a then a else b.

Definition code (c : ascii) : nat := nat_of_ascii c.

Definition in_range (lo hi c : ascii) : bool :=
  (code lo <=? code c)%nat && (code c <=? code hi)%nat.

Definition is_digit (c : ascii) : bool := in_range "0" "9" c.
Definition is_upper (c : ascii) : bool := in_range "A" "Z" c.
Definition is_lower (c : ascii) : bool := in_range "a" "z" c.
Definition is_alnum (c : ascii) : bool := is_digit c || is_upper c || is_lower c.

(** White space and line terminators, as matched by [\s] and stripped by
    [trim] and [parseInt]: TAB, LF, VT, FF, CR, SP and NBSP. *)
Definition is_space (c : ascii) : bool :=
  existsb (Nat.eqb (code c)) [9; 10; 11; 12; 13; 32; 160]%nat.

(** The capital letters of Latin-1 above ASCII: U+00C0 to U+00DE but for
    the multiplication sign U+00D7. *)
Definition is_latin1_upper (c : ascii) : bool :=
  ((192 <=? code c)%nat && (code c <=? 222)%nat) && negb (code c =? 215)%nat.

(** The lower case of a character, as [toLowerCase] maps it. *)
Definition to_lower_char (c : ascii) : ascii :=
  if is_upper c || is_latin1_upper c then ascii_of_nat (code c + 32) else c.

(** The upper case of an ASCII letter; other characters are left as they
    are.  It serves the [i] flag of regular expressions, under which a
    character above ASCII never folds onto an ASCII one. *)
Definition to_upper_char (c : ascii) : ascii :=
  if is_lower c then ascii_of_nat (code c - 32) else c.

Fixpoint map_chars (f : ascii -> ascii) (s : string) : string :=
  match s with
  | EmptyString => EmptyString
  | String c r => String (f c) (map_chars f r)
  end.

(** [s.toLowerCase()]. *)
Definition toLowerCase (s : string) : string := map_chars to_lower_char s.

Fixpoint forall_chars (p : ascii -> bool) (s : string) : bool :=
  match s with
  | EmptyString => true
  | String c r => p c && forall_chars p r
  end.

Fixpoint filter_chars (p : ascii -> bool) (s : string) : string :=
  match s with
  | EmptyString => EmptyString
  | String c r => if p c then String c (filter_chars p r) else filter_chars p r
  end.

(** [s.replace(/\s/g, '')]. *)
Definition remove_whitespace (s : string) : string :=
  filter_chars (fun c => negb (is_space c)) s.

Fixpoint drop_while (p : ascii -> bool) (s : string) : string :=
  match s with
  | EmptyString => EmptyString
  | String c r => if p c then drop_while p r else s
  end.

Fixpoint rev_string (s : string) : string :=
  match s with
  | EmptyString => EmptyString
  | String c r => rev_string r ++ String c EmptyString
  end.

Definition trimStart (s : string) : string := drop_while is_space s.
Definition trimEnd (s : string) : string :=
  rev_string (drop_while is_space (rev_string s)).

(** [s.trim()]. *)
Definition trim (s : string) : string := trimEnd (trimStart s).

Fixpoint skip (n : nat) (s : string) : string :=
  match n, s with
  | O, _ => s
  | S k, EmptyString => EmptyString
  | S k, String _ r => skip k r
  end.

Fixpoint take (n : nat) (s : string) : string :=
  match n, s with
  | O, _ => EmptyString
  | S k, EmptyString => EmptyString
  | S k, String c r => String c (take k r)
  end.

(** [s.slice(-n)] for a positive [n]: the last [n] characters, or the
    whole string when it is shorter. *)
Definition slice_last (n : nat) (s : string) : string :=
  skip (length s - n) s.

(** [s.slice(0, n)]. *)
Definition slice_first (n : nat) (s : string) : string := take n s.

(** [s.includes(c)] for a one-character needle. *)
Fixpoint includes (c : ascii) (s : string) : bool :=
  match s with
  | EmptyString => false
  | String d r => Ascii.eqb d c || includes c r
  end.

(** [s.split(c)] for a one-character separator; [split c ""] is [[""]]. *)
Fixpoint split (c : ascii) (s : string) : list string :=
  match s with
  | EmptyString => [EmptyString]
  | String d r =>
      if Ascii.eqb d c then EmptyString :: split c r
      else match split c r with
           | [] => [String d EmptyString]
           | h :: t => String d h :: t
           end
  end.

(** The text a template literal or [String(x)] shows for a value that may
    be [undefined]. *)
Definition show_undefined (o : option string) : string :=
  match o with Some s => s | None => "undefined" end.

(** The text a template literal shows for a value that may be [null]. *)
Definition show_null (o : option string) : string :=
  match o with Some s => s | None => "null" end.

Definition digit_value (c : ascii) : Z := Z.of_nat (code c - 48).

Fixpoint take_while (p : ascii -> bool) (s : string) : string :=
  match s with
  | EmptyString => EmptyString
  | String c r => if p c then String c (take_while p r) else EmptyString
  end.

Fixpoint decimal_value (acc : Z) (s : string) : Z :=
  match s with
  | EmptyString => acc
  | String c r => decimal_value (10 * acc + digit_value c) r
  end.

(** [parseInt(s, 10)]: leading white space is skipped, one sign is read,
    then the longest run of decimal digits; [None] stands for [NaN].  The
    mathematical value is kept: the callers only compare it with calendar
    numbers, where the rounding of large values to a double makes no
    difference. *)
Definition parseInt (s : string) : option Z :=
  let t := trimStart s in
  let '(neg, body) :=
    match t with
    | String "-" r => (true, r)
    | String "+" r => (false, r)
    | _ => (false, t)
    end in
  match take_while is_digit body with
  | EmptyString => None
  | ds => Some (if neg then (- decimal_value 0 ds)%Z else decimal_value 0 ds)
  end.

(** [String(n)] for an integer. *)
Definition string_of_Z (z : Z) : string := NilEmpty.string_of_int (Z.to_int z).

Fixpoint replicate (n : nat) (c : ascii) : string :=
  match n with O => EmptyString | S k => String c (replicate k c) end.

(** [s.padStart(n, c)] for a one-character filler. *)
Definition padStart (n : nat) (c : ascii) (s : string) : string :=
  replicate (n - length s) c ++ s.

End JsString.

(* ================================================================== *)
(** ** Regular expression literals *)

Module Regex.
Import JsString.

(** The fragment of the regular expression syntax used by the sources:
    anchors, literal characters, bracket classes of ranges, grouping by
    sequence and alternation, and counted repetition [r{n}]. *)
Inductive regex : Type :=
| Bol                                   (* ^ *)
| Eol                                   (* $ *)
| Lit (c : ascii)                       (* a literal character *)
| Class (ranges : list (ascii * ascii)) (* [a-bc-d...] *)
| Seq (r1 r2 : regex)                   (* r1 r2 *)
| Alt (r1 r2 : regex)                   (* r1 | r2 *)
| Rep (r : regex) (n : nat).            (* r{n} *)

(** [\d] *)
Definition Digit : regex := Class [("0", "9")%char].

Definition in_class (ranges : list (ascii * ascii)) (c : ascii) : bool :=
  existsb (fun '(lo, hi) => in_range lo hi c) ranges.

(** Membership of a character in a class, under the [i] flag when
    [icase] is set: two characters match when they canonicalise to the
    same character, and for the ASCII classes of the sources that is the
    character itself or its other case. *)
Definition class_match (icase : bool) (ranges : list (ascii * ascii)) (c : ascii) : bool :=
  if icase
  then in_class ranges c || in_class ranges (to_upper_char c)
       || in_class ranges (to_lower_char c)
  else in_class ranges c.

(** A position in the subject: whether it is the start of the input, and
    the text that remains. *)
Definition position : Type := bool * string.

Definition step_char (p : ascii -> bool) (pos : position) : list position :=
  match snd pos with
  | String c r => if p c then [(false, r)] else []
  | EmptyString => []
  end.

Fixpoint iterate {A : Type} (f : A -> list A) (n : nat) (xs : list A) : list A :=
  match n with
  | O => xs
  | S k => iterate f k (flat_map f xs)
  end.

(** All the positions at which a match of [r] begun at [pos] can end, in
    the order a backtracking matcher tries them. *)
Fixpoint run (icase : bool) (r : regex) (pos : position) : list position :=
  match r with
  | Bol => if fst pos then [pos] else []
  | Eol => match snd pos with EmptyString => [pos] | _ => [] end
  | Lit c => step_char (class_match icase [(c, c)]) pos
  | Class ranges => step_char (class_match icase ranges) pos
  | Seq r1 r2 => flat_map (run icase r2) (run icase r1 pos)
  | Alt r1 r2 => run icase r1 pos ++ run icase r2 pos
  | Rep r1 n => iterate (run icase r1) n [pos]
  end.

Definition matches_at (icase : bool) (r : regex) (pos : position) : bool :=
  match run icase r pos with [] => false | _ :: _ => true end.

Fixpoint search (icase : bool) (r : regex) (start : bool) (s : string) : bool :=
  matches_at icase r (start, s)
  || match s with
     | EmptyString => false
     | String _ rest => search icase r false rest
     end.

(** [re.test(s)]: a match may begin at any offset of the subject. *)
Definition test (icase : bool) (r : regex) (s : string) : bool :=
  search icase r true s.

End Regex.

(* ================================================================== *)
(** ** Filter types ([src/lib/types/customer.ts]) *)

Module Types.

Record CustomerSearchFilters : Type := mkFilters {
  primaryPhone : string;
  secondaryPhone : string;
  clientNumber : string;
  firstName : string;
  lastName : string;
  secondLastName : string;
  dateOfBirth : string;
  rfc : string;
  stateId : string;
  municipalityId : string;
  neighborhoodId : string;
  postalCode : string;
  ife : string;
  passport : string
}.

Record CustomerSearchResult : Type := mkSearchResult {
  result_id : string;
  result_customerNumber : string;
  result_firstName : string;
  result_lastName : string;
  result_secondLastName : option string;
  result_rfc : option string;
  result_status : string;
  result_primaryPhone : string;
  result_primaryAddress : string
}.

Record CustomerSearchResponse : Type := mkSearchResponse {
  data : list CustomerSearchResult;
  totalCount : nat
}.

End Types.

(* ================================================================== *)
(** ** Filter validation ([src/lib/utils/search-validation.ts]) *)

Module SearchValidation.
Import JsString Regex Types.

Record ValidationError : Type := mkError {
  field : string;
  message : string
}.

Record ValidationResult : Type := mkResult {
  isValid : bool;
  errors : list ValidationError;
  generalError : option string
}.

(** [/^\d{10}$/] *)
Definition phoneRegex : regex := Seq Bol (Seq (Rep Digit 10) Eol).

Definition validatePhoneNumber (phone : string) : bool :=
  if negb (truthy phone) then true
  else test false phoneRegex phone.

(** [/^[A-Z0-9]{13}$/i] *)
Definition rfcRegex : regex :=
  Seq Bol (Seq (Rep (Class [("A", "Z"); ("0", "9")]%char) 13) Eol).

Definition validateRFC (rfc : string) : bool :=
  if negb (truthy rfc) then true
  else test true rfcRegex rfc.

(** [/^\d{5}$/] *)
Definition postalCodeRegex : regex := Seq Bol (Seq (Rep Digit 5) Eol).

Definition validatePostalCode (postalCode : string) : bool :=
  if negb (truthy postalCode) then true
  else test false postalCodeRegex postalCode.

(** [if (x) count++] *)
Definition bump (x : string) (count : nat) : nat :=
  if truthy x then S count else count.

Definition countFilledFilters (filters : CustomerSearchFilters) : nat :=
  let count := 0%nat in
  let count := bump (primaryPhone filters) count in
  let count := bump (secondaryPhone filters) count in
  let count := bump (clientNumber filters) count in
  let count := bump (firstName filters) count in
  let count := bump (lastName filters) count in
  let count := bump (secondLastName filters) count in
  let count := bump (dateOfBirth filters) count in
  let count := bump (rfc filters) count in
  let count :=
    if truthy (stateId filters) || truthy (municipalityId filters)
       || truthy (neighborhoodId filters) || truthy (postalCode filters)
    then S count else count in
  let count := bump (ife filters) count in
  let count := bump (passport filters) count in
  count.

Definition minimumFiltersMessage : string :=
  "Campos necesarios faltantes. Por favor, llena al menos dos campos para realizar la búsqueda.".

Definition primaryPhoneError : ValidationError :=
  mkError "primaryPhone" "El teléfono de casa debe tener 10 dígitos numéricos".
Definition secondaryPhoneError : ValidationError :=
  mkError "secondaryPhone" "El número celular debe tener 10 dígitos numéricos".
Definition rfcError : ValidationError :=
  mkError "rfc" "El RFC debe tener 13 caracteres alfanuméricos".
Definition postalCodeError : ValidationError :=
  mkError "postalCode" "El código postal debe tener 5 dígitos numéricos".

(** [if (cond) errors.push(e)] *)
Definition push_if (cond : bool) (e : ValidationError)
           (errors : list ValidationError) : list ValidationError :=
  if cond then errors ++ [e] else errors.

Definition validateSearchFilters (filters : CustomerSearchFilters) : ValidationResult :=
  let errors := [] in
  let filledFiltersCount := countFilledFilters filters in
  if (filledFiltersCount <? 2)%nat then
    mkResult false [] (Some minimumFiltersMessage)
  else
    let errors :=
      push_if (truthy (primaryPhone filters)
               && negb (validatePhoneNumber (primaryPhone filters)))
              primaryPhoneError errors in
    let errors :=
      push_if (truthy (secondaryPhone filters)
               && negb (validatePhoneNumber (secondaryPhone filters)))
              secondaryPhoneError errors in
    let errors :=
      push_if (truthy (rfc filters) && negb (validateRFC (rfc filters)))
              rfcError errors in
    let errors :=
      push_if (truthy (postalCode filters)
               && negb (validatePostalCode (postalCode filters)))
              postalCodeError errors in
    mkResult (Nat.eqb (List.length errors) 0) errors None.

End SearchValidation.

(* ================================================================== *)
(** ** Card security utilities ([src/lib/utils/card-security.utils.ts]) *)

Module CardSecurity.
Import JsString Regex.

(** The fields of a JavaScript [Date] read by the code, in local time. *)
Record JsDate : Type := mkDate {
  getFullYear : Z;
  getMonth : Z          (* 0 to 11 *)
}.

Definition maskCardNumber (cardNumber : string) : string :=
  if negb (truthy cardNumber) || (length cardNumber <? 4)%nat then "****"
  else
    let lastFour := slice_last 4 cardNumber in
    "**** **** **** " ++ lastFour.

Definition getLastFourDigits (cardNumber : string) : string :=
  if negb (truthy cardNumber) || (length cardNumber <? 4)%nat then ""
  else slice_last 4 cardNumber.

Definition isValidCardLength (cardNumber : string) : bool :=
  if negb (truthy cardNumber) then false
  else
    let length := length (remove_whitespace cardNumber) in
    let validLengths := [13; 14; 15; 16; 19]%nat in
    existsb (Nat.eqb length) validLengths.

(** [now] is the value of [new Date()] at the call. *)
Definition isCardExpired (now : JsDate) (expirationDate : string) : bool :=
  if negb (truthy expirationDate) || negb (includes "/" expirationDate) then true
  else
    let parts := split "/" expirationDate in
    let month := show_undefined (nth_error parts 0) in
    let year := show_undefined (nth_error parts 1) in
    match parseInt month, parseInt ("20" ++ year) with
    | Some expMonth, Some expYear =>
        let currentMonth := (getMonth now + 1)%Z in
        let currentYear := getFullYear now in
        if (expYear <? currentYear)%Z then true
        else if (expYear =? currentYear)%Z && (expMonth <? currentMonth)%Z then true
        else false
    | _, _ => true   (* isNaN(expMonth) || isNaN(expYear) *)
    end.

Definition isCardUsable (status : string) : bool :=
  (toLowerCase status =? "active")%string.

(** A run of literal characters. *)
Fixpoint Word (s : string) : regex :=
  match s with
  | EmptyString => Rep (Class []) 0
  | String c EmptyString => Lit c
  | String c r => Seq (Lit c) (Word r)
  end.

Definition D (lo hi : ascii) : regex := Class [(lo, hi)].

(** [/^4/] *)
Definition visaRegex : regex := Seq Bol (Lit "4").

(** [/^5[1-5]/] *)
Definition masterCard5Regex : regex := Seq Bol (Seq (Lit "5") (D "1" "5")).

(** [/^2(2[2-9][0-9]|[3-6][0-9]{2}|7[0-1][0-9]|720)/] *)
Definition masterCard2Regex : regex :=
  Seq Bol (Seq (Lit "2")
    (Alt (Seq (Lit "2") (Seq (D "2" "9") (D "0" "9")))
    (Alt (Seq (D "3" "6") (Rep (D "0" "9") 2))
    (Alt (Seq (Lit "7") (Seq (D "0" "1") (D "0" "9")))
         (Word "720"))))).

(** [/^3[47]/] *)
Definition amexRegex : regex :=
  Seq Bol (Seq (Lit "3") (Class [("4", "4"); ("7", "7")]%char)).

(** [/^6011|^64[4-9]|^65|^622(1[2-9][6-9]|[2-8][0-9]{2}|9[0-1][0-9]|92[0-5])/] *)
Definition discoverRegex : regex :=
  Alt (Seq Bol (Word "6011"))
 (Alt (Seq Bol (Seq (Word "64") (D "4" "9")))
 (Alt (Seq Bol (Word "65"))
      (Seq Bol (Seq (Word "622")
         (Alt (Seq (Lit "1") (Seq (D "2" "9") (D "6" "9")))
         (Alt (Seq (D "2" "8") (Rep (D "0" "9") 2))
         (Alt (Seq (Lit "9") (Seq (D "0" "1") (D "0" "9")))
              (Seq (Word "92") (D "0" "5"))))))))).

(** [/^3(0[0-5]|[68])/] *)
Definition dinersRegex : regex :=
  Seq Bol (Seq (Lit "3")
    (Alt (Seq (Lit "0") (D "0" "5"))
         (Class [("6", "6"); ("8", "8")]%char))).

Definition getCardBrand (cardNumber : string) : string :=
  if negb (truthy cardNumber) then "Unknown"
  else
    let cleaned := remove_whitespace cardNumber in
    if test false visaRegex cleaned then "Visa"
    else if test false masterCard5Regex cleaned || test false masterCard2Regex cleaned
    then "MasterCard"
    else if test false amexRegex cleaned then "American Express"
    else if test false discoverRegex cleaned then "Discover"
    else if test false dinersRegex cleaned then "Diners Club"
    else "Unknown".

Record Card : Type := mkCard {
  cardNumber : string;
  expirationDate : string;
  status : string
}.

Record CardValidation : Type := mkValidation {
  isValid : bool;
  error : option string
}.

Definition invalidNumberMessage : string := "Número de tarjeta inválido".
Definition expiredMessage : string := "La tarjeta ha expirado".
Definition notUsableMessage (status : string) : string :=
  "La tarjeta está " ++ status ++ ". Solo tarjetas activas pueden ser utilizadas.".

Definition validateCardForTransaction (now : JsDate) (card : Card) : CardValidation :=
  if negb (isValidCardLength (cardNumber card)) then
    mkValidation false (Some invalidNumberMessage)
  else if isCardExpired now (expirationDate card) then
    mkValidation false (Some expiredMessage)
  else if negb (isCardUsable (status card)) then
    mkValidation false (Some (notUsableMessage (status card)))
  else mkValidation true None.

End CardSecurity.

(* ================================================================== *)
(** ** JavaScript dates built from a date column *)

Module JsDates.
Import JsString.

(** The time zone of the process: the offset of local time from UTC in
    minutes, positive east of Greenwich, at 00:00 UTC of the day given by
    its year, month (1 to 12) and day.  The offset may differ from day to
    day, as with daylight saving time. *)
Definition TimeZone : Type := Z -> Z -> Z -> Z.

Definition isLeapYear (y : Z) : bool :=
  ((y mod 4 =? 0)%Z && negb (y mod 100 =? 0)%Z) || (y mod 400 =? 0)%Z.

Definition daysInMonth (y m : Z) : Z :=
  if (m =? 2)%Z then (if isLeapYear y then 29 else 28)%Z
  else if (m =? 4)%Z || (m =? 6)%Z || (m =? 9)%Z || (m =? 11)%Z then 30%Z
  else 31%Z.

(** The date-only form [YYYY-MM-DD] of the date-time string format, with
    the year, month and day it writes. *)
Definition isoDate (text : string) : option (Z * Z * Z) :=
  match text with
  | String y1 (String y2 (String y3 (String y4 (String "-"
      (String m1 (String m2 (String "-" (String d1 (String d2 EmptyString))))))))) =>
      if is_digit y1 && is_digit y2 && is_digit y3 && is_digit y4
         && is_digit m1 && is_digit m2 && is_digit d1 && is_digit d2
      then Some ((1000 * digit_value y1 + 100 * digit_value y2
                  + 10 * digit_value y3 + digit_value y4)%Z,
                 (10 * digit_value m1 + digit_value m2)%Z,
                 (10 * digit_value d1 + digit_value d2)%Z)
      else None
  | _ => None
  end.

(** A [Date] object built from a date column: 00:00 UTC of a day, or an
    Invalid Date. *)
Inductive Date : Type :=
| InvalidDate
| UtcMidnight (year month day : Z).

(** [new Date(text)] for the text of a date column.  A date-only text of
    a calendar day is read as 00:00 UTC of that day.  The other texts that
    a date column yields, [infinity] and [-infinity], give an Invalid Date;
    so does here every text that is not the date-only form of a calendar
    day, which a date column does not hold. *)
Definition newDate (text : string) : Date :=
  match isoDate text with
  | Some (y, m, d) =>
      if (1 <=? m)%Z && (m <=? 12)%Z && (1 <=? d)%Z && (d <=? daysInMonth y m)%Z
      then UtcMidnight y m d
      else InvalidDate
  | None => InvalidDate
  end.

(** The local year and month (0 to 11) of a date.  The offsets of time
    zones lie between -12:00 and +14:00: at 00:00 UTC local time is on the
    day before when the offset is negative, and on the same day when it is
    not. *)
Definition localYearMonth (zone : TimeZone) (date : Date) : option (Z * Z) :=
  match date with
  | InvalidDate => None
  | UtcMidnight y m d =>
      if (zone y m d <? 0)%Z && (d =? 1)%Z
      then (if (m =? 1)%Z then Some ((y - 1)%Z, 11%Z) else Some (y, (m - 2)%Z))
      else Some (y, (m - 1)%Z)
  end.

(** A number that may be [NaN], which [None] stands for. *)
Definition Number : Type := option Z.

Definition getMonth (zone : TimeZone) (date : Date) : Number :=
  option_map snd (localYearMonth zone date).

Definition getFullYear (zone : TimeZone) (date : Date) : Number :=
  option_map fst (localYearMonth zone date).

(** [n + k] *)
Definition plus (n : Number) (k : Z) : Number := option_map (fun z => (z + k)%Z) n.

(** [String(n)] *)
Definition String_of (n : Number) : string :=
  match n with
  | Some z => string_of_Z z
  | None => "NaN"
  end.

End JsDates.

(* ================================================================== *)
(** ** The registry tables ([src/lib/db/schema.ts]) *)

Module Schema.
Import CardSecurity.

Inductive CustomerStatus : Type := CustomerActive | CustomerInactive.
Inductive GovernmentIdType : Type := RFC | IFE | Passport.
Inductive CardType : Type := Debit | Credit | Prepaid.
Inductive CardStatus : Type := CardActive | CardInactive | CardExpired.

Definition customerStatus_text (s : CustomerStatus) : string :=
  match s with CustomerActive => "active" | CustomerInactive => "inactive" end.

Definition governmentIdType_eqb (a b : GovernmentIdType) : bool :=
  match a, b with
  | RFC, RFC | IFE, IFE | Passport, Passport => true
  | _, _ => false
  end.

(** The columns read by the code; a nullable column is an [option]. *)
Record customers_row : Type := mkCustomer {
  customers_id : string;
  customers_firstName : string;
  customers_lastName : string;
  customers_middleName : option string;
  customers_status : CustomerStatus
}.

Record names_row : Type := mkName {
  names_id : string;
  names_name : string
}.

Record addresses_row : Type := mkAddress {
  addresses_customerId : string;
  addresses_street : string;
  addresses_postalCode : option string;
  addresses_stateId : string;
  addresses_municipalityId : string;
  addresses_neighborhoodId : option string;
  addresses_isPrimary : bool
}.

Record phones_row : Type := mkPhone {
  phones_customerId : string;
  phones_number : string
}.

Record governmentIds_row : Type := mkGovernmentId {
  governmentIds_customerId : string;
  governmentIds_type : GovernmentIdType;
  governmentIds_number : string
}.

(** [cards_expirationDate] holds the text of the date column, as the
    driver hands it to the code, when the column is not null. *)
Record cards_row : Type := mkCardRow {
  cards_id : string;
  cards_customerId : string;
  cards_number : string;
  cards_type : CardType;
  cards_status : CardStatus;
  cards_expirationDate : option string
}.

(** A state of the registry: the rows of each table, in table order. *)
Record Registry : Type := mkRegistry {
  customers : list customers_row;
  states : list names_row;
  municipalities : list names_row;
  neighborhoods : list names_row;
  addresses : list addresses_row;
  phones : list phones_row;
  governmentIds : list governmentIds_row;
  cards : list cards_row
}.

End Schema.

(* ================================================================== *)
(** ** Promises and queries *)

Module Db.
Import Schema.

(** The settled state of a promise: a value, or the message of the
    [Error] it was rejected with. *)
Inductive Promise (A : Type) : Type :=
| Resolved (value : A)
| Rejected (reason : string).
Arguments Resolved {A} value.
Arguments Rejected {A} reason.

Definition bind {A B : Type} (p : Promise A) (k : A -> Promise B) : Promise B :=
  match p with
  | Resolved a => k a
  | Rejected e => Rejected e
  end.

(** [try { body } catch (error) { handler }] *)
Definition try_catch {A : Type} (body : Promise A) (handler : string -> Promise A) : Promise A :=
  match body with
  | Resolved a => Resolved a
  | Rejected e => handler e
  end.

(** [await Promise.all(xs.map(f))] *)
Fixpoint all {A B : Type} (f : A -> Promise B) (xs : list A) : Promise (list B) :=
  match xs with
  | [] => Resolved []
  | x :: rest =>
      bind (f x) (fun y => bind (all f rest) (fun ys => Resolved (y :: ys)))
  end.

(** The [select] statements of the sources, with the value each one is
    parameterised by. *)
Inductive Query : Type :=
| CustomerById (customerId : string)
| CardsOfCustomer (customerId : string)
| CardWithCustomer (cardId : string)
| CustomersByName
| OwnersOfPhones
| OwnersOfGovernmentIds
| OwnersOfAddresses
| PhoneOf (customerId : string)
| RfcOf (customerId : string)
| PrimaryAddressOf (customerId : string).

(** A database connection: the registry behind it, and for each query
    whether the data access fails, and with which message. *)
Record Connection : Type := mkConnection {
  registry : Registry;
  failure : Query -> option string
}.

(** A connection on which every query is answered. *)
Definition healthy (r : Registry) : Connection := mkConnection r (fun _ => None).

(** [await db.select(...)...]: the rows, unless the data access fails. *)
Definition await {A : Type} (db : Connection) (q : Query) (rows : A) : Promise A :=
  match failure db q with
  | Some e => Rejected e
  | None => Resolved rows
  end.

(** [.limit(1)] *)
Definition limit1 {A : Type} (rows : list A) : list A := firstn 1 rows.

End Db.

Notation "x <- p ;; k" := (Db.bind p (fun x => k))
  (at level 61, p at next level, right associativity).

(* ================================================================== *)
(** ** Card server actions ([getCustomerCards], [getCardById]) *)

Module Cards.
Import JsString CardSecurity Schema Db.

Inductive DisplayStatus : Type := active | inactive | blocked.

Record CustomerCardData : Type := mkCardData {
  id : string;
  cardNumber : string;
  cardType : CardType;
  expirationDate : string;
  cardholderName : string;
  status : DisplayStatus;
  issuer : string;
  lastFourDigits : string
}.

(** The expiration date as [MM/YY], or ['N/A'].  [zone] is the time zone
    of the process, which [getMonth] and [getFullYear] read. *)
Definition formattedExpDate (zone : JsDates.TimeZone) (expirationDate : option string)
  : string :=
  let expDate :=
    match expirationDate with
    | Some text => if truthy text then Some (JsDates.newDate text) else None
    | None => None
    end in
  match expDate with
  | Some expDate =>
      padStart 2 "0" (JsDates.String_of (JsDates.plus (JsDates.getMonth zone expDate) 1))
      ++ "/" ++ slice_last 2 (JsDates.String_of (JsDates.getFullYear zone expDate))
  | None => "N/A"
  end.

(** [`${firstName} ${middleName || ''} ${lastName}`.trim()] *)
Definition buildCardholderName (firstName : string) (middleName : option string)
           (lastName : string) : string :=
  trim (firstName ++ " "
        ++ match middleName with Some m => or_else m "" | None => "" end
        ++ " " ++ lastName).

Definition mappedStatus (s : CardStatus) : DisplayStatus :=
  match s with
  | CardActive => active
  | CardExpired => blocked
  | _ => inactive
  end.

(** The object literal returned for a card; [getCustomerCards] and
    [getCardById] build it by the same statements. *)
Definition toCardData (zone : JsDates.TimeZone) (firstName : string)
           (middleName : option string) (lastName : string) (card : cards_row)
  : CustomerCardData :=
  {| id := cards_id card;
     cardNumber := cards_number card;
     cardType := cards_type card;
     expirationDate := formattedExpDate zone (cards_expirationDate card);
     cardholderName := buildCardholderName firstName middleName lastName;
     status := mappedStatus (cards_status card);
     issuer := "Banco Nacional";
     lastFourDigits := getLastFourDigits (cards_number card) |}.

Definition blank (s : string) : bool :=
  negb (truthy s) || (trim s =? "")%string.

Definition getCustomerCards (db : Connection) (zone : JsDates.TimeZone)
           (customerId : string) : Promise (list CustomerCardData) :=
  try_catch
    (if blank customerId then Rejected "Customer ID is required"
     else
       customerResult <-
         await db (CustomerById customerId)
           (limit1 (filter (fun c => (customers_id c =? customerId)%string)
                           (customers (registry db)))) ;;
       match customerResult with
       | [] => Resolved []
       | customer :: _ =>
           customerCards <-
             await db (CardsOfCustomer customerId)
               (filter (fun c => (cards_customerId c =? customerId)%string)
                       (cards (registry db))) ;;
           Resolved
             (map (toCardData zone (customers_firstName customer)
                                   (customers_middleName customer)
                                   (customers_lastName customer))
                  customerCards)
       end)
    (fun _ => Rejected "Failed to fetch customer cards").

(** [cards INNER JOIN customers ON cards.customerId = customers.id]. *)
Definition cards_join_customers (r : Registry) : list (cards_row * customers_row) :=
  flat_map
    (fun card =>
       map (fun customer => (card, customer))
           (filter (fun c => (cards_customerId card =? customers_id c)%string)
                   (customers r)))
    (cards r).

Definition getCardById (db : Connection) (zone : JsDates.TimeZone) (cardId : string)
  : Promise (option CustomerCardData) :=
  try_catch
    (if blank cardId then Rejected "Card ID is required"
     else
       cardResult <-
         await db (CardWithCustomer cardId)
           (limit1 (filter (fun row => (cards_id (fst row) =? cardId)%string)
                           (cards_join_customers (registry db)))) ;;
       match cardResult with
       | [] => Resolved None
       | result :: _ =>
           Resolved
             (Some (toCardData zone (customers_firstName (snd result))
                                    (customers_middleName (snd result))
                                    (customers_lastName (snd result))
                                    (fst result)))
       end)
    (fun _ => Rejected "Failed to fetch card").

End Cards.

(* ================================================================== *)
(** ** Customer search ([src/lib/actions/customer-search.ts]) *)

Module CustomerSearch.
Import JsString Schema Db Types.

(** The SQL operator [LIKE] of the registry's database: [%] stands for
    any run of characters, [_] for any one character, and a backslash
    makes the character after it literal.  A pattern that ends in a lone
    backslash is refused by the database; the patterns built below end in
    [%], so that case is never reached. *)
Fixpoint like_pattern (pattern : string) (text : string) {struct pattern} : bool :=
  match pattern with
  | EmptyString => negb (truthy text)
  | String "%" rest =>
      (fix any (t : string) : bool :=
         like_pattern rest t
         || match t with
            | EmptyString => false
            | String _ t' => any t'
            end) text
  | String "_" rest =>
      match text with
      | String _ t' => like_pattern rest t'
      | EmptyString => false
      end
  | String "\" (String c rest) =>
      match text with
      | String d t' => Ascii.eqb c d && like_pattern rest t'
      | EmptyString => false
      end
  | String "\" EmptyString => false
  | String c rest =>
      match text with
      | String d t' => Ascii.eqb c d && like_pattern rest t'
      | EmptyString => false
      end
  end.

(** A condition of a [where] clause, as a test on a row.  A comparison
    with a NULL column is unknown in SQL; the conditions below combine
    comparisons by [and] and [or] only, never by negation, so that a row
    is selected exactly when the test that reads unknown as false
    holds. *)
Definition condition (row : Type) : Type := row -> bool.

(** [like(column, pattern)] *)
Definition like {row : Type} (column : row -> option string) (pattern : string)
  : condition row :=
  fun r => match column r with
           | Some v => like_pattern pattern v
           | None => false
           end.

(** [eq(column, value)] *)
Definition eq {row : Type} (column : row -> option string) (value : string)
  : condition row :=
  fun r => match column r with
           | Some v => (v =? value)%string
           | None => false
           end.

(** [and(...conditions)]; no condition at all selects every row. *)
Definition and {row : Type} (conditions : list (condition row)) : condition row :=
  fun r => forallb (fun c => c r) conditions.

(** [or(...conditions)]; no condition at all selects every row. *)
Definition or {row : Type} (conditions : list (condition row)) : condition row :=
  fun r => match conditions with
           | [] => true
           | _ => existsb (fun c => c r) conditions
           end.

(** [if (cond) list.push(x)] *)
Definition push_if {A : Type} (cond : bool) (x : A) (xs : list A) : list A :=
  if cond then xs ++ [x] else xs.

(** [ids.includes(id)] *)
Definition includes_id (ids : list string) (id : string) : bool :=
  existsb (fun x => (x =? id)%string) ids.

Definition notNull {row : Type} (column : row -> string) : row -> option string :=
  fun r => Some (column r).

Definition nameConditions (filters : CustomerSearchFilters)
  : list (condition customers_row) :=
  let conditions := [] in
  let conditions :=
    push_if (truthy (firstName filters))
            (like (notNull customers_firstName) ("%" ++ firstName filters ++ "%"))
            conditions in
  let conditions :=
    push_if (truthy (lastName filters))
            (like (notNull customers_lastName) ("%" ++ lastName filters ++ "%"))
            conditions in
  let conditions :=
    push_if (truthy (secondLastName filters))
            (like customers_middleName ("%" ++ secondLastName filters ++ "%"))
            conditions in
  (* the body of [if (filters.dateOfBirth)] holds a comment only *)
  let conditions :=
    if truthy (dateOfBirth filters) then conditions else conditions in
  conditions.

Definition phoneConditions (filters : CustomerSearchFilters)
  : list (condition phones_row) :=
  let phoneConditions := [] in
  let phoneConditions :=
    push_if (truthy (primaryPhone filters))
            (eq (notNull phones_number) (primaryPhone filters)) phoneConditions in
  let phoneConditions :=
    push_if (truthy (secondaryPhone filters))
            (eq (notNull phones_number) (secondaryPhone filters)) phoneConditions in
  phoneConditions.

Definition typeIs (t : GovernmentIdType) : condition governmentIds_row :=
  fun g => governmentIdType_eqb (governmentIds_type g) t.

Definition govIdConditions (filters : CustomerSearchFilters)
  : list (condition governmentIds_row) :=
  let govIdConditions := [] in
  let govIdConditions :=
    push_if (truthy (rfc filters))
            (and [typeIs RFC; eq (notNull governmentIds_number) (rfc filters)])
            govIdConditions in
  let govIdConditions :=
    push_if (truthy (ife filters))
            (and [typeIs IFE; eq (notNull governmentIds_number) (ife filters)])
            govIdConditions in
  let govIdConditions :=
    push_if (truthy (passport filters))
            (and [typeIs Passport; eq (notNull governmentIds_number) (passport filters)])
            govIdConditions in
  govIdConditions.

Definition addressConditions (filters : CustomerSearchFilters)
  : list (condition addresses_row) :=
  let addressConditions := [] in
  let addressConditions :=
    push_if (truthy (stateId filters))
            (eq (notNull addresses_stateId) (stateId filters)) addressConditions in
  let addressConditions :=
    push_if (truthy (municipalityId filters))
            (eq (notNull addresses_municipalityId) (municipalityId filters))
            addressConditions in
  let addressConditions :=
    push_if (truthy (neighborhoodId filters))
            (eq addresses_neighborhoodId (neighborhoodId filters)) addressConditions in
  let addressConditions :=
    push_if (truthy (postalCode filters))
            (eq addresses_postalCode (postalCode filters)) addressConditions in
  addressConditions.

(** [left.leftJoin(right, on)]: every left row, paired with each right
    row that matches, or with NULL when none does. *)
Definition leftJoin {A B : Type} (on : A -> B -> bool) (left : list A) (right : list B)
  : list (A * option B) :=
  flat_map
    (fun a => match filter (on a) right with
              | [] => [(a, None)]
              | bs => map (fun b => (a, Some b)) bs
              end)
    left.

(** The row selected for the primary address. *)
Record address_view : Type := mkAddressView {
  street : string;
  view_postalCode : option string;
  stateName : option string;
  municipalityName : option string;
  neighborhoodName : option string
}.

Definition primaryAddressRows (r : Registry) (customerId : string) : list address_view :=
  let joined :=
    leftJoin
      (fun row n =>
         match addresses_neighborhoodId (fst (fst row)) with
         | Some i => (i =? names_id n)%string
         | None => false
         end)
      (leftJoin
         (fun row m => (addresses_municipalityId (fst row) =? names_id m)%string)
         (leftJoin
            (fun a s => (addresses_stateId a =? names_id s)%string)
            (addresses r) (states r))
         (municipalities r))
      (neighborhoods r) in
  map (fun row =>
         let a := fst (fst (fst row)) in
         mkAddressView (addresses_street a) (addresses_postalCode a)
                       (option_map names_name (snd (fst (fst row))))
                       (option_map names_name (snd (fst row)))
                       (option_map names_name (snd row)))
      (filter (fun row =>
                 let a := fst (fst (fst row)) in
                 (addresses_customerId a =? customerId)%string && addresses_isPrimary a)
              joined).

(** The object literal returned for a customer, from the three lists of
    rows fetched for it. *)
Definition buildResult (customer : customers_row) (primaryPhones : list string)
           (rfcRecords : list string) (primaryAddresses : list address_view)
  : CustomerSearchResult :=
  let primaryPhone :=
    match primaryPhones with
    | number :: _ => or_else number ""
    | [] => ""
    end in
  let rfc :=
    match rfcRecords with
    | number :: _ => if truthy number then Some number else None
    | [] => None
    end in
  let primaryAddress :=
    match primaryAddresses with
    | a :: _ =>
        trim (street a ++ ", "
              ++ match neighborhoodName a with Some n => or_else n "" | None => "" end
              ++ ", " ++ show_null (municipalityName a)
              ++ ", " ++ show_null (stateName a)
              ++ " " ++ show_null (view_postalCode a))
    | [] => ""
    end in
  {| result_id := customers_id customer;
     result_customerNumber := slice_first 10 (customers_id customer);
     result_firstName := customers_firstName customer;
     result_lastName := customers_lastName customer;
     result_secondLastName := customers_middleName customer;
     result_rfc := rfc;
     result_status := customerStatus_text (customers_status customer);
     result_primaryPhone := primaryPhone;
     result_primaryAddress := primaryAddress |}.

Definition phoneRows (r : Registry) (customerId : string) : list string :=
  limit1 (map phones_number
              (filter (eq (notNull phones_customerId) customerId) (phones r))).

Definition rfcRows (r : Registry) (customerId : string) : list string :=
  limit1 (map governmentIds_number
              (filter (and [eq (notNull governmentIds_customerId) customerId; typeIs RFC])
                      (governmentIds r))).

(** The callback of [results.map(async (customer) => ...)]. *)
Definition enrich (db : Connection) (customer : customers_row)
  : Promise CustomerSearchResult :=
  primaryPhones <-
    await db (PhoneOf (customers_id customer))
          (phoneRows (registry db) (customers_id customer)) ;;
  rfcRecords <-
    await db (RfcOf (customers_id customer))
          (rfcRows (registry db) (customers_id customer)) ;;
  primaryAddresses <-
    await db (PrimaryAddressOf (customers_id customer))
          (limit1 (primaryAddressRows (registry db) (customers_id customer))) ;;
  Resolved (buildResult customer primaryPhones rfcRecords primaryAddresses).

Definition searchCustomers (db : Connection) (filters : CustomerSearchFilters)
  : Promise CustomerSearchResponse :=
  try_catch
    (let conditions := nameConditions filters in
     results <-
       await db CustomersByName
             (filter (and (match conditions with
                           | [] => [fun _ => true]
                           | _ => conditions
                           end))
                     (customers (registry db))) ;;
     results <-
       (if truthy (primaryPhone filters) || truthy (secondaryPhone filters) then
          customersWithPhones <-
            await db OwnersOfPhones
                  (filter (or (phoneConditions filters)) (phones (registry db))) ;;
          let customerIdsWithPhones := map phones_customerId customersWithPhones in
          Resolved (filter (fun r => includes_id customerIdsWithPhones (customers_id r))
                           results)
        else Resolved results) ;;
     results <-
       (if truthy (rfc filters) || truthy (ife filters) || truthy (passport filters) then
          customersWithGovIds <-
            await db OwnersOfGovernmentIds
                  (filter (or (govIdConditions filters)) (governmentIds (registry db))) ;;
          let customerIdsWithGovIds :=
            map governmentIds_customerId customersWithGovIds in
          Resolved (filter (fun r => includes_id customerIdsWithGovIds (customers_id r))
                           results)
        else Resolved results) ;;
     results <-
       (if truthy (stateId filters) || truthy (municipalityId filters)
           || truthy (neighborhoodId filters) || truthy (postalCode filters) then
          customersWithAddresses <-
            await db OwnersOfAddresses
                  (filter (and (addressConditions filters)) (addresses (registry db))) ;;
          let customerIdsWithAddresses :=
            map addresses_customerId customersWithAddresses in
          Resolved (filter (fun r => includes_id customerIdsWithAddresses (customers_id r))
                           results)
        else Resolved results) ;;
     enrichedResults <- all (enrich db) results ;;
     Resolved {| data := enrichedResults;
                 totalCount := List.length enrichedResults |})
    (fun _ => Rejected "Failed to search customers").

End CustomerSearch.

(* ================================================================== *)
(** ** The search as a single predicate

    The definitions of this module follow the words of the specification,
    not the code: one test on a customer, with AND across the filter
    categories, OR within the phone pair and among the three government
    ids, and AND among the address filters on one address record. *)

Module SinglePredicate.
Import JsString Schema Types.

Definition supplied (s : string) : bool := truthy s.

(** A name filter left empty imposes nothing; a supplied one must match
    the column by the base query's [LIKE %value%]. *)
Definition nameMatches (column : option string) (value : string) : bool :=
  negb (supplied value)
  || match column with
     | Some v => CustomerSearch.like_pattern ("%" ++ value ++ "%") v
     | None => false
     end.

Definition namesMatch (f : CustomerSearchFilters) (c : customers_row) : bool :=
  nameMatches (Some (customers_firstName c)) (firstName f)
  && nameMatches (Some (customers_lastName c)) (lastName f)
  && nameMatches (customers_middleName c) (secondLastName f).

Definition equals (supplied_value : string) (stored : string) : bool :=
  supplied supplied_value && (stored =? supplied_value)%string.

(** Some phone of the customer equals either supplied phone. *)
Definition phoneMatches (r : Registry) (f : CustomerSearchFilters) (c : customers_row) : bool :=
  negb (supplied (primaryPhone f) || supplied (secondaryPhone f))
  || existsb
       (fun p => (phones_customerId p =? customers_id c)%string
                 && (equals (primaryPhone f) (phones_number p)
                     || equals (secondaryPhone f) (phones_number p)))
       (phones r).

(** Some government id of the customer is the supplied RFC, IFE or
    passport number, under the matching type. *)
Definition governmentIdMatches (r : Registry) (f : CustomerSearchFilters)
           (c : customers_row) : bool :=
  negb (supplied (rfc f) || supplied (ife f) || supplied (passport f))
  || existsb
       (fun g => (governmentIds_customerId g =? customers_id c)%string
                 && match governmentIds_type g with
                    | RFC => equals (rfc f) (governmentIds_number g)
                    | IFE => equals (ife f) (governmentIds_number g)
                    | Passport => equals (passport f) (governmentIds_number g)
                    end)
       (governmentIds r).

Definition fieldMatches (supplied_value : string) (stored : option string) : bool :=
  negb (supplied supplied_value)
  || match stored with
     | Some v => (v =? supplied_value)%string
     | None => false
     end.

(** One address of the customer satisfies every supplied address
    filter. *)
Definition addressMatches (r : Registry) (f : CustomerSearchFilters)
           (c : customers_row) : bool :=
  negb (supplied (stateId f) || supplied (municipalityId f)
        || supplied (neighborhoodId f) || supplied (postalCode f))
  || existsb
       (fun a => (addresses_customerId a =? customers_id c)%string
                 && fieldMatches (stateId f) (Some (addresses_stateId a))
                 && fieldMatches (municipalityId f) (Some (addresses_municipalityId a))
                 && fieldMatches (neighborhoodId f) (addresses_neighborhoodId a)
                 && fieldMatches (postalCode f) (addresses_postalCode a))
       (addresses r).

Definition matchesFilters (r : Registry) (f : CustomerSearchFilters)
           (c : customers_row) : bool :=
  namesMatch f c && phoneMatches r f c && governmentIdMatches r f c
  && addressMatches r f c.

End SinglePredicate.

(* ================================================================== *)
(** ** A small registry, used in the examples *)

Module Sample.
Import CardSecurity Schema.

Definition john : customers_row := mkCustomer "c1" "John" "Doe" None CustomerActive.
Definition jane : customers_row := mkCustomer "c2" "Jane" "Smith" (Some "A") CustomerActive.
Definition juan : customers_row := mkCustomer "c3" "Juan" "Doe" (Some "Perez") CustomerInactive.

Definition card1 : cards_row :=
  mkCardRow "card-1" "c1" "4532123456789012" Debit CardActive (Some "2025-12-31").
Definition card2 : cards_row :=
  mkCardRow "card-2" "c2" "5555123456789012" Credit CardExpired None.

(** Two time zones: UTC, and Mexico City, six hours behind it. *)
Definition utc : JsDates.TimeZone := fun _ _ _ => 0%Z.
Definition mexicoCity : JsDates.TimeZone := fun _ _ _ => (-360)%Z.

Definition sampleRegistry : Registry :=
  {| customers := [john; jane; juan];
     states := [mkName "s1" "Jalisco"];
     municipalities := [mkName "m1" "Zapopan"];
     neighborhoods := [mkName "n1" "Centro"];
     addresses :=
       [mkAddress "c1" "Av. 1" (Some "45000") "s1" "m1" (Some "n1") true;
        mkAddress "c2" "Calle 2" None "s1" "m1" None true;
        mkAddress "c3" "Calle 3" (Some "45000") "s1" "m9" None false];
     phones :=
       [mkPhone "c1" "5551234567"; mkPhone "c2" "5559876543";
        mkPhone "c1" "5550000000"];
     governmentIds :=
       [mkGovernmentId "c1" RFC "ABCD123456XYZ";
        mkGovernmentId "c2" IFE "12345678901234567890"];
     cards := [card1; card2] |}.

End Sample.

(* ================================================================== *)
(** ** Terms of the statements

    The vocabulary in which the properties below are stated: the formats
    the specification names, the projections of a registry it speaks of,
    and the candidates and the outcome of a search. *)

Module Terms.
Import JsString CardSecurity Schema Db Types Cards.
Import SearchValidation SinglePredicate.

(** What the specification calls well formed. *)
Definition exactlyDigits (n : nat) (s : string) : bool :=
  (length s =? n)%nat && forall_chars is_digit s.

Definition exactlyAlphanumeric (n : nat) (s : string) : bool :=
  (length s =? n)%nat && forall_chars is_alnum s.

(** A supplied field that breaks its format rule. *)
Definition malformedPhone (s : string) : bool := truthy s && negb (exactlyDigits 10 s).
Definition malformedRfc (s : string) : bool := truthy s && negb (exactlyAlphanumeric 13 s).
Definition malformedPostalCode (s : string) : bool := truthy s && negb (exactlyDigits 5 s).

Definition anyMalformed (f : CustomerSearchFilters) : bool :=
  malformedPhone (primaryPhone f) || malformedPhone (secondaryPhone f)
  || malformedRfc (rfc f) || malformedPostalCode (postalCode f).

Definition oneErrorIf (b : bool) (e : ValidationError) : list ValidationError :=
  if b then [e] else [].

(** One entry per malformed field, in the order of the rules. *)
Definition expectedErrors (f : CustomerSearchFilters) : list ValidationError :=
  oneErrorIf (malformedPhone (primaryPhone f)) primaryPhoneError
  ++ oneErrorIf (malformedPhone (secondaryPhone f)) secondaryPhoneError
  ++ oneErrorIf (malformedRfc (rfc f)) rfcError
  ++ oneErrorIf (malformedPostalCode (postalCode f)) postalCodeError.

(** The text before the first [/] and the text between the first and the
    second, as the destructuring [[month, year] = s.split('/')] binds
    them. *)
Definition monthText (s : string) : string :=
  show_undefined (nth_error (split "/" s) 0).
Definition yearText (s : string) : string :=
  show_undefined (nth_error (split "/" s) 1).

(** The year that is read from a year text: [20] followed by the digits
    the text begins with. *)
Definition yearRead (year : string) : Z :=
  decimal_value 0 ("20" ++ take_while is_digit year).

(** What the specification calls the [MM/YY] form: two digits, a slash,
    two digits; with the month and the year 20YY it denotes. *)
Definition wellFormedMMYY (s : string) : option (Z * Z) :=
  match s with
  | String m1 (String m2 (String "/" (String y1 (String y2 EmptyString)))) =>
      if is_digit m1 && is_digit m2 && is_digit y1 && is_digit y2
      then Some ((10 * digit_value m1 + digit_value m2)%Z,
                 (2000 + 10 * digit_value y1 + digit_value y2)%Z)
      else None
  | _ => None
  end.

(** What a card view shows of the stored card: the stored number itself,
    and its last four characters when it has that many. *)
Definition shows (card : cards_row) (v : CustomerCardData) : Prop :=
  id v = cards_id card
  /\ cardNumber v = cards_number card
  /\ ((length (cards_number card) < 4)%nat /\ lastFourDigits v = ""
      \/ exists prefix,
           cards_number card = (prefix ++ lastFourDigits v)%string
           /\ length (lastFourDigits v) = 4%nat).

Definition customerPresent (r : Registry) (customerId : string) : bool :=
  existsb (fun c => (customers_id c =? customerId)%string) (customers r).

Definition hasCards (r : Registry) (customerId : string) : bool :=
  existsb (fun c => (cards_customerId c =? customerId)%string) (cards r).

Definition cardPresent (r : Registry) (cardId : string) : bool :=
  existsb (fun c => (cards_id c =? cardId)%string) (cards r).

(** The rows a healthy connection returns for the enrichment of a
    customer. *)
Definition enriched (r : Registry) (customer : customers_row) : CustomerSearchResult :=
  CustomerSearch.buildResult customer
    (CustomerSearch.phoneRows r (customers_id customer))
    (CustomerSearch.rfcRows r (customers_id customer))
    (limit1 (CustomerSearch.primaryAddressRows r (customers_id customer))).

Definition respond (results : list CustomerSearchResult) : CustomerSearchResponse :=
  {| data := results; totalCount := List.length results |}.

(** The candidates left after the base query and the three passes. *)
Definition narrowed (r : Registry) (f : CustomerSearchFilters) : list customers_row :=
  let results :=
    filter (CustomerSearch.and
              (match CustomerSearch.nameConditions f with
               | [] => [fun _ => true]
               | _ => CustomerSearch.nameConditions f
               end))
           (customers r) in
  let results :=
    if truthy (primaryPhone f) || truthy (secondaryPhone f) then
      filter (fun c =>
                CustomerSearch.includes_id
                  (map phones_customerId
                       (filter (CustomerSearch.or (CustomerSearch.phoneConditions f))
                               (phones r)))
                  (customers_id c))
             results
    else results in
  let results :=
    if truthy (rfc f) || truthy (ife f) || truthy (passport f) then
      filter (fun c =>
                CustomerSearch.includes_id
                  (map governmentIds_customerId
                       (filter (CustomerSearch.or (CustomerSearch.govIdConditions f))
                               (governmentIds r)))
                  (customers_id c))
             results
    else results in
  if truthy (stateId f) || truthy (municipalityId f)
     || truthy (neighborhoodId f) || truthy (postalCode f) then
    filter (fun c =>
              CustomerSearch.includes_id
                (map addresses_customerId
                     (filter (CustomerSearch.and (CustomerSearch.addressConditions f))
                             (addresses r)))
                (customers_id c))
           results
  else results.

(** The filter set with the two fields that the search never reads
    emptied. *)
Definition withoutUnreadFilters (f : CustomerSearchFilters) : CustomerSearchFilters :=
  {| primaryPhone := primaryPhone f;
     secondaryPhone := secondaryPhone f;
     clientNumber := "";
     firstName := firstName f;
     lastName := lastName f;
     secondLastName := secondLastName f;
     dateOfBirth := "";
     rfc := rfc f;
     stateId := stateId f;
     municipalityId := municipalityId f;
     neighborhoodId := neighborhoodId f;
     postalCode := postalCode f;
     ife := ife f;
     passport := passport f |}.

End Terms.

(* ================================================================== *)
(** ** More of the regular expression syntax *)

Module RegexMore.
Import JsString Regex.

(** The empty expression. *)
Definition Eps : regex := Rep (Class []) 0.

(** [r{0,k}], greedy: one more [r] is tried before none. *)
Fixpoint AtMost (r : regex) (k : nat) : regex :=
  match k with
  | O => Eps
  | S k' => Alt (Seq r (AtMost r k')) Eps
  end.

(** [r{m,n}] *)
Definition Between (r : regex) (m n : nat) : regex :=
  Seq (Rep r m) (AtMost r (n - m)).

(** [.]: any character but a line terminator. *)
Definition Dot : regex :=
  Class [("000", "009"); ("011", "012"); ("014", "255")]%char.

(** The matches of a global expression, scanning from a position: the
    first way [run] finds is the match taken, the scan resumes where it
    ends, and one character further when nothing was consumed or nothing
    matched.  Each step consumes the subject or the fuel. *)
Fixpoint matches_from (fuel : nat) (icase : bool) (r : regex) (start : bool)
         (s : string) : list string :=
  match fuel with
  | O => []
  | S fuel' =>
      let next :=
        match s with
        | EmptyString => []
        | String _ s' => matches_from fuel' icase r false s'
        end in
      match run icase r (start, s) with
      | (_, rest) :: _ =>
          let found := take (length s - length rest) s in
          if truthy found then found :: matches_from fuel' icase r false rest
          else found :: next
      | [] => next
      end
  end.

(** [s.match(re)] for an expression with the [g] flag: the list of the
    matched texts, or [None] for [null] when there is none. *)
Definition match_global (icase : bool) (r : regex) (s : string) : option (list string) :=
  match matches_from (S (length s)) icase r true s with
  | [] => None
  | found => Some found
  end.

End RegexMore.

(* ================================================================== *)
(** ** Display and logging safety ([src/lib/utils/card-security.utils.ts]) *)

Module CardDisplay.
Import JsString Regex RegexMore CardSecurity.

(** [/.{1,4}/g] *)
Definition groupRegex : regex := Between Dot 1 4.

Definition formatMaskedCardNumber (maskedCardNumber : string) : string :=
  let cleaned := remove_whitespace maskedCardNumber in
  let formatted :=
    match match_global false groupRegex cleaned with
    | Some groups => or_else (String.concat " " groups) cleaned
    | None => cleaned
    end in
  formatted.

(** [/\d{13,19}/] *)
Definition fullNumberRegex : regex := Between Digit 13 19.

Definition isPCICompliantDisplay (displayText : string) : bool :=
  let cleaned := remove_whitespace displayText in
  let hasFullCardNumber := test false fullNumberRegex cleaned in
  negb hasFullCardNumber.

(** A value of a field the code does not look at. *)
Inductive JsValue : Type :=
| JsText (s : string)
| JsNumber (n : Z)
| JsBoolean (b : bool)
| JsNull.

(** The argument of [sanitizeCardDataForLogging]: the two optional string
    fields its type names, and the other own properties in their order. *)
Record CardLogData : Type := mkLogData {
  log_cardNumber : option string;
  log_cvv : option string;
  log_others : list (string * JsValue)
}.

Definition sanitizeCardDataForLogging (cardData : CardLogData) : CardLogData :=
  let sanitized := cardData in
  let sanitized :=
    match log_cardNumber sanitized with
    | Some n =>
        if truthy n
        then mkLogData (Some (maskCardNumber n)) (log_cvv sanitized) (log_others sanitized)
        else sanitized
    | None => sanitized
    end in
  let sanitized :=
    match log_cvv sanitized with
    | Some v =>
        if truthy v
        then mkLogData (log_cardNumber sanitized) None (log_others sanitized)
        else sanitized
    | None => sanitized
    end in
  sanitized.

End CardDisplay.

(* ================================================================== *)
(** ** More terms of the statements *)

Module MoreTerms.
Import JsString.

(** Some [n] consecutive characters of [s] all pass the test [p]. *)
Fixpoint hasRun (p : ascii -> bool) (n : nat) (s : string) : bool :=
  ((n <=? length s)%nat && forall_chars p (take n s))
  || match s with
     | EmptyString => false
     | String _ r => hasRun p n r
     end.

(** The text cut into groups of four characters, the last one shorter
    when the length is no multiple of four. *)
Fixpoint groupsOfFour (s : string) : list string :=
  match s with
  | EmptyString => []
  | String a (String b (String c (String d r))) =>
      String a (String b (String c (String d EmptyString))) :: groupsOfFour r
  | short => [short]
  end.

(** The characters that the dot of a regular expression accepts: all but
    the line terminators. *)
Definition dotp : ascii -> bool :=
  Regex.class_match false [("000", "009"); ("011", "012"); ("014", "255")]%char.

End MoreTerms.

(* ================================================================== *)
(** ** The remaining card action ([getActiveCardCount]) *)

Module CardCount.
Import JsString Schema Db Cards.

(** [id !== null] on a column that is a string. *)
Definition not_null (id : string) : bool := true.

(** The [select] of this action reads the rows that [CardsOfCustomer]
    names, and keeps their [id] column. *)
Definition getActiveCardCount (db : Connection) (customerId : string) : Promise nat :=
  try_catch
    (if blank customerId then Rejected "Customer ID is required"
     else
       result <-
         await db (CardsOfCustomer customerId)
           (map cards_id
                (filter (fun c => (cards_customerId c =? customerId)%string)
                        (cards (registry db)))) ;;
       let activeCards := filter not_null result in
       Resolved (List.length activeCards))
    (fun _ => Resolved 0%nat).

End CardCount.

(* ================================================================== *)
(** ** The card list of the selection screen

    The helpers of the component that displays the cards of a customer;
    it receives the views that [getCustomerCards] returns. *)

Module CardsDisplay.
Import JsString CardSecurity Schema Cards.

(** The texts of the enumerated columns, as the views carry them. *)
Definition cardType_text (t : CardType) : string :=
  match t with Debit => "debit" | Credit => "credit" | Prepaid => "prepaid" end.

Definition displayStatus_text (s : DisplayStatus) : string :=
  match s with active => "active" | inactive => "inactive" | blocked => "blocked" end.

(** A value together with the lines written to the console. *)
Definition Logged (A : Type) : Type := A * list string.

Definition getCardTypeName (cardType : string) (cardNumber : option string)
  : Logged string :=
  let type := toLowerCase cardType in
  let console :=
    match cardNumber with
    | Some number =>
        if truthy number then
          let detectedBrand := getCardBrand number in
          if negb (detectedBrand =? "Unknown")%string
             && negb (toLowerCase detectedBrand =? type)%string
          then [("Card type mismatch: stored=" ++ cardType ++ ", detected="
                 ++ detectedBrand)%string]
          else []
        else []
    | None => []
    end in
  (if (type =? "visa")%string then "Visa"
   else if (type =? "mastercard")%string then "MasterCard"
   else if (type =? "amex")%string || (type =? "american express")%string
   then "American Express"
   else cardType,
   console).

Inductive BadgeVariant : Type := default | secondary | destructive.

Definition getStatusVariant (status : string) : BadgeVariant :=
  if (status =? "active")%string then default
  else if (status =? "inactive")%string then secondary
  else if (status =? "blocked")%string then destructive
  else secondary.

Definition formatCardForDisplay (card : CustomerCardData) : Logged string :=
  let maskedNumber := maskCardNumber (cardNumber card) in
  let '(brandName, console) :=
    getCardTypeName (cardType_text (cardType card)) (Some (cardNumber card)) in
  ((brandName ++ " - " ++ maskedNumber)%string, console).

Definition getCardSecurityWarning (now : JsDate) (card : CustomerCardData) : option string :=
  let validation :=
    validateCardForTransaction now
      (mkCard (cardNumber card) (expirationDate card) (displayStatus_text (status card))) in
  if negb (isValid validation) then
    Some (match error validation with
          | Some e => or_else e "Tarjeta no válida para transacciones"
          | None => "Tarjeta no válida para transacciones"
          end)
  else None.

End CardsDisplay.

(* ================================================================== *)
(** ** The route [GET /api/customers/[customerId]/cards] *)

Module CardsRoute.
Import JsString CardSecurity Schema Db Cards.

Record CardDTO : Type := mkCardDTO {
  dto_id : string;
  dto_maskedNumber : string;
  dto_type : CardType;
  dto_status : DisplayStatus;
  dto_issuanceDate : string;
  dto_expirationDate : string
}.

Inductive Body : Type :=
| ErrorBody (error message : string)
| CardsBody (data : list CardDTO) (totalCount : nat).

Record Response : Type := mkResponse {
  status : nat;
  body : Body
}.

(** [xs.map((x, i) => f i x)] *)
Fixpoint map_indexed {A B : Type} (f : nat -> A -> B) (i : nat) (xs : list A) : list B :=
  match xs with
  | [] => []
  | x :: rest => f i x :: map_indexed f (S i) rest
  end.

(** An array is truthy. *)
Definition array_truthy {A : Type} (xs : list A) : bool := true.

(** [zone] is the time zone of the process, and [clock i] the text of
    [new Date().toISOString()] at its [i]-th evaluation. *)
Definition GET (db : Connection) (zone : JsDates.TimeZone) (clock : nat -> string)
           (customerId : string) : Promise Response :=
  try_catch
    (if negb (truthy customerId) then
       Resolved (mkResponse 400 (ErrorBody "ID requerido" "El ID del cliente es requerido"))
     else
       cards <- getCustomerCards db zone customerId ;;
       if negb (array_truthy cards) then
         Resolved (mkResponse 500
                     (ErrorBody "No se pudieron cargar las Tarjetas"
                                "Error al recuperar las tarjetas del cliente"))
       else
         let cardDTOs :=
           map_indexed
             (fun i card =>
                {| dto_id := id card;
                   dto_maskedNumber := maskCardNumber (cardNumber card);
                   dto_type := cardType card;
                   dto_status := Cards.status card;
                   dto_issuanceDate := clock i;
                   dto_expirationDate := expirationDate card |})
             0 cards in
         Resolved (mkResponse 200 (CardsBody cardDTOs (List.length cardDTOs))))
    (fun _ =>
       Resolved
         (mkResponse 500
            (ErrorBody "No se pudieron cargar las Tarjetas"
               "Error al recuperar las tarjetas del cliente. Por favor intente nuevamente."))).

End CardsRoute.

(* ================================================================== *)
(** ** The route [GET /api/customers/search] *)

Module SearchRoute.
Import JsString Regex Schema Db Types.

(** The query parameters the route reads; [None] is a parameter that the
    URL does not carry. *)
Record SearchParams : Type := mkParams {
  phoneNumber : option string;
  param_firstName : option string;
  param_lastName : option string;
  middleName : option string;
  rfcNumber : option string;
  param_stateId : option string;
  param_municipalityId : option string;
  param_neighborhoodId : option string;
  param_postalCode : option string;
  ifeNumber : option string;
  passportNumber : option string
}.

(** [searchParams.get(name) || ""] *)
Definition get_or_empty (value : option string) : string :=
  match value with
  | Some v => or_else v ""
  | None => ""
  end.

Definition filtersOf (searchParams : SearchParams) : CustomerSearchFilters :=
  {| primaryPhone := get_or_empty (phoneNumber searchParams);
     secondaryPhone := "";
     clientNumber := "";
     firstName := get_or_empty (param_firstName searchParams);
     lastName := get_or_empty (param_lastName searchParams);
     secondLastName := get_or_empty (middleName searchParams);
     dateOfBirth := "";
     rfc := get_or_empty (rfcNumber searchParams);
     stateId := get_or_empty (param_stateId searchParams);
     municipalityId := get_or_empty (param_municipalityId searchParams);
     neighborhoodId := get_or_empty (param_neighborhoodId searchParams);
     postalCode := get_or_empty (param_postalCode searchParams);
     ife := get_or_empty (ifeNumber searchParams);
     passport := get_or_empty (passportNumber searchParams) |}.

(** [Object.values(filters)] *)
Definition values (filters : CustomerSearchFilters) : list string :=
  [primaryPhone filters; secondaryPhone filters; clientNumber filters;
   firstName filters; lastName filters; secondLastName filters;
   dateOfBirth filters; rfc filters; stateId filters; municipalityId filters;
   neighborhoodId filters; postalCode filters; ife filters; passport filters].

Definition activeFilters (filters : CustomerSearchFilters) : list string :=
  filter (fun value => negb (value =? "")%string) (values filters).

Record CustomerSearchResultDTO : Type := mkResultDTO {
  dto_id : string;
  dto_firstName : string;
  dto_lastName : string;
  dto_middleName : option string;
  dto_status : string;
  dto_primaryPhone : string;
  dto_primaryAddress : string
}.

Inductive Body : Type :=
| ErrorBody (error message : string)
| SearchBody (data : list CustomerSearchResultDTO) (totalCount : nat).

Record Response : Type := mkResponse {
  status : nat;
  body : Body
}.

(** [/^\d{10}$/], [/^[A-Z0-9]{13}$/i], [/^\d{20}$/] and [/^\d{5}$/] *)
Definition phoneNumberRegex : regex := Seq Bol (Seq (Rep Digit 10) Eol).
Definition rfcNumberRegex : regex :=
  Seq Bol (Seq (Rep (Class [("A", "Z"); ("0", "9")]%char) 13) Eol).
Definition ifeNumberRegex : regex := Seq Bol (Seq (Rep Digit 20) Eol).
Definition postalCodeNumberRegex : regex := Seq Bol (Seq (Rep Digit 5) Eol).

Definition invalidFormat (message : string) : Response :=
  mkResponse 400 (ErrorBody "Formato inválido" message).

Definition GET (db : Connection) (searchParams : SearchParams) : Promise Response :=
  try_catch
    (let filters := filtersOf searchParams in
     if (List.length (activeFilters filters) <? 2)%nat then
       Resolved (mkResponse 400
                   (ErrorBody "Campos necesarios faltantes"
                              "Se requieren al menos dos filtros de búsqueda"))
     else if truthy (primaryPhone filters)
             && negb (test false phoneNumberRegex (primaryPhone filters)) then
       Resolved (invalidFormat "El número de teléfono debe tener exactamente 10 dígitos")
     else if truthy (rfc filters) && negb (test true rfcNumberRegex (rfc filters)) then
       Resolved (invalidFormat "El RFC debe tener exactamente 13 caracteres alfanuméricos")
     else if truthy (ife filters) && negb (test false ifeNumberRegex (ife filters)) then
       Resolved (invalidFormat "El IFE debe tener exactamente 20 dígitos")
     else if truthy (postalCode filters)
             && negb (test false postalCodeNumberRegex (postalCode filters)) then
       Resolved (invalidFormat "El código postal debe tener exactamente 5 dígitos")
     else
       searchResponse <- CustomerSearch.searchCustomers db filters ;;
       Resolved
         (mkResponse 200
            (SearchBody
               (map (fun customer =>
                       {| dto_id := result_id customer;
                          dto_firstName := result_firstName customer;
                          dto_lastName := result_lastName customer;
                          dto_middleName := result_secondLastName customer;
                          dto_status := result_status customer;
                          dto_primaryPhone := result_primaryPhone customer;
                          dto_primaryAddress := result_primaryAddress customer |})
                    (data searchResponse))
               (totalCount searchResponse))))
    (fun _ =>
       Resolved
         (mkResponse 500
            (ErrorBody "Error del servidor"
                       "Error al buscar clientes. Por favor intente nuevamente."))).

End SearchRoute.

(* ================================================================== *)
(** ** Workflow routing ([src/lib/utils/workflow-routing.ts]) *)

Module WorkflowRouting.
Import JsString.

Inductive WorkflowStep : Type :=
| StepSearch            (* "search" *)
| StepSelection         (* "selection" *)
| StepCustomerDetail    (* "customer-detail" *)
| StepCards             (* "cards" *)
| StepPayment.          (* "payment" *)

Definition step_eqb (a b : WorkflowStep) : bool :=
  match a, b with
  | StepSearch, StepSearch | StepSelection, StepSelection
  | StepCustomerDetail, StepCustomerDetail | StepCards, StepCards
  | StepPayment, StepPayment => true
  | _, _ => false
  end.

Definition ROUTE_SEARCH : string := "/customer-search".
Definition ROUTE_SELECTION : string := "/customer-search".
Definition ROUTE_CUSTOMER_DETAIL (id : string) : string := "/customer-detail/" ++ id.
Definition ROUTE_CARD_MANAGEMENT (id : string) : string := "/customer-cards/" ++ id.
Definition ROUTE_PAYMENT : string := "/payment".

Record StepConfig : Type := mkConfig {
  title : string;
  requiresCustomer : bool;
  requiresCard : bool
}.

Definition WORKFLOW_STEPS_CONFIG (step : WorkflowStep) : StepConfig :=
  match step with
  | StepSearch => mkConfig "Búsqueda de cliente" false false
  | StepSelection => mkConfig "Selección de cliente" false false
  | StepCustomerDetail => mkConfig "Información del Cliente" true false
  | StepCards => mkConfig "Gestión de tarjetas" true false
  | StepPayment => mkConfig "Procesamiento de pago" true true
  end.

Definition stepOrder : list WorkflowStep :=
  [StepSearch; StepSelection; StepCustomerDetail; StepCards; StepPayment].

(** [xs.indexOf(x)]; [None] stands for -1. *)
Fixpoint indexOf (x : WorkflowStep) (xs : list WorkflowStep) : option nat :=
  match xs with
  | [] => None
  | y :: rest =>
      if step_eqb y x then Some 0%nat
      else option_map S (indexOf x rest)
  end.

Definition getNextWorkflowStep (currentStep : WorkflowStep) : option WorkflowStep :=
  match indexOf currentStep stepOrder with
  | None => None
  | Some currentIndex =>
      if (currentIndex =? List.length stepOrder - 1)%nat then None
      else nth_error stepOrder (currentIndex + 1)
  end.

Definition getPreviousWorkflowStep (currentStep : WorkflowStep) : option WorkflowStep :=
  match indexOf currentStep stepOrder with
  | None => None
  | Some currentIndex =>
      if (currentIndex <=? 0)%nat then None
      else nth_error stepOrder (currentIndex - 1)
  end.

Definition canNavigateToStep (targetStep : WorkflowStep) (hasCustomer hasCard : bool) : bool :=
  let config := WORKFLOW_STEPS_CONFIG targetStep in
  if requiresCustomer config && negb hasCustomer then false
  else if requiresCard config && negb hasCard then false
  else true.

(** What a function that may throw gives. *)
Inductive Outcome (A : Type) : Type :=
| Returned (value : A)
| Thrown (message : string).
Arguments Returned {A} value.
Arguments Thrown {A} message.

(** [!customerId] for an optional string. *)
Definition missing (customerId : option string) : bool :=
  match customerId with
  | Some i => negb (truthy i)
  | None => true
  end.

Definition given (customerId : option string) : string :=
  match customerId with Some i => i | None => "" end.

Definition getStepRoute (step : WorkflowStep) (customerId : option string) : Outcome string :=
  match step with
  | StepSearch | StepSelection => Returned ROUTE_SEARCH
  | StepCustomerDetail =>
      if missing customerId then Thrown "Customer ID required for customer detail route"
      else Returned (ROUTE_CUSTOMER_DETAIL (given customerId))
  | StepCards =>
      if missing customerId then Thrown "Customer ID required for card management route"
      else Returned (ROUTE_CARD_MANAGEMENT (given customerId))
  | StepPayment => Returned ROUTE_PAYMENT
  end.

Definition getStepTitle (step : WorkflowStep) : string :=
  title (WORKFLOW_STEPS_CONFIG step).

Record TransitionResult : Type := mkTransition {
  valid : bool;
  transition_error : option string
}.

Definition validateWorkflowTransition (fromStep toStep : WorkflowStep)
           (hasCustomer hasCard : bool) : TransitionResult :=
  if negb (canNavigateToStep toStep hasCustomer hasCard) then
    let config := WORKFLOW_STEPS_CONFIG toStep in
    if requiresCustomer config && negb hasCustomer then
      mkTransition false (Some "Debe seleccionar un cliente antes de continuar.")
    else if requiresCard config && negb hasCard then
      mkTransition false (Some "Debe seleccionar una tarjeta antes de continuar.")
    else mkTransition true None
  else mkTransition true None.

Record Breadcrumb : Type := mkCrumb {
  label : string;
  href : option string
}.

Definition getWorkflowBreadcrumbs (currentStep : WorkflowStep) (customerId : option string)
  : list Breadcrumb :=
  let breadcrumbs := [] in
  match currentStep with
  | StepSearch | StepSelection =>
      breadcrumbs ++ [mkCrumb "Búsqueda de cliente y pago" None]
  | StepCustomerDetail =>
      (breadcrumbs ++ [mkCrumb "Búsqueda de cliente y pago" (Some ROUTE_SEARCH)])
      ++ [mkCrumb "Información del Cliente" None]
  | StepCards =>
      let breadcrumbs :=
        breadcrumbs ++ [mkCrumb "Búsqueda de cliente y pago" (Some ROUTE_SEARCH)] in
      let breadcrumbs :=
        if negb (missing customerId) then
          breadcrumbs ++ [mkCrumb "Información del Cliente"
                                  (Some (ROUTE_CUSTOMER_DETAIL (given customerId)))]
        else breadcrumbs in
      breadcrumbs ++ [mkCrumb "Gestión de tarjetas" None]
  | StepPayment =>
      let breadcrumbs :=
        breadcrumbs ++ [mkCrumb "Búsqueda de cliente y pago" (Some ROUTE_SEARCH)] in
      let breadcrumbs :=
        if negb (missing customerId) then
          breadcrumbs ++ [mkCrumb "Gestión de tarjetas"
                                  (Some (ROUTE_CARD_MANAGEMENT (given customerId)))]
        else breadcrumbs in
      breadcrumbs ++ [mkCrumb "Procesamiento de pago" None]
  end.

End WorkflowRouting.

(* ================================================================== *)
(** ** Terms for the statements about the routes *)

Module RouteTerms.
Import JsString Types Terms.

(** A supplied voter id that is not twenty digits. *)
Definition malformedIfe (s : string) : bool := truthy s && negb (exactlyDigits 20 s).

(** What makes the search route answer 400. *)
Definition refusedByRoute (f : CustomerSearchFilters) : bool :=
  (List.length (SearchRoute.activeFilters f) <? 2)%nat
  || malformedPhone (primaryPhone f)
  || malformedRfc (rfc f)
  || malformedIfe (ife f)
  || malformedPostalCode (postalCode f).

End RouteTerms.

(* ================================================================== *)
(** ** Terms for the statements about the search *)

Module SearchTerms.
Import JsString Types.

(** A filter value without any of the characters that [LIKE] reads as a
    wildcard or as the escape. *)
Definition plain (value : string) : bool :=
  forall_chars
    (fun c => negb (Ascii.eqb c "%" || Ascii.eqb c "_" || Ascii.eqb c "\")) value.

(** The filter set in which nothing is supplied. *)
Definition noFilters : CustomerSearchFilters :=
  mkFilters "" "" "" "" "" "" "" "" "" "" "" "" "" "".

(** A field is kept as it was, or supplied where it was empty. *)
Definition keptOrAdded (before after : string) : Prop :=
  before = "" \/ after = before.

(** [after] asks for more than [before]: name and address fields are kept
    or added, and the phone pair and the three government ids are kept as
    they were, or supplied where none of the group was. *)
Definition asksMore (before after : CustomerSearchFilters) : Prop :=
  keptOrAdded (firstName before) (firstName after)
  /\ keptOrAdded (lastName before) (lastName after)
  /\ keptOrAdded (secondLastName before) (secondLastName after)
  /\ keptOrAdded (stateId before) (stateId after)
  /\ keptOrAdded (municipalityId before) (municipalityId after)
  /\ keptOrAdded (neighborhoodId before) (neighborhoodId after)
  /\ keptOrAdded (postalCode before) (postalCode after)
  /\ ((primaryPhone before = "" /\ secondaryPhone before = "")
      \/ (primaryPhone after = primaryPhone before
          /\ secondaryPhone after = secondaryPhone before))
  /\ ((rfc before = "" /\ ife before = "" /\ passport before = "")
      \/ (rfc after = rfc before /\ ife after = ife before
          /\ passport after = passport before)).

(** The filter set with a second phone number supplied. *)
Definition withSecondaryPhone (f : CustomerSearchFilters) (number : string)
  : CustomerSearchFilters :=
  {| primaryPhone := primaryPhone f;
     secondaryPhone := number;
     clientNumber := clientNumber f;
     firstName := firstName f;
     lastName := lastName f;
     secondLastName := secondLastName f;
     dateOfBirth := dateOfBirth f;
     rfc := rfc f;
     stateId := stateId f;
     municipalityId := municipalityId f;
     neighborhoodId := neighborhoodId f;
     postalCode := postalCode f;
     ife := ife f;
     passport := passport f |}.

End SearchTerms.

(* ================================================================== *)
(** ** How far an expression reads *)

Module RegexBounds.
Import Regex.

(** The most characters a match of [r] consumes. *)
Fixpoint maxConsumed (r : regex) : nat :=
  match r with
  | Bol | Eol => 0
  | Lit _ | Class _ => 1
  | Seq r1 r2 => maxConsumed r1 + maxConsumed r2
  | Alt r1 r2 => Nat.max (maxConsumed r1) (maxConsumed r2)
  | Rep r1 n => n * maxConsumed r1
  end.

(** [r] holds no [$]. *)
Fixpoint endFree (r : regex) : bool :=
  match r with
  | Eol => false
  | Bol | Lit _ | Class _ => true
  | Seq r1 r2 | Alt r1 r2 => endFree r1 && endFree r2
  | Rep r1 _ => endFree r1
  end.

(** A position, with more text after it. *)
Definition extend (more : string) (pos : position) : position :=
  (fst pos, (snd pos ++ more)%string).

End RegexBounds.

(* ================================================================== *)
(** ** Terms for the statements about failures *)

Module FailureTerms.
Import Db.

(** The data access of a query fails on a connection. *)
Definition fails (db : Connection) (q : Query) : bool :=
  match failure db q with
  | Some _ => true
  | None => false
  end.

End FailureTerms.

(* ================================================================== *)
(** * Properties *)

Import Terms.

(** ** Strings and regular expressions *)

Section RegexFacts.
Import JsString Regex.

Lemma iterate_nil {A : Type} (f : A -> list A) (n : nat) : iterate f n [] = [].
Proof. induction n as [|n IH]; simpl; auto. Qed.

(** A counted repetition of one character test consumes exactly [n]
    characters that all pass the test. *)
Lemma iterate_step_char (p : ascii -> bool) (n : nat) :
  forall (b : bool) (s : string),
    iterate (step_char p) n [(b, s)] =
    if (n <=? length s)%nat && forall_chars p (take n s)
    then [(match n with O => b | S _ => false end, skip n s)]
    else [].
Proof.
  induction n as [|n IH]; intros b s.
  - reflexivity.
  - cbn [iterate flat_map]. rewrite app_nil_r.
    destruct s as [|c r]; [apply iterate_nil|].
    unfold step_char at 2. cbn [snd take skip forall_chars length].
    destruct (p c); cbn [andb].
    + rewrite IH. change (S n <=? S (length r))%nat with (n <=? length r)%nat.
      destruct ((n <=? length r)%nat && forall_chars p (take n r)); [|reflexivity].
      destruct n; reflexivity.
    + rewrite iterate_nil, andb_false_r. reflexivity.
Qed.

Lemma take_all (s : string) : take (length s) s = s.
Proof. induction s as [|c r IH]; simpl; congruence. Qed.

Lemma skip_all (s : string) : skip (length s) s = EmptyString.
Proof. induction s as [|c r IH]; simpl; auto. Qed.

Lemma skip_empty_iff (n : nat) :
  forall s, (n <= length s)%nat -> skip n s = EmptyString -> n = length s.
Proof.
  induction n as [|n IH]; intros [|c r] Hle Hs; simpl in *; try lia; try discriminate.
  f_equal. apply IH; [lia | assumption].
Qed.

(** An expression that begins with [^] matches at the start of the
    subject or nowhere. *)
Lemma search_bol_later (icase : bool) (r : regex) (s : string) :
  search icase (Seq Bol r) false s = false.
Proof. induction s as [|c t IH]; simpl; auto. Qed.

Lemma test_bol (icase : bool) (r : regex) (s : string) :
  test icase (Seq Bol r) s = matches_at icase r (true, s).
Proof.
  unfold test. destruct s as [|c t]; cbn [search].
  - rewrite orb_false_r. unfold matches_at. simpl. now rewrite app_nil_r.
  - rewrite search_bol_later, orb_false_r. unfold matches_at. simpl.
    now rewrite app_nil_r.
Qed.

(** [/^[class]{n}$/] accepts exactly the strings of [n] characters of the
    class. *)
Lemma test_exactly (icase : bool) (ranges : list (ascii * ascii)) (n : nat) (s : string) :
  test icase (Seq Bol (Seq (Rep (Class ranges) n) Eol)) s =
  (length s =? n)%nat && forall_chars (class_match icase ranges) s.
Proof.
  rewrite test_bol. unfold matches_at. cbn [run].
  rewrite iterate_step_char.
  destruct (Nat.leb_spec n (length s)) as [Hle|Hlt]; cbn [andb].
  - destruct (Nat.eqb_spec (length s) n) as [Heq|Hne].
    + subst n. rewrite take_all, skip_all.
      destruct (forall_chars _ s); reflexivity.
    + destruct (forall_chars _ (take n s)); [|reflexivity].
      cbn [flat_map run snd]. destruct (skip n s) eqn:Hs; [|reflexivity].
      exfalso. apply Hne. symmetry. now apply skip_empty_iff.
  - destruct (Nat.eqb_spec (length s) n); [lia | reflexivity].
Qed.

Lemma digit_class (c : ascii) : class_match false [("0", "9")%char] c = is_digit c.
Proof. unfold class_match, in_class. simpl. apply orb_false_r. Qed.

Lemma alnum_class (c : ascii) :
  class_match true [("A", "Z"); ("0", "9")]%char c = is_alnum c.
Proof. destruct c as [[] [] [] [] [] [] [] []]; reflexivity. Qed.

Lemma forall_chars_ext (p q : ascii -> bool) (s : string) :
  (forall c, p c = q c) -> forall_chars p s = forall_chars q s.
Proof. intros H. induction s as [|c r IH]; simpl; [reflexivity|]. now rewrite H, IH. Qed.

End RegexFacts.

(** ** Filter validation *)

Section ValidationFacts.
Import JsString Regex Types SearchValidation.

Lemma validatePhoneNumber_spec (s : string) :
  validatePhoneNumber s = negb (truthy s) || exactlyDigits 10 s.
Proof.
  unfold validatePhoneNumber, phoneRegex, Digit, exactlyDigits.
  destruct (truthy s); cbn [negb orb]; [|reflexivity].
  rewrite test_exactly. f_equal. apply forall_chars_ext, digit_class.
Qed.

Lemma validateRFC_spec (s : string) :
  validateRFC s = negb (truthy s) || exactlyAlphanumeric 13 s.
Proof.
  unfold validateRFC, rfcRegex, exactlyAlphanumeric.
  destruct (truthy s); cbn [negb orb]; [|reflexivity].
  rewrite test_exactly. f_equal. apply forall_chars_ext, alnum_class.
Qed.

Lemma validatePostalCode_spec (s : string) :
  validatePostalCode s = negb (truthy s) || exactlyDigits 5 s.
Proof.
  unfold validatePostalCode, postalCodeRegex, Digit, exactlyDigits.
  destruct (truthy s); cbn [negb orb]; [|reflexivity].
  rewrite test_exactly. f_equal. apply forall_chars_ext, digit_class.
Qed.

(** The address fields count once, however many of them are set. *)
Lemma countFilledFilters_address_once (f : CustomerSearchFilters) :
  countFilledFilters f =
  (Nat.b2n (truthy (primaryPhone f)) + Nat.b2n (truthy (secondaryPhone f))
   + Nat.b2n (truthy (clientNumber f)) + Nat.b2n (truthy (firstName f))
   + Nat.b2n (truthy (lastName f)) + Nat.b2n (truthy (secondLastName f))
   + Nat.b2n (truthy (dateOfBirth f)) + Nat.b2n (truthy (rfc f))
   + Nat.b2n (truthy (stateId f) || truthy (municipalityId f)
              || truthy (neighborhoodId f) || truthy (postalCode f))
   + Nat.b2n (truthy (ife f)) + Nat.b2n (truthy (passport f)))%nat.
Proof.
  unfold countFilledFilters, bump.
  repeat match goal with |- context [truthy ?x] => destruct (truthy x) end;
    reflexivity.
Qed.

End ValidationFacts.

(** C3. A filter set with fewer than two filled groups (the four address
    fields counting for one group at most) is rejected with the general
    error and an empty list of field errors, whatever the format of its
    fields. *)
Theorem validateSearchFilters_minimum_filters :
  forall f : Types.CustomerSearchFilters,
    (SearchValidation.countFilledFilters f < 2)%nat ->
    SearchValidation.validateSearchFilters f =
    SearchValidation.mkResult false [] (Some SearchValidation.minimumFiltersMessage).
Proof.
  intros f H. unfold SearchValidation.validateSearchFilters.
  apply Nat.ltb_lt in H. now rewrite H.
Qed.

Lemma validateSearchFilters_minimum_filters_witness :
  SearchValidation.validateSearchFilters
    (Types.mkFilters "" "" "" "" "" "" "" "" "s1" "m1" "n1" "1" "" "") =
  SearchValidation.mkResult false [] (Some SearchValidation.minimumFiltersMessage).
Proof.
  apply validateSearchFilters_minimum_filters. vm_compute. lia.
Defined.

(** C4. With two filled groups or more and some malformed field among the
    phones, the RFC and the postal code, the validator answers
    [isValid = false] with exactly one field error per malformed field, all
    of them together, and no general error. *)
Theorem validateSearchFilters_format_errors :
  forall f : Types.CustomerSearchFilters,
    (2 <= SearchValidation.countFilledFilters f)%nat ->
    anyMalformed f = true ->
    SearchValidation.validateSearchFilters f =
    SearchValidation.mkResult false (expectedErrors f) None.
Proof.
  intros f Hcount Hbad. unfold SearchValidation.validateSearchFilters.
  destruct (Nat.ltb_spec (SearchValidation.countFilledFilters f) 2) as [Hlt|_]; [lia|].
  rewrite validatePhoneNumber_spec, validatePhoneNumber_spec,
    validateRFC_spec, validatePostalCode_spec.
  unfold anyMalformed, expectedErrors, malformedPhone, malformedRfc,
    malformedPostalCode in *.
  destruct (Types.primaryPhone f) as [|a1 p1], (Types.secondaryPhone f) as [|a2 p2],
    (Types.rfc f) as [|a3 p3], (Types.postalCode f) as [|a4 p4];
    cbn [JsString.truthy negb andb orb] in *;
    repeat match goal with
      | |- context [exactlyDigits ?n ?s] => destruct (exactlyDigits n s)
      | |- context [exactlyAlphanumeric ?n ?s] => destruct (exactlyAlphanumeric n s)
      end;
    cbn in *; try discriminate; reflexivity.
Qed.

Lemma validateSearchFilters_format_errors_witness :
  SearchValidation.validateSearchFilters
    (Types.mkFilters "555" "5559876543" "" "John" "" "" "" "ABC" "" "" "" "123" "" "") =
  SearchValidation.mkResult false
    [SearchValidation.primaryPhoneError; SearchValidation.rfcError;
     SearchValidation.postalCodeError] None.
Proof.
  apply (validateSearchFilters_format_errors
           (Types.mkFilters "555" "5559876543" "" "John" "" "" "" "ABC" "" "" "" "123" "" "")).
  - vm_compute. lia.
  - reflexivity.
Defined.

(** ** Card security utilities *)

Section CardSecurityFacts.
Import JsString CardSecurity.

Lemma digit_cases (c : ascii) :
  is_digit c = true ->
  In c ["0"; "1"; "2"; "3"; "4"; "5"; "6"; "7"; "8"; "9"]%char.
Proof.
  destruct c as [[] [] [] [] [] [] [] []]; intros H;
    try discriminate H; simpl; tauto.
Qed.

Ltac each_digit H :=
  apply digit_cases in H; simpl in H;
  repeat match type of H with
    | _ \/ _ => destruct H as [H|H]
    end; [subst.. | contradiction].

Lemma digit_not_slash (c : ascii) : is_digit c = true -> Ascii.eqb c "/" = false.
Proof. intros H. each_digit H; reflexivity. Qed.

Lemma parseInt_two_digits (a b : ascii) :
  is_digit a = true -> is_digit b = true ->
  parseInt (String a (String b "")) = Some (10 * digit_value a + digit_value b)%Z.
Proof. intros Ha Hb. each_digit Ha; each_digit Hb; reflexivity. Qed.

Lemma parseInt_year (a b : ascii) :
  is_digit a = true -> is_digit b = true ->
  parseInt ("20" ++ String a (String b "")) =
  Some (2000 + 10 * digit_value a + digit_value b)%Z.
Proof. intros Ha Hb. each_digit Ha; each_digit Hb; reflexivity. Qed.

Lemma isCardExpired_no_slash (now : JsDate) (s : string) :
  includes "/" s = false -> isCardExpired now s = true.
Proof.
  intros H. unfold isCardExpired. rewrite H. cbn [negb].
  now rewrite orb_true_r.
Qed.

Lemma isCardExpired_unparsable (now : JsDate) (s : string) :
  parseInt (monthText s) = None ->
  isCardExpired now s = true.
Proof.
  intros H. unfold isCardExpired.
  destruct (negb (truthy s) || negb (includes "/" s)); [reflexivity|].
  fold (monthText s) (yearText s).
  rewrite H. reflexivity.
Qed.

(** After the prefix [20] a year is always read: [isNaN(expYear)] never
    holds. *)
Lemma parseInt_year_read (year : string) :
  parseInt ("20" ++ year) = Some (yearRead year).
Proof.
  unfold parseInt, yearRead.
  change (trimStart ("20" ++ year)) with ("20" ++ year)%string.
  reflexivity.
Qed.

Lemma includes_truthy (s : string) : includes "/" s = true -> truthy s = true.
Proof. destruct s; [discriminate | reflexivity]. Qed.

Lemma isCardExpired_compares (now : JsDate) (s : string) (m : Z) :
  includes "/" s = true ->
  parseInt (monthText s) = Some m ->
  isCardExpired now s =
  ((yearRead (yearText s) <? getFullYear now)%Z
   || ((yearRead (yearText s) =? getFullYear now)%Z && (m <? getMonth now + 1)%Z)).
Proof.
  intros Hs Hm. unfold isCardExpired.
  rewrite Hs, (includes_truthy s Hs). cbn [negb orb].
  fold (monthText s) (yearText s).
  rewrite Hm, parseInt_year_read.
  destruct (_ <? getFullYear now)%Z; [reflexivity|].
  destruct (_ && _); reflexivity.
Qed.

Lemma isCardExpired_well_formed (now : JsDate) (s : string) (m y : Z) :
  wellFormedMMYY s = Some (m, y) ->
  isCardExpired now s =
  ((y <? getFullYear now)%Z
   || ((y =? getFullYear now)%Z && (m <? getMonth now + 1)%Z)).
Proof.
  unfold wellFormedMMYY.
  destruct s as [|m1 [|m2 [|sl r]]]; try discriminate.
  destruct (Ascii.eqb_spec sl "/") as [->|Hsl].
  2:{ destruct sl as [[] [] [] [] [] [] [] []]; try discriminate; congruence. }
  destruct r as [|y1 [|y2 [|? ?]]]; try discriminate.
  destruct (is_digit m1) eqn:H1, (is_digit m2) eqn:H2,
    (is_digit y1) eqn:H3, (is_digit y2) eqn:H4; try discriminate.
  cbn [andb]. intros [= <- <-].
  unfold isCardExpired.
  cbn [truthy negb orb includes split].
  rewrite (digit_not_slash _ H1), (digit_not_slash _ H2),
    (digit_not_slash _ H3), (digit_not_slash _ H4).
  cbn [Ascii.eqb Bool.eqb orb negb nth_error show_undefined].
  rewrite (parseInt_two_digits _ _ H1 H2), (parseInt_year _ _ H3 H4).
  destruct (_ <? getFullYear now)%Z; [reflexivity|].
  destruct (_ && _); reflexivity.
Qed.

End CardSecurityFacts.

(** C5, as the code has it.  [isCardExpired] answers true for the empty
    string, for every string without a slash, and for every string whose
    month text does not begin with an integer.  On every other string it
    compares: the month is the integer that the month text begins with,
    the year is [20] followed by the digits that the year text begins
    with, and the answer is true exactly when that year and month lie
    strictly before the current ones.  So a well-formed [MM/YY] is expired
    exactly when year 20YY and month MM lie strictly before the current
    year and month, a string outside the form is compared by the integers
    its parts begin with, and a year text that begins with no digit is read
    as the year 20, which is before every current year after 20. *)
Theorem isCardExpired_fail_closed :
  forall (now : CardSecurity.JsDate) (s : string),
    (s = "" -> CardSecurity.isCardExpired now s = true)
    /\ (JsString.includes "/" s = false -> CardSecurity.isCardExpired now s = true)
    /\ (JsString.parseInt (monthText s) = None ->
        CardSecurity.isCardExpired now s = true)
    /\ (forall m : Z,
          JsString.includes "/" s = true ->
          JsString.parseInt (monthText s) = Some m ->
          (CardSecurity.isCardExpired now s = true <->
           (yearRead (yearText s) < CardSecurity.getFullYear now
            \/ (yearRead (yearText s) = CardSecurity.getFullYear now
                /\ m < CardSecurity.getMonth now + 1))%Z))
    /\ (forall m y : Z,
          wellFormedMMYY s = Some (m, y) ->
          (CardSecurity.isCardExpired now s = true <->
           (y < CardSecurity.getFullYear now
            \/ (y = CardSecurity.getFullYear now
                /\ m < CardSecurity.getMonth now + 1))%Z))
    /\ (JsString.take_while JsString.is_digit (yearText s) = "" ->
        (20 < CardSecurity.getFullYear now)%Z ->
        CardSecurity.isCardExpired now s = true).
Proof.
  intros now s. split; [|split; [|split; [|split; [|split]]]].
  - intros ->. reflexivity.
  - apply isCardExpired_no_slash.
  - apply isCardExpired_unparsable.
  - intros m Hs Hm. rewrite (isCardExpired_compares now s m Hs Hm).
    rewrite orb_true_iff, andb_true_iff, !Z.ltb_lt, Z.eqb_eq. tauto.
  - intros m y H. rewrite (isCardExpired_well_formed now s m y H).
    rewrite orb_true_iff, andb_true_iff, !Z.ltb_lt, Z.eqb_eq. tauto.
  - intros Hy Hnow.
    destruct (JsString.includes "/" s) eqn:Hs;
      [|now apply isCardExpired_no_slash].
    destruct (JsString.parseInt (monthText s)) as [m|] eqn:Hm;
      [|now apply isCardExpired_unparsable].
    rewrite (isCardExpired_compares now s m Hs Hm).
    unfold yearRead. rewrite Hy.
    change (JsString.decimal_value 0 ("20" ++ "")) with 20%Z.
    apply orb_true_iff. left. now apply Z.ltb_lt.
Qed.

(** In November 2026: a card of October 2026 is expired and a card of
    November 2026 is not; ["12/30abc"] is compared as December 2030 and is
    not expired, ["12/ab"] is read as of the year 20 and is. *)
Lemma isCardExpired_fail_closed_witness :
  CardSecurity.isCardExpired (CardSecurity.mkDate 2026 10) "10/26" = true
  /\ CardSecurity.isCardExpired (CardSecurity.mkDate 2026 10) "11/26" = false
  /\ CardSecurity.isCardExpired (CardSecurity.mkDate 2026 10) "invalid" = true
  /\ CardSecurity.isCardExpired (CardSecurity.mkDate 2026 10) "ab/26" = true
  /\ CardSecurity.isCardExpired (CardSecurity.mkDate 2026 10) "12/30abc" = false
  /\ CardSecurity.isCardExpired (CardSecurity.mkDate 2026 10) "12/ab" = true.
Proof.
  pose (now := CardSecurity.mkDate 2026 10).
  split; [|split; [|split; [|split; [|split]]]].
  - apply (proj1 (proj2 (proj2 (proj2 (proj2 (isCardExpired_fail_closed now "10/26")))))
             10%Z 2026%Z eq_refl).
    simpl. lia.
  - apply not_true_is_false. intros H.
    apply (proj1 (proj2 (proj2 (proj2 (proj2 (isCardExpired_fail_closed now "11/26")))))
             11%Z 2026%Z eq_refl) in H.
    simpl in H. lia.
  - apply (proj1 (proj2 (isCardExpired_fail_closed now "invalid"))).
    reflexivity.
  - apply (proj1 (proj2 (proj2 (isCardExpired_fail_closed now "ab/26")))).
    reflexivity.
  - apply not_true_is_false. intros H.
    apply (proj1 (proj2 (proj2 (proj2 (isCardExpired_fail_closed now "12/30abc"))))
             12%Z eq_refl eq_refl) in H.
    vm_compute in H. destruct H as [H|[H _]]; discriminate H.
  - apply (proj2 (proj2 (proj2 (proj2 (proj2 (isCardExpired_fail_closed now "12/ab"))))));
      [reflexivity | simpl; lia].
Defined.

(** C5, as the claim states it, fails: ["12/30abc"] is not in [MM/YY]
    form, and in November 2026 it is not reported as expired. *)
Lemma isCardExpired_malformed_not_expired :
  wellFormedMMYY "12/30abc" = None
  /\ CardSecurity.isCardExpired (CardSecurity.mkDate 2026 10) "12/30abc" = false.
Proof. split; vm_compute; reflexivity. Qed.

(** C6.  The code departs from the ranges it documents at two places:
    a number that begins with 2220 is reported as MasterCard, below the
    range 2221-2720, and a number that begins with 622130 is reported as
    Unknown, inside the Discover range 622126-622925. *)
Theorem getCardBrand_range_slips :
  CardSecurity.getCardBrand "2220000000000000" = "MasterCard"
  /\ CardSecurity.getCardBrand "6221300000000000" = "Unknown"
  /\ CardSecurity.getCardBrand "2221000000000000" = "MasterCard"
  /\ CardSecurity.getCardBrand "6221260000000000" = "Discover".
Proof. repeat split; vm_compute; reflexivity. Qed.

(** C7.  [validateCardForTransaction] checks the length, then the
    expiration, then the status, and reports the first check that fails; it
    answers [isValid = true] exactly when the three checks pass. *)
Theorem validateCardForTransaction_order :
  forall (now : CardSecurity.JsDate) (card : CardSecurity.Card),
    let result := CardSecurity.validateCardForTransaction now card in
    (CardSecurity.isValidCardLength (CardSecurity.cardNumber card) = false ->
     result = CardSecurity.mkValidation false (Some CardSecurity.invalidNumberMessage))
    /\ (CardSecurity.isValidCardLength (CardSecurity.cardNumber card) = true ->
        CardSecurity.isCardExpired now (CardSecurity.expirationDate card) = true ->
        result = CardSecurity.mkValidation false (Some CardSecurity.expiredMessage))
    /\ (CardSecurity.isValidCardLength (CardSecurity.cardNumber card) = true ->
        CardSecurity.isCardExpired now (CardSecurity.expirationDate card) = false ->
        CardSecurity.isCardUsable (CardSecurity.status card) = false ->
        result = CardSecurity.mkValidation false
                   (Some (CardSecurity.notUsableMessage (CardSecurity.status card))))
    /\ (CardSecurity.isValid result = true <->
        CardSecurity.isValidCardLength (CardSecurity.cardNumber card) = true
        /\ CardSecurity.isCardExpired now (CardSecurity.expirationDate card) = false
        /\ CardSecurity.isCardUsable (CardSecurity.status card) = true).
Proof.
  intros now card result. subst result.
  unfold CardSecurity.validateCardForTransaction.
  destruct (CardSecurity.isValidCardLength _),
    (CardSecurity.isCardExpired now _), (CardSecurity.isCardUsable _);
    cbn; repeat split; intros; try discriminate; try reflexivity;
    try tauto; intuition discriminate.
Qed.

(** A card that is too short, expired and blocked at once reports the
    length error. *)
Lemma validateCardForTransaction_order_witness :
  CardSecurity.validateCardForTransaction (CardSecurity.mkDate 2026 10)
    (CardSecurity.mkCard "12345" "01/20" "blocked") =
  CardSecurity.mkValidation false (Some CardSecurity.invalidNumberMessage).
Proof.
  apply (proj1 (validateCardForTransaction_order (CardSecurity.mkDate 2026 10)
                  (CardSecurity.mkCard "12345" "01/20" "blocked"))).
  reflexivity.
Defined.

(** ** Card server actions *)

Section CardsFacts.
Import JsString CardSecurity Schema Db Cards.

Lemma take_skip (n : nat) : forall s, (take n s ++ skip n s)%string = s.
Proof. induction n as [|n IH]; intros [|c r]; simpl; try reflexivity. now rewrite IH. Qed.

Lemma length_skip (n : nat) : forall s, length (skip n s) = (length s - n)%nat.
Proof. induction n as [|n IH]; intros [|c r]; simpl; auto with arith. Qed.

(** From a number of four characters or more, [slice(-4)] keeps the
    last four. *)
Lemma slice_last_suffix (n : nat) (s : string) :
  (n <= length s)%nat ->
  exists prefix, s = (prefix ++ slice_last n s)%string /\ length (slice_last n s) = n.
Proof.
  intros H. unfold slice_last. exists (take (length s - n) s). split.
  - symmetry. apply take_skip.
  - rewrite length_skip. lia.
Qed.

Lemma toCardData_shows (zone : JsDates.TimeZone) (first : string)
      (middle : option string) (last : string) (card : cards_row) :
  shows card (toCardData zone first middle last card).
Proof.
  unfold shows, toCardData. cbn [id cardNumber lastFourDigits].
  repeat split. unfold getLastFourDigits.
  destruct (cards_number card) as [|c r] eqn:E.
  - left. simpl. split; [lia | reflexivity].
  - cbn [truthy negb orb]. destruct (Nat.ltb_spec (length (String c r)) 4) as [Hlt|Hge].
    + left. split; [exact Hlt | reflexivity].
    + right. now apply slice_last_suffix.
Qed.

Lemma filter_none {A : Type} (p : A -> bool) (l : list A) :
  existsb p l = false -> filter p l = [].
Proof.
  induction l as [|x l IH]; simpl; [reflexivity|].
  destruct (p x); simpl; [discriminate | exact IH].
Qed.

Lemma filter_some {A : Type} (p : A -> bool) (l : list A) :
  existsb p l = true -> exists x rest, filter p l = x :: rest.
Proof.
  induction l as [|x l IH]; simpl; [discriminate|].
  destruct (p x); simpl; eauto.
Qed.

Lemma join_card_absent (r : Registry) (cardId : string) :
  cardPresent r cardId = false ->
  filter (fun row => (cards_id (fst row) =? cardId)%string) (cards_join_customers r) = [].
Proof.
  unfold cardPresent, cards_join_customers. intros H.
  induction (cards r) as [|card l IH]; [reflexivity|].
  simpl in H. apply orb_false_iff in H as [Hc Hl].
  cbn [flat_map]. rewrite filter_app, (IH Hl), app_nil_r.
  induction (filter _ (customers r)) as [|c cs IHc]; [reflexivity|].
  simpl. now rewrite Hc.
Qed.

End CardsFacts.

(** The number in a card view is the stored one, for every registry and
    every card: each view returned by [getCustomerCards], and the one
    returned by [getCardById], is built from a stored card and carries
    that card's number unchanged in [cardNumber]; [lastFourDigits] holds
    the last four characters of the number, or nothing when the number is
    shorter. *)
Lemma card_views_show_stored_number :
  forall (db : Db.Connection) (zone : JsDates.TimeZone) (key : string),
    (forall views v,
        Cards.getCustomerCards db zone key = Db.Resolved views ->
        In v views ->
        exists card,
          In card (Schema.cards (Db.registry db))
          /\ Schema.cards_customerId card = key
          /\ shows card v)
    /\ (forall v,
           Cards.getCardById db zone key = Db.Resolved (Some v) ->
           exists card,
             In card (Schema.cards (Db.registry db))
             /\ Schema.cards_id card = key
             /\ shows card v).
Proof.
  intros db zone key. split.
  - intros views v. unfold Cards.getCustomerCards, Db.await.
    destruct (Cards.blank key); [discriminate|].
    destruct (Db.failure db (Db.CustomerById key)); [discriminate|].
    cbn [Db.bind].
    destruct (Db.limit1 _) as [|customer rest].
    + cbn. intros [= <-] [].
    + destruct (Db.failure db (Db.CardsOfCustomer key)); [discriminate|].
      cbn. intros [= <-] Hin.
      apply in_map_iff in Hin as (card & <- & Hin).
      apply filter_In in Hin as [Hin Hid].
      apply String.eqb_eq in Hid.
      exists card. repeat split; try assumption; apply toCardData_shows.
  - intros v. unfold Cards.getCardById, Db.await.
    destruct (Cards.blank key); [discriminate|].
    destruct (Db.failure db (Db.CardWithCustomer key)); [discriminate|].
    cbn [Db.bind].
    destruct (Db.limit1 _) as [|result rest] eqn:E; cbn; [discriminate|].
    intros [= <-].
    assert (Hin : In result
                    (filter (fun row => (Schema.cards_id (fst row) =? key)%string)
                            (Cards.cards_join_customers (Db.registry db)))).
    { unfold Db.limit1 in E.
      destruct (filter _ _) as [|x xs]; [discriminate|].
      cbn in E. injection E as <- _. now left. }
    apply filter_In in Hin as [Hin Hid]. apply String.eqb_eq in Hid.
    unfold Cards.cards_join_customers in Hin.
    apply in_flat_map in Hin as (card & Hcard & Hrow).
    apply in_map_iff in Hrow as (customer & <- & _).
    exists card. repeat split; try assumption; apply toCardData_shows.
Qed.

Lemma card_views_show_stored_number_witness :
  exists card,
    In card (Schema.cards Sample.sampleRegistry)
    /\ Schema.cards_customerId card = "c1"
    /\ shows card
         (Cards.toCardData Sample.utc "John" None "Doe" Sample.card1).
Proof.
  apply (proj1 (card_views_show_stored_number (Db.healthy Sample.sampleRegistry)
                  Sample.utc "c1")
           [Cards.toCardData Sample.utc "John" None "Doe" Sample.card1]).
  - reflexivity.
  - simpl. left. reflexivity.
Defined.

(** C1.  The card actions hand out the full number where their own type
    promises data without sensitive information: the view that
    [getCustomerCards] and [getCardById] return for the sample card carries
    the stored sixteen-character number in [cardNumber], while the cards
    route, given the same view, masks that number before it answers. *)
Theorem getCustomerCards_returns_full_number :
  Cards.getCustomerCards (Db.healthy Sample.sampleRegistry) Sample.utc "c1" =
  Db.Resolved [Cards.mkCardData "card-1" "4532123456789012" Schema.Debit "12/25"
                 "John  Doe" Cards.active "Banco Nacional" "9012"]
  /\ Cards.getCardById (Db.healthy Sample.sampleRegistry) Sample.utc "card-1" =
     Db.Resolved (Some (Cards.mkCardData "card-1" "4532123456789012" Schema.Debit "12/25"
                          "John  Doe" Cards.active "Banco Nacional" "9012"))
  /\ In Sample.card1 (Schema.cards Sample.sampleRegistry)
  /\ Schema.cards_number Sample.card1 = "4532123456789012"
  /\ (4 < length (Schema.cards_number Sample.card1))%nat
  /\ CardsRoute.GET (Db.healthy Sample.sampleRegistry) Sample.utc
       (fun _ => "2026-11-03T00:00:00.000Z") "c1" =
     Db.Resolved
       (CardsRoute.mkResponse 200
          (CardsRoute.CardsBody
             [CardsRoute.mkCardDTO "card-1" "**** **** **** 9012" Schema.Debit
                Cards.active "2026-11-03T00:00:00.000Z" "12/25"]
             1)).
Proof.
  split; [|split; [|split; [|split; [|split]]]]; try (vm_compute; reflexivity).
  - simpl. left. reflexivity.
  - vm_compute. repeat constructor.
Qed.

(** C8.  With a middle name the three names are joined by single spaces;
    without one, the two separators both remain and the name reads with
    two spaces between first and last name. *)
Theorem cardholderName_missing_middle_name :
  Cards.buildCardholderName "Jane" (Some "A") "Smith" = "Jane A Smith"
  /\ Cards.buildCardholderName "John" None "Doe" = "John  Doe"
  /\ Cards.buildCardholderName "John" (Some "") "Doe" = "John  Doe"
  /\ Cards.getCustomerCards (Db.healthy Sample.sampleRegistry) Sample.utc "c1" =
     Db.Resolved [Cards.mkCardData "card-1" "4532123456789012" Schema.Debit "12/25"
                    "John  Doe" Cards.active "Banco Nacional" "9012"]
  /\ Cards.getCardById (Db.healthy Sample.sampleRegistry) Sample.utc "card-1" =
     Db.Resolved (Some (Cards.mkCardData "card-1" "4532123456789012" Schema.Debit "12/25"
                          "John  Doe" Cards.active "Banco Nacional" "9012")).
Proof. repeat split; vm_compute; reflexivity. Qed.

(** C9, as the code has it.  For an identifier that is not blank: an
    absent customer gives the empty list and an absent card gives
    not-found, without raising; a customer without cards gives the empty
    list as well.  A blank identifier, and a failure of a query that is
    issued, raise the one error of the action. *)
Theorem card_actions_not_found_and_failure :
  forall (db : Db.Connection) (zone : JsDates.TimeZone) (key : string),
    (Cards.blank key = false ->
     Db.failure db (Db.CustomerById key) = None ->
     customerPresent (Db.registry db) key = false ->
     Cards.getCustomerCards db zone key = Db.Resolved [])
    /\ (Cards.blank key = false ->
        Db.failure db (Db.CardWithCustomer key) = None ->
        cardPresent (Db.registry db) key = false ->
        Cards.getCardById db zone key = Db.Resolved None)
    /\ (Cards.blank key = false ->
        Db.failure db (Db.CustomerById key) = None ->
        Db.failure db (Db.CardsOfCustomer key) = None ->
        customerPresent (Db.registry db) key = true ->
        hasCards (Db.registry db) key = false ->
        Cards.getCustomerCards db zone key = Db.Resolved [])
    /\ (Db.failure db (Db.CustomerById key) <> None ->
        Cards.getCustomerCards db zone key = Db.Rejected "Failed to fetch customer cards")
    /\ (customerPresent (Db.registry db) key = true ->
        Db.failure db (Db.CardsOfCustomer key) <> None ->
        Cards.getCustomerCards db zone key = Db.Rejected "Failed to fetch customer cards")
    /\ (Db.failure db (Db.CardWithCustomer key) <> None ->
        Cards.getCardById db zone key = Db.Rejected "Failed to fetch card")
    /\ (Cards.blank key = true ->
        Cards.getCustomerCards db zone key = Db.Rejected "Failed to fetch customer cards"
        /\ Cards.getCardById db zone key = Db.Rejected "Failed to fetch card").
Proof.
  intros db zone key.
  unfold Cards.getCustomerCards, Cards.getCardById, Db.await, customerPresent,
    cardPresent, hasCards.
  repeat split.
  - intros -> -> H. rewrite (filter_none _ _ H). reflexivity.
  - intros -> -> H. rewrite (join_card_absent _ _ H). reflexivity.
  - intros -> -> -> H Hc.
    destruct (filter_some _ _ H) as (c & rest & ->).
    rewrite (filter_none _ _ Hc). reflexivity.
  - intros H. destruct (Cards.blank key); [reflexivity|].
    destruct (Db.failure db (Db.CustomerById key)); [reflexivity | congruence].
  - intros H Hf. destruct (Cards.blank key); [reflexivity|].
    destruct (Db.failure db (Db.CustomerById key)); [reflexivity|].
    destruct (filter_some _ _ H) as (c & rest & ->). cbn.
    destruct (Db.failure db (Db.CardsOfCustomer key)); [reflexivity | congruence].
  - intros H. destruct (Cards.blank key); [reflexivity|].
    destruct (Db.failure db (Db.CardWithCustomer key)); [reflexivity | congruence].
  - match goal with E : Cards.blank key = true |- _ => rewrite E end. reflexivity.
  - match goal with E : Cards.blank key = true |- _ => rewrite E end. reflexivity.
Qed.

Lemma card_actions_not_found_and_failure_witness :
  Cards.getCustomerCards (Db.healthy Sample.sampleRegistry) Sample.utc "c9" = Db.Resolved []
  /\ Cards.getCardById (Db.healthy Sample.sampleRegistry) Sample.utc "card-9" = Db.Resolved None
  /\ Cards.getCustomerCards (Db.healthy Sample.sampleRegistry) Sample.utc "c3" = Db.Resolved []
  /\ Cards.getCustomerCards
       (Db.mkConnection Sample.sampleRegistry (fun _ => Some "Database error"))
       Sample.utc "c1" =
     Db.Rejected "Failed to fetch customer cards".
Proof.
  split; [|split; [|split]].
  - apply (proj1 (card_actions_not_found_and_failure
                    (Db.healthy Sample.sampleRegistry) Sample.utc "c9")); reflexivity.
  - apply (proj1 (proj2 (card_actions_not_found_and_failure
                           (Db.healthy Sample.sampleRegistry) Sample.utc "card-9")));
      reflexivity.
  - apply (proj1 (proj2 (proj2 (card_actions_not_found_and_failure
                                  (Db.healthy Sample.sampleRegistry) Sample.utc "c3"))));
      reflexivity.
  - apply (proj1 (proj2 (proj2 (proj2 (card_actions_not_found_and_failure
             (Db.mkConnection Sample.sampleRegistry (fun _ => Some "Database error"))
             Sample.utc "c1"))))).
    simpl. discriminate.
Defined.

(** C9, as the claim states it, fails: the empty identifier belongs to no
    customer and to no card of the sample registry, and both actions raise
    on it although every query would be answered. *)
Lemma card_actions_raise_on_blank_id :
  customerPresent Sample.sampleRegistry "" = false
  /\ cardPresent Sample.sampleRegistry "" = false
  /\ Cards.getCustomerCards (Db.healthy Sample.sampleRegistry) Sample.utc "" =
     Db.Rejected "Failed to fetch customer cards"
  /\ Cards.getCardById (Db.healthy Sample.sampleRegistry) Sample.utc "" =
     Db.Rejected "Failed to fetch card".
Proof. repeat split; vm_compute; reflexivity. Qed.

(** ** Customer search *)

Section SearchFacts.
Import JsString Schema Db Types.
Import SinglePredicate.

Lemma all_map {A B : Type} (f : A -> Promise B) (g : A -> B) (xs : list A) :
  (forall x, f x = Resolved (g x)) -> all f xs = Resolved (map g xs).
Proof.
  intros H. induction xs as [|x xs IH]; simpl; [reflexivity|].
  now rewrite H, IH.
Qed.

Lemma all_resolved {A B : Type} (f : A -> Promise B) (g : A -> B) :
  (forall x y, f x = Resolved y -> y = g x) ->
  forall xs ys, all f xs = Resolved ys -> ys = map g xs.
Proof.
  intros H. induction xs as [|x xs IH]; simpl; intros ys E.
  - now injection E as <-.
  - destruct (f x) as [y|e] eqn:Ex; [|discriminate]. cbn in E.
    destruct (all f xs) as [zs|e]; [|discriminate]. cbn in E.
    injection E as <-. now rewrite (H x y Ex), (IH zs eq_refl).
Qed.

Lemma enrich_resolved (db : Connection) (c : customers_row) (y : CustomerSearchResult) :
  CustomerSearch.enrich db c = Resolved y -> y = enriched (registry db) c.
Proof.
  unfold CustomerSearch.enrich, await, enriched.
  destruct (failure db (PhoneOf _)); [discriminate|].
  destruct (failure db (RfcOf _)); [discriminate|].
  destruct (failure db (PrimaryAddressOf _)); [discriminate|].
  cbn. now intros [= <-].
Qed.

(** A search that resolves returns the enriched candidates. *)
Lemma searchCustomers_resolved (db : Connection) (f : CustomerSearchFilters)
      (response : CustomerSearchResponse) :
  CustomerSearch.searchCustomers db f = Resolved response ->
  response = respond (map (enriched (registry db)) (narrowed (registry db) f)).
Proof.
  unfold CustomerSearch.searchCustomers, narrowed, await. cbv zeta.
  destruct (failure db CustomersByName); [discriminate|]. cbn [bind].
  destruct (truthy (primaryPhone f) || truthy (secondaryPhone f));
    [destruct (failure db OwnersOfPhones); [discriminate|]|]; cbn [bind];
  (destruct (truthy (rfc f) || truthy (ife f) || truthy (passport f));
    [destruct (failure db OwnersOfGovernmentIds); [discriminate|]|]; cbn [bind]);
  (destruct (truthy (stateId f) || truthy (municipalityId f)
             || truthy (neighborhoodId f) || truthy (postalCode f));
    [destruct (failure db OwnersOfAddresses); [discriminate|]|]; cbn [bind]);
  (match goal with
   | |- context [all (CustomerSearch.enrich db) ?l] =>
       destruct (all (CustomerSearch.enrich db) l) as [ys|e] eqn:E;
       [|discriminate];
       apply (all_resolved _ _ (enrich_resolved db)) in E; subst ys
   end);
  cbn; now intros [= <-].
Qed.

(** On a healthy connection the search resolves. *)
Lemma searchCustomers_healthy (r : Registry) (f : CustomerSearchFilters) :
  CustomerSearch.searchCustomers (healthy r) f =
  Resolved (respond (map (enriched r) (narrowed r f))).
Proof.
  unfold CustomerSearch.searchCustomers, narrowed, await, healthy. cbv zeta.
  cbn [failure registry bind].
  destruct (truthy (primaryPhone f) || truthy (secondaryPhone f));
    destruct (truthy (rfc f) || truthy (ife f) || truthy (passport f));
    destruct (truthy (stateId f) || truthy (municipalityId f)
              || truthy (neighborhoodId f) || truthy (postalCode f));
    cbn [bind];
    (rewrite (all_map _ (enriched r)); [reflexivity | intros x; reflexivity]).
Qed.

Lemma filter_filter {A : Type} (p q : A -> bool) (l : list A) :
  filter p (filter q l) = filter (fun x => q x && p x) l.
Proof.
  induction l as [|x l IH]; simpl; [reflexivity|].
  destruct (q x); simpl; [destruct (p x)|]; now rewrite IH.
Qed.

Lemma filter_true {A : Type} (p : A -> bool) (l : list A) :
  (forall x, p x = true) -> filter p l = l.
Proof.
  intros H. induction l as [|x l IH]; simpl; [reflexivity|].
  now rewrite H, IH.
Qed.

(** A customer id is among the owners of the selected rows exactly when
    some row of the table is selected and owned by it. *)
Lemma includes_owner {A : Type} (owner : A -> string) (p : A -> bool)
      (rows : list A) (i : string) :
  CustomerSearch.includes_id (map owner (filter p rows)) i =
  existsb (fun x => (owner x =? i)%string && p x) rows.
Proof.
  unfold CustomerSearch.includes_id.
  induction rows as [|x rows IH]; simpl; [reflexivity|].
  destruct (p x); simpl; rewrite IH.
  - now rewrite andb_true_r.
  - now rewrite andb_false_r.
Qed.

Lemma existsb_ext' {A : Type} (p q : A -> bool) (l : list A) :
  (forall x, p x = q x) -> existsb p l = existsb q l.
Proof. intros H. induction l as [|x l IH]; simpl; [reflexivity|]. now rewrite H, IH. Qed.

Lemma base_query_names (f : CustomerSearchFilters) (c : customers_row) :
  CustomerSearch.and
    (match CustomerSearch.nameConditions f with
     | [] => [fun _ => true]
     | _ => CustomerSearch.nameConditions f
     end) c
  = namesMatch f c.
Proof.
  unfold CustomerSearch.nameConditions, namesMatch, nameMatches, supplied,
    CustomerSearch.push_if, CustomerSearch.and, CustomerSearch.like,
    CustomerSearch.notNull.
  cbv zeta.
  destruct (truthy (firstName f)), (truthy (lastName f)),
    (truthy (secondLastName f)), (truthy (dateOfBirth f));
    cbn [app forallb negb orb andb];
    rewrite ?andb_true_r, ?andb_assoc; reflexivity.
Qed.

Lemma phone_pass (r : Registry) (f : CustomerSearchFilters) (c : customers_row) :
  truthy (primaryPhone f) || truthy (secondaryPhone f) = true ->
  CustomerSearch.includes_id
    (map phones_customerId
         (filter (CustomerSearch.or (CustomerSearch.phoneConditions f)) (phones r)))
    (customers_id c)
  = phoneMatches r f c.
Proof.
  intros H. rewrite includes_owner. unfold phoneMatches, supplied.
  rewrite H. cbn [negb orb]. apply existsb_ext'. intros p. f_equal.
  unfold CustomerSearch.phoneConditions, CustomerSearch.push_if, CustomerSearch.or,
    CustomerSearch.eq, CustomerSearch.notNull, equals, supplied.
  cbv zeta.
  destruct (truthy (primaryPhone f)), (truthy (secondaryPhone f));
    try discriminate H; cbn [app existsb andb orb];
    rewrite ?orb_false_r; reflexivity.
Qed.

Lemma government_id_pass (r : Registry) (f : CustomerSearchFilters) (c : customers_row) :
  truthy (rfc f) || truthy (ife f) || truthy (passport f) = true ->
  CustomerSearch.includes_id
    (map governmentIds_customerId
         (filter (CustomerSearch.or (CustomerSearch.govIdConditions f))
                 (governmentIds r)))
    (customers_id c)
  = governmentIdMatches r f c.
Proof.
  intros H. rewrite includes_owner. unfold governmentIdMatches, supplied.
  rewrite H. cbn [negb orb]. apply existsb_ext'. intros g. f_equal.
  unfold CustomerSearch.govIdConditions, CustomerSearch.push_if, CustomerSearch.or,
    CustomerSearch.and, CustomerSearch.typeIs, CustomerSearch.eq,
    CustomerSearch.notNull, equals, supplied.
  cbv zeta.
  destruct (truthy (rfc f)), (truthy (ife f)), (truthy (passport f));
    try discriminate H;
    cbn [app existsb forallb andb orb]; cbv beta;
    destruct (governmentIds_type g);
    cbn [andb orb governmentIdType_eqb];
    rewrite ?andb_true_r, ?orb_false_r; reflexivity.
Qed.

Lemma address_pass (r : Registry) (f : CustomerSearchFilters) (c : customers_row) :
  truthy (stateId f) || truthy (municipalityId f)
  || truthy (neighborhoodId f) || truthy (postalCode f) = true ->
  CustomerSearch.includes_id
    (map addresses_customerId
         (filter (CustomerSearch.and (CustomerSearch.addressConditions f))
                 (addresses r)))
    (customers_id c)
  = addressMatches r f c.
Proof.
  intros H. rewrite includes_owner. unfold addressMatches, supplied.
  rewrite H. cbn [negb orb]. apply existsb_ext'. intros a.
  rewrite <- !andb_assoc. f_equal.
  unfold CustomerSearch.addressConditions, CustomerSearch.push_if,
    CustomerSearch.and, CustomerSearch.eq, CustomerSearch.notNull,
    fieldMatches, supplied.
  cbv zeta.
  destruct (truthy (stateId f)), (truthy (municipalityId f)),
    (truthy (neighborhoodId f)), (truthy (postalCode f));
    cbn [app forallb negb andb orb];
    rewrite ?andb_true_r; reflexivity.
Qed.

Lemma filter_ext' {A : Type} (p q : A -> bool) (l : list A) :
  (forall x, p x = q x) -> filter p l = filter q l.
Proof. intros H. induction l as [|x l IH]; simpl; [reflexivity|]. now rewrite H, IH. Qed.

(** One pass: where filters of the category are supplied the running
    list is intersected with the owners; where none is, it is left as it
    is, and the category's test holds of every customer. *)
Lemma pass_filter (supplied_any : bool) (owners spec : customers_row -> bool)
      (results : list customers_row) :
  (supplied_any = true -> forall c, owners c = spec c) ->
  (supplied_any = false -> forall c, spec c = true) ->
  (if supplied_any then filter owners results else results) = filter spec results.
Proof.
  intros Hyes Hno. destruct supplied_any.
  - apply filter_ext'. now apply Hyes.
  - symmetry. apply filter_true. now apply Hno.
Qed.

(** The sequential narrowing computes the single predicate. *)
Lemma narrowed_single_predicate (r : Registry) (f : CustomerSearchFilters) :
  narrowed r f = filter (matchesFilters r f) (customers r).
Proof.
  unfold narrowed. cbv zeta.
  rewrite (filter_ext' _ _ _ (base_query_names f)).
  rewrite (pass_filter (truthy (primaryPhone f) || truthy (secondaryPhone f))
             _ (phoneMatches r f));
    [| intros H c; now apply phone_pass
     | intros H c; unfold phoneMatches, supplied; now rewrite H ].
  rewrite (pass_filter (truthy (rfc f) || truthy (ife f) || truthy (passport f))
             _ (governmentIdMatches r f));
    [| intros H c; now apply government_id_pass
     | intros H c; unfold governmentIdMatches, supplied; now rewrite H ].
  rewrite (pass_filter _ _ (addressMatches r f));
    [| intros H c; now apply address_pass
     | intros H c; unfold addressMatches, supplied; now rewrite H ].
  rewrite !filter_filter. apply filter_ext'. intros c.
  unfold matchesFilters. now rewrite !andb_assoc.
Qed.

End SearchFacts.

(** C2.  For every filter set and every state of the registry, the search
    returns the customers that satisfy the single predicate, in table
    order, each with its enrichment: on a connection that answers every
    query it resolves with them, and on any connection a search that
    resolves has resolved with them. *)
Theorem searchCustomers_single_predicate :
  forall (r : Schema.Registry) (f : Types.CustomerSearchFilters),
    CustomerSearch.searchCustomers (Db.healthy r) f =
    Db.Resolved
      (respond (map (enriched r)
                    (filter (SinglePredicate.matchesFilters r f) (Schema.customers r))))
    /\ (forall (db : Db.Connection) (response : Types.CustomerSearchResponse),
           Db.registry db = r ->
           CustomerSearch.searchCustomers db f = Db.Resolved response ->
           map Types.result_id (Types.data response) =
           map Schema.customers_id
               (filter (SinglePredicate.matchesFilters r f) (Schema.customers r))).
Proof.
  intros r f. split.
  - rewrite searchCustomers_healthy, narrowed_single_predicate. reflexivity.
  - intros db response <- H.
    apply searchCustomers_resolved in H. subst response.
    rewrite narrowed_single_predicate. unfold respond. cbn [Types.data].
    rewrite map_map. reflexivity.
Qed.

(** On the sample registry, a search by two phones and the last name Doe
    resolves with John alone. *)
Lemma searchCustomers_single_predicate_witness :
  map Types.result_id
      (Types.data (respond [enriched Sample.sampleRegistry Sample.john])) =
  map Schema.customers_id
      (filter (SinglePredicate.matchesFilters Sample.sampleRegistry
                 (Types.mkFilters "5551234567" "5559876543" "" "" "Doe"
                                  "" "" "" "" "" "" "" "" ""))
              (Schema.customers Sample.sampleRegistry)).
Proof.
  apply (proj2 (searchCustomers_single_predicate Sample.sampleRegistry
                  (Types.mkFilters "5551234567" "5559876543" "" "" "Doe"
                                   "" "" "" "" "" "" "" "" ""))
           (Db.healthy Sample.sampleRegistry)
           (respond [enriched Sample.sampleRegistry Sample.john])).
  - reflexivity.
  - vm_compute. reflexivity.
Defined.

(** C10.  The search gives the same outcome when [dateOfBirth] and
    [clientNumber] are emptied: no pass reads them.  The validator does
    count each of them as a filled filter. *)
Theorem searchCustomers_ignores_unread_filters :
  forall (db : Db.Connection) (f : Types.CustomerSearchFilters),
    CustomerSearch.searchCustomers db (withoutUnreadFilters f) =
    CustomerSearch.searchCustomers db f
    /\ SearchValidation.countFilledFilters f =
       (Nat.b2n (JsString.truthy (Types.dateOfBirth f))
        + Nat.b2n (JsString.truthy (Types.clientNumber f))
        + SearchValidation.countFilledFilters (withoutUnreadFilters f))%nat.
Proof.
  intros db f. split.
  - destruct f as [pp sp cn fn ln sln dob rfc st mu nh pc ife pas].
    unfold CustomerSearch.searchCustomers, CustomerSearch.nameConditions,
      withoutUnreadFilters.
    cbn [Types.primaryPhone Types.secondaryPhone Types.clientNumber Types.firstName
         Types.lastName Types.secondLastName Types.dateOfBirth Types.rfc Types.stateId
         Types.municipalityId Types.neighborhoodId Types.postalCode Types.ife
         Types.passport JsString.truthy].
    destruct (JsString.truthy dob); reflexivity.
  - rewrite !countFilledFilters_address_once. unfold withoutUnreadFilters.
    cbn [Types.primaryPhone Types.secondaryPhone Types.clientNumber Types.firstName
         Types.lastName Types.secondLastName Types.dateOfBirth Types.rfc Types.stateId
         Types.municipalityId Types.neighborhoodId Types.postalCode Types.ife
         Types.passport JsString.truthy Nat.b2n].
    lia.
Qed.

(** ** Checks from the test suites *)

Section TestSuites.
Import JsString Types SearchValidation.

Example validatePhoneNumber_tests :
  map validatePhoneNumber
      [""; "5551234567"; "555123456"; "55512345678"; "555-123-4567"; "(555)1234567"]
  = [true; true; false; false; false; false].
Proof. vm_compute. reflexivity. Qed.

Example validateRFC_tests :
  map validateRFC
      [""; "ABCD123456XYZ"; "abcd123456xyz"; "ABCD12345"; "ABCD123456XYZ1"; "ABCD-123456XY"]
  = [true; true; true; false; false; false].
Proof. vm_compute. reflexivity. Qed.

Example validatePostalCode_tests :
  map validatePostalCode [""; "12345"; "1234"; "123456"; "1234A"]
  = [true; true; false; false; false].
Proof. vm_compute. reflexivity. Qed.

Example countFilledFilters_tests :
  countFilledFilters (mkFilters "" "" "" "" "" "" "" "" "" "" "" "" "" "") = 0%nat
  /\ countFilledFilters
       (mkFilters "5551234567" "5559876543" "" "" "" "" "" "" "" "" "" "" "" "") = 2%nat
  /\ countFilledFilters
       (mkFilters "" "" "" "" "" "" "" "" "state-1" "muni-1" "neigh-1" "12345" "" "") = 1%nat
  /\ countFilledFilters
       (mkFilters "" "" "12345" "John" "Doe" "" "1990-01-01" "ABCD123456XYZ"
                  "" "" "" "" "" "") = 5%nat
  /\ countFilledFilters
       (mkFilters "" "" "" "" "" "" "" "" "" "" "" "" "12345678901234567890" "ABC123456")
     = 2%nat.
Proof. repeat split. Qed.

Example validateSearchFilters_tests :
  validateSearchFilters
    (mkFilters "5551234567" "" "" "John" "" "" "" "" "" "" "" "" "" "")
  = mkResult true [] None
  /\ map field
       (errors (validateSearchFilters
                  (mkFilters "555" "" "" "John" "" "" "" "" "" "" "" "" "" "")))
     = ["primaryPhone"].
Proof. split; vm_compute; reflexivity. Qed.

Example maskCardNumber_tests :
  map CardSecurity.maskCardNumber ["4532123456789012"; "378282246310005"; ""; "123"]
  = ["**** **** **** 9012"; "**** **** **** 0005"; "****"; "****"].
Proof. vm_compute. reflexivity. Qed.

Example getLastFourDigits_tests :
  map CardSecurity.getLastFourDigits ["4532123456789012"; "378282246310005"; ""; "123"]
  = ["9012"; "0005"; ""; ""].
Proof. vm_compute. reflexivity. Qed.

Example isValidCardLength_tests :
  map CardSecurity.isValidCardLength
      ["4532123456789"; "4532123456789012"; "378282246310005"; "12345";
       "12345678901234567890"; ""]
  = [true; true; true; false; false; false].
Proof. vm_compute. reflexivity. Qed.

Example isCardExpired_tests :
  map (CardSecurity.isCardExpired (CardSecurity.mkDate 2026 10))
      ["01/20"; "12/19"; "12/30"; "06/28"; ""; "invalid"]
  = [true; true; false; false; true; true].
Proof. vm_compute. reflexivity. Qed.

Example isCardUsable_tests :
  map CardSecurity.isCardUsable ["active"; "ACTIVE"; "inactive"; "blocked"; "suspended"]
  = [true; true; false; false; false].
Proof. vm_compute. reflexivity. Qed.

Example getCardBrand_tests :
  map CardSecurity.getCardBrand
      ["4532123456789012"; "4111111111111111"; "5555555555554444"; "5105105105105100";
       "2221000000000000"; "378282246310005"; "371449635398431"; "6011111111111117";
       "6500000000000000"; "30569309025904"; "38520000023237"; "9999999999999999"; ""]
  = ["Visa"; "Visa"; "MasterCard"; "MasterCard"; "MasterCard"; "American Express";
     "American Express"; "Discover"; "Discover"; "Diners Club"; "Diners Club";
     "Unknown"; "Unknown"].
Proof. vm_compute. reflexivity. Qed.

Example validateCardForTransaction_tests :
  CardSecurity.validateCardForTransaction (CardSecurity.mkDate 2026 10)
    (CardSecurity.mkCard "4532123456789012" "12/30" "active")
  = CardSecurity.mkValidation true None
  /\ CardSecurity.validateCardForTransaction (CardSecurity.mkDate 2026 10)
       (CardSecurity.mkCard "4532123456789012" "01/20" "active")
     = CardSecurity.mkValidation false (Some CardSecurity.expiredMessage).
Proof. split; vm_compute; reflexivity. Qed.

Example getCustomerCards_tests :
  Cards.getCustomerCards (Db.healthy Sample.sampleRegistry) Sample.utc "non-existent-customer-id"
  = Db.Resolved []
  /\ Cards.getCustomerCards (Db.healthy Sample.sampleRegistry) Sample.utc "   "
     = Db.Rejected "Failed to fetch customer cards"
  /\ Cards.getCardById (Db.healthy Sample.sampleRegistry) Sample.utc "non-existent-card-id"
     = Db.Resolved None
  /\ Cards.getCardById (Db.healthy Sample.sampleRegistry) Sample.utc "   "
     = Db.Rejected "Failed to fetch card"
  /\ Cards.getCustomerCards (Db.healthy Sample.sampleRegistry) Sample.utc "c2"
     = Db.Resolved [Cards.mkCardData "card-2" "5555123456789012" Schema.Credit "N/A"
                      "Jane A Smith" Cards.blocked "Banco Nacional" "9012"].
Proof. repeat split; vm_compute; reflexivity. Qed.

End TestSuites.

(** ** Display and logging safety *)

Section DisplayFacts.
Import JsString Regex RegexMore CardSecurity CardDisplay MoreTerms.

Lemma run_AtMost_nonempty (icase : bool) (r : regex) (k : nat) (pos : position) :
  run icase (AtMost r k) pos <> [].
Proof.
  destruct k as [|k]; cbn [AtMost run]; [discriminate|].
  intros H. apply app_eq_nil in H as [_ H]. discriminate H.
Qed.

(** [[class]{m,n}] matches at a position exactly when [m] characters of
    the class follow. *)
Lemma matches_at_between (icase : bool) (ranges : list (ascii * ascii)) (m n : nat)
      (b : bool) (s : string) :
  matches_at icase (Between (Class ranges) m n) (b, s) =
  (m <=? length s)%nat && forall_chars (class_match icase ranges) (take m s).
Proof.
  unfold matches_at, Between. cbn [run]. rewrite iterate_step_char.
  destruct ((m <=? length s)%nat && forall_chars _ (take m s)); [|reflexivity].
  cbn [flat_map]. rewrite app_nil_r.
  destruct (run icase (AtMost (Class ranges) (n - m)) _) eqn:E; [|reflexivity].
  now apply run_AtMost_nonempty in E.
Qed.

Lemma search_between (icase : bool) (ranges : list (ascii * ascii)) (m n : nat) (s : string) :
  forall b, search icase (Between (Class ranges) m n) b s =
            hasRun (class_match icase ranges) m s.
Proof.
  induction s as [|c r IH]; intros b; cbn [search hasRun];
    rewrite matches_at_between; [reflexivity|].
  now rewrite IH.
Qed.

Lemma length_take (n : nat) : forall s, (n <= length s)%nat -> length (take n s) = n.
Proof.
  induction n as [|n IH]; intros [|c r] H; simpl in *; try lia.
  now rewrite IH by lia.
Qed.

Lemma take_app_exact (ds post : string) : take (length ds) (ds ++ post) = ds.
Proof. induction ds as [|c r IH]; simpl; [now destruct post | now rewrite IH]. Qed.

Lemma length_append (a b : string) : length (a ++ b) = (length a + length b)%nat.
Proof. induction a as [|c r IH]; simpl; congruence. Qed.

Lemma hasRun_iff (p : ascii -> bool) (n : nat) (s : string) :
  hasRun p n s = true <->
  exists pre ds post,
    s = (pre ++ ds ++ post)%string /\ length ds = n /\ forall_chars p ds = true.
Proof.
  split.
  - induction s as [|c r IH]; cbn [hasRun]; intros H.
    + rewrite orb_false_r in H. apply andb_true_iff in H as [Hle Hall].
      apply Nat.leb_le in Hle.
      exists ""%string, (take n ""), (skip n "").
      split; [symmetry; apply take_skip | split; [now apply length_take | exact Hall]].
    + apply orb_true_iff in H as [H|H].
      * apply andb_true_iff in H as [Hle Hall]. apply Nat.leb_le in Hle.
        exists ""%string, (take n (String c r)), (skip n (String c r)).
        split; [symmetry; apply take_skip | split; [now apply length_take | exact Hall]].
      * destruct (IH H) as (pre & ds & post & -> & Hn & Hall).
        exists (String c pre), ds, post. repeat split; assumption.
  - intros (pre & ds & post & -> & Hn & Hall).
    induction pre as [|c pre IH].
    + cbn [append]. subst n.
      assert (E : ((length ds <=? length (ds ++ post))%nat
                   && forall_chars p (take (length ds) (ds ++ post))) = true).
      { rewrite take_app_exact, Hall, andb_true_r. apply Nat.leb_le.
        rewrite length_append. lia. }
      destruct (ds ++ post)%string; cbn [hasRun]; now rewrite E.
    + cbn [append hasRun]. rewrite IH. apply orb_true_r.
Qed.

Lemma hasRun_short (p : ascii -> bool) (n : nat) (s : string) :
  (length s < n)%nat -> hasRun p n s = false.
Proof.
  induction s as [|c r IH]; cbn [hasRun length]; intros H.
  - destruct (Nat.leb_spec n 0); [lia | reflexivity].
  - destruct (Nat.leb_spec n (S (length r))); [lia|]. cbn [andb orb].
    apply IH. lia.
Qed.

Lemma hasRun_skip_char (p : ascii -> bool) (n : nat) (c : ascii) (s : string) :
  p c = false -> hasRun p (S n) (String c s) = hasRun p (S n) s.
Proof.
  intros H. cbn [hasRun take forall_chars]. now rewrite H, andb_false_r.
Qed.

Lemma length_filter_chars (p : ascii -> bool) (s : string) :
  (length (filter_chars p s) <= length s)%nat.
Proof. induction s as [|c r IH]; simpl; [lia|]. destruct (p c); simpl; lia. Qed.

Lemma filter_chars_append (p : ascii -> bool) (a b : string) :
  filter_chars p (a ++ b) = (filter_chars p a ++ filter_chars p b)%string.
Proof.
  induction a as [|c r IH]; simpl; [reflexivity|].
  destruct (p c); simpl; now rewrite IH.
Qed.

Lemma filter_chars_idempotent (p : ascii -> bool) (s : string) :
  filter_chars p (filter_chars p s) = filter_chars p s.
Proof.
  induction s as [|c r IH]; simpl; [reflexivity|].
  destruct (p c) eqn:E; simpl; [now rewrite E, IH | exact IH].
Qed.

Lemma forall_filter_chars (p : ascii -> bool) (s : string) :
  forall_chars p (filter_chars p s) = true.
Proof.
  induction s as [|c r IH]; simpl; [reflexivity|].
  destruct (p c) eqn:E; simpl; [now rewrite E | exact IH].
Qed.

Lemma length_slice_last (n : nat) (s : string) : (length (slice_last n s) <= n)%nat.
Proof. unfold slice_last. rewrite length_skip. lia. Qed.

Lemma isPCICompliantDisplay_hasRun (t : string) :
  isPCICompliantDisplay t = negb (hasRun is_digit 13 (remove_whitespace t)).
Proof.
  unfold isPCICompliantDisplay, fullNumberRegex, Digit, test. cbv zeta.
  rewrite search_between. f_equal.
  generalize (remove_whitespace t). intros s.
  induction s as [|c r IH]; cbn [hasRun].
  - reflexivity.
  - rewrite IH. f_equal. f_equal. apply forall_chars_ext, digit_class.
Qed.

(** A masked number holds no run of thirteen digits. *)
Lemma masked_has_no_run (n : string) :
  hasRun is_digit 13 (remove_whitespace (maskCardNumber n)) = false.
Proof.
  unfold maskCardNumber.
  destruct (negb (truthy n) || (length n <? 4)%nat); [reflexivity|].
  unfold remove_whitespace. rewrite filter_chars_append.
  change (filter_chars (fun c => negb (is_space c)) "**** **** **** ")
    with "************"%string.
  cbn [append]. rewrite !hasRun_skip_char by reflexivity.
  apply hasRun_short.
  pose proof (length_filter_chars (fun c => negb (is_space c)) (slice_last 4 n)).
  pose proof (length_slice_last 4 n). lia.
Qed.

End DisplayFacts.

(** X1.  The display check fails exactly on the texts that, white space
    removed, hold thirteen consecutive digits: digits split by spaces are
    joined before the scan, and a run longer than nineteen digits is caught
    like any other. *)
Theorem isPCICompliantDisplay_characterised :
  forall t : string,
    CardDisplay.isPCICompliantDisplay t = false <->
    exists pre ds post,
      JsString.remove_whitespace t = (pre ++ ds ++ post)%string
      /\ length ds = 13%nat
      /\ JsString.forall_chars JsString.is_digit ds = true.
Proof.
  intros t. rewrite isPCICompliantDisplay_hasRun, negb_false_iff.
  apply hasRun_iff.
Qed.

Lemma isPCICompliantDisplay_characterised_witness :
  CardDisplay.isPCICompliantDisplay "Card 4532 1234 5678 9012" = false.
Proof.
  apply (proj2 (isPCICompliantDisplay_characterised "Card 4532 1234 5678 9012")).
  exists "Card", "4532123456789", "012".
  split; [reflexivity | split; reflexivity].
Defined.

(** X2.  Whatever the card number, its masked form passes the display
    check, and so does the masked form of a masked form. *)
Theorem maskCardNumber_is_compliant :
  forall n : string,
    CardDisplay.isPCICompliantDisplay (CardSecurity.maskCardNumber n) = true
    /\ CardDisplay.isPCICompliantDisplay
         (CardSecurity.maskCardNumber (CardSecurity.maskCardNumber n)) = true.
Proof.
  intros n. rewrite !isPCICompliantDisplay_hasRun, !masked_has_no_run. now split.
Qed.

Section MaskFacts.
Import JsString CardSecurity.

Lemma skip_app_exact (a b : string) : skip (length a) (a ++ b) = b.
Proof. induction a as [|c r IH]; simpl; [now destruct b | exact IH]. Qed.

Lemma slice_last_app (a b : string) : slice_last (length b) (a ++ b) = b.
Proof.
  unfold slice_last. rewrite length_append.
  replace (length a + length b - length b)%nat with (length a) by lia.
  apply skip_app_exact.
Qed.

Lemma truthy_length (s : string) : truthy s = true <-> (0 < length s)%nat.
Proof. destruct s; simpl; split; intros; try lia; try discriminate; reflexivity. Qed.

Lemma mask_of_suffix (prefix last : string) :
  length last = 4%nat ->
  maskCardNumber (prefix ++ last) = ("**** **** **** " ++ last)%string.
Proof.
  intros H. unfold maskCardNumber.
  assert (Hlen : length (prefix ++ last) = (length prefix + 4)%nat)
    by (rewrite length_append; lia).
  assert (Ht : truthy (prefix ++ last) = true) by (apply truthy_length; lia).
  rewrite Ht. destruct (Nat.ltb_spec (length (prefix ++ last)) 4); [lia|].
  cbn [negb orb]. rewrite <- H at 1. now rewrite slice_last_app.
Qed.

End MaskFacts.

(** X3.  The masked form of a number of four characters or more is the
    fixed mask followed by its last four characters: it is the same for
    two numbers that end alike, and [getLastFourDigits] returns those four
    characters.  A shorter number gives the bare mask and no digits. *)
Theorem maskCardNumber_shows_last_four_only :
  forall prefix last short : string,
    (length last = 4%nat ->
     CardSecurity.maskCardNumber (prefix ++ last) = ("**** **** **** " ++ last)%string
     /\ CardSecurity.getLastFourDigits (prefix ++ last) = last)
    /\ ((length short < 4)%nat ->
        CardSecurity.maskCardNumber short = "****"
        /\ CardSecurity.getLastFourDigits short = "").
Proof.
  intros prefix last short. split; intros H.
  - split; [now apply mask_of_suffix|].
    unfold CardSecurity.getLastFourDigits.
    assert (Ht : JsString.truthy (prefix ++ last) = true)
      by (apply truthy_length; rewrite length_append; lia).
    rewrite Ht. destruct (Nat.ltb_spec (length (prefix ++ last)) 4) as [Hlt|_].
    + rewrite length_append in Hlt. lia.
    + cbn [negb orb]. rewrite <- H at 1. apply slice_last_app.
  - unfold CardSecurity.maskCardNumber, CardSecurity.getLastFourDigits.
    apply Nat.ltb_lt in H. rewrite H, !orb_true_r. now split.
Qed.

Lemma maskCardNumber_shows_last_four_only_witness :
  (CardSecurity.maskCardNumber ("453212345678" ++ "9012") = "**** **** **** 9012"
   /\ CardSecurity.getLastFourDigits ("453212345678" ++ "9012") = "9012")
  /\ (CardSecurity.maskCardNumber "123" = "****"
      /\ CardSecurity.getLastFourDigits "123" = "").
Proof.
  split.
  - apply (proj1 (maskCardNumber_shows_last_four_only "453212345678" "9012" "123")).
    reflexivity.
  - apply (proj2 (maskCardNumber_shows_last_four_only "453212345678" "9012" "123")).
    simpl. lia.
Defined.

(** X4.  Masking is idempotent on numbers of four characters or more.  On
    a shorter number it is not: the bare mask has four characters, and
    masking it again shows them as if they were the last four digits. *)
Theorem maskCardNumber_twice :
  forall n : string,
    ((4 <= length n)%nat ->
     CardSecurity.maskCardNumber (CardSecurity.maskCardNumber n) =
     CardSecurity.maskCardNumber n)
    /\ ((length n < 4)%nat ->
        CardSecurity.maskCardNumber (CardSecurity.maskCardNumber n) =
        "**** **** **** ****").
Proof.
  intros n. split; intros H.
  - destruct (slice_last_suffix 4 n H) as (prefix & E & Hlen).
    assert (Hm : CardSecurity.maskCardNumber n =
                 ("**** **** **** " ++ JsString.slice_last 4 n)%string).
    { rewrite E at 1. now apply mask_of_suffix. }
    rewrite Hm. now apply mask_of_suffix.
  - unfold CardSecurity.maskCardNumber at 2.
    apply Nat.ltb_lt in H. rewrite H, orb_true_r. reflexivity.
Qed.

Lemma maskCardNumber_twice_witness :
  CardSecurity.maskCardNumber (CardSecurity.maskCardNumber "378282246310005") =
  CardSecurity.maskCardNumber "378282246310005"
  /\ CardSecurity.maskCardNumber (CardSecurity.maskCardNumber "123") =
     "**** **** **** ****".
Proof.
  split.
  - apply (proj1 (maskCardNumber_twice "378282246310005")). vm_compute. lia.
  - apply (proj2 (maskCardNumber_twice "123")). vm_compute. lia.
Defined.

Section LengthFacts.
Import JsString CardSecurity CardDisplay MoreTerms.

Lemma forall_chars_take (p : ascii -> bool) (n : nat) :
  forall s, forall_chars p s = true -> forall_chars p (take n s) = true.
Proof.
  induction n as [|n IH]; intros [|c r] H; simpl in *; try reflexivity.
  apply andb_true_iff in H as [Hc Hr]. now rewrite Hc, IH.
Qed.

Lemma digits_after_cleaning (s : string) :
  forall_chars (fun c => is_digit c || is_space c) s = true ->
  forall_chars is_digit (remove_whitespace s) = true.
Proof.
  unfold remove_whitespace. induction s as [|c r IH]; simpl; [reflexivity|].
  intros H. apply andb_true_iff in H as [Hc Hr].
  destruct (is_space c) eqn:Es; simpl; [now apply IH|].
  rewrite orb_false_r in Hc. now rewrite Hc, IH.
Qed.

Lemma valid_length_bound (n : string) :
  isValidCardLength n = true -> (13 <= length (remove_whitespace n))%nat.
Proof.
  unfold isValidCardLength. destruct (truthy n); [|discriminate]. cbn [negb].
  cbn [existsb]. rewrite !orb_true_iff, !Nat.eqb_eq.
  intros [H|[H|[H|[H|[H|H]]]]]; try discriminate; lia.
Qed.

End LengthFacts.

(** X5.  A number made of digits and white space that the length check
    accepts is refused by the display check: no card number that passes
    [isValidCardLength] may be shown as it is. *)
Theorem valid_card_number_is_not_displayable :
  forall n : string,
    CardSecurity.isValidCardLength n = true ->
    JsString.forall_chars (fun c => JsString.is_digit c || JsString.is_space c) n = true ->
    CardDisplay.isPCICompliantDisplay n = false.
Proof.
  intros n Hlen Hdigits.
  rewrite isPCICompliantDisplay_hasRun, negb_false_iff.
  apply valid_length_bound in Hlen. apply digits_after_cleaning in Hdigits.
  destruct (JsString.remove_whitespace n) as [|c r] eqn:E; [simpl in Hlen; lia|].
  cbn [MoreTerms.hasRun].
  apply Nat.leb_le in Hlen. rewrite Hlen.
  now rewrite (forall_chars_take _ 13 _ Hdigits).
Qed.

Lemma valid_card_number_is_not_displayable_witness :
  CardDisplay.isPCICompliantDisplay "4532 1234 5678 9012" = false.
Proof.
  apply valid_card_number_is_not_displayable; reflexivity.
Defined.

Section GroupFacts.
Import JsString Regex RegexMore CardSecurity CardDisplay MoreTerms.

Lemma not_space_dot (c : ascii) : is_space c = false -> dotp c = true.
Proof. destruct c as [[] [] [] [] [] [] [] []]; intros H; try discriminate H; reflexivity. Qed.

(** On characters of the class, [[class]{0,k}] first consumes as many as
    [k] of them. *)
Lemma run_AtMost_greedy (ranges : list (ascii * ascii)) (k : nat) :
  forall (b : bool) (s : string),
    forall_chars (class_match false ranges) s = true ->
    exists b' rest,
      run false (AtMost (Class ranges) k) (b, s) = (b', skip k s) :: rest.
Proof.
  induction k as [|k IH]; intros b s H.
  - exists b, []. reflexivity.
  - cbn [AtMost run]. destruct s as [|c r].
    + exists b, []. reflexivity.
    + cbn [forall_chars] in H. apply andb_true_iff in H as [Hc Hr].
      unfold step_char. cbn [snd]. rewrite Hc. cbn [flat_map].
      destruct (IH false r Hr) as (b' & rest & ->).
      eexists _, _. cbn [skip app]. reflexivity.
Qed.

Lemma groupsOfFour_step (c : ascii) (r : string) :
  groupsOfFour (String c r) =
  take 4 (String c r) :: groupsOfFour (skip 4 (String c r)).
Proof. destruct r as [|c1 [|c2 [|c3 r]]]; reflexivity. Qed.

Lemma forall_chars_skip (p : ascii -> bool) (n : nat) :
  forall s, forall_chars p s = true -> forall_chars p (skip n s) = true.
Proof.
  induction n as [|n IH]; intros [|c r] H; simpl in *; try assumption; try reflexivity.
  apply andb_true_iff in H as [_ Hr]. now apply IH.
Qed.

Lemma take_of_remaining (n : nat) (s : string) :
  take (length s - length (skip n s)) s = take n s.
Proof.
  rewrite length_skip.
  destruct (Nat.le_gt_cases n (length s)) as [Hle|Hgt].
  - f_equal. lia.
  - replace (length s - (length s - n))%nat with (length s) by lia.
    rewrite take_all. clear -Hgt. revert s Hgt.
    induction n as [|n IH]; intros [|c r] H; simpl in *; try lia; try reflexivity.
    f_equal. destruct r as [|c' r'].
    + now destruct n.
    + apply IH. simpl in *. lia.
Qed.

(** The global match of [/.{1,4}/g] cuts a text without line terminators
    into its groups of four. *)
Lemma matches_from_groups (fuel : nat) :
  forall (start : bool) (s : string),
    (length s < fuel)%nat ->
    forall_chars dotp s = true ->
    matches_from fuel false groupRegex start s = groupsOfFour s.
Proof.
  induction fuel as [|fuel IH]; intros start s Hlen Hall; [lia|].
  destruct s as [|c r]; [reflexivity|].
  rewrite groupsOfFour_step. cbn [matches_from].
  pose proof Hall as Hall'. cbn [forall_chars] in Hall'.
  apply andb_true_iff in Hall' as [Hc Hr].
  assert (E : iterate (step_char dotp) 1 [(start, String c r)] = [(false, r)]).
  { cbn [iterate flat_map]. unfold step_char. cbn [snd]. now rewrite Hc. }
  unfold groupRegex, Between, Dot. cbn [run]. fold dotp.
  match goal with
  | |- context [iterate ?f 1 ?l] =>
      replace (iterate f 1 l) with [(false, r)] by (symmetry; exact E)
  end.
  cbn [flat_map].
  destruct (run_AtMost_greedy _ (4 - 1) false r Hr) as (b' & rest & ->).
  cbn [app].
  change (skip (4 - 1) r) with (skip 4 (String c r)).
  rewrite take_of_remaining.
  change (truthy (take 4 (String c r))) with true. cbv iota. f_equal.
  apply IH.
  - rewrite length_skip. simpl in *. lia.
  - now apply forall_chars_skip.
Qed.

Lemma concat_nonempty (g : string) (gs : list string) :
  truthy g = true -> truthy (String.concat " " (g :: gs)) = true.
Proof. destruct g; [discriminate|]. destruct gs; reflexivity. Qed.

Lemma formatMaskedCardNumber_groups (s : string) :
  formatMaskedCardNumber s = String.concat " " (groupsOfFour (remove_whitespace s)).
Proof.
  unfold formatMaskedCardNumber, match_global. cbv zeta.
  rewrite matches_from_groups.
  - destruct (remove_whitespace s) as [|c r] eqn:E; [reflexivity|].
    rewrite groupsOfFour_step. unfold or_else.
    now rewrite concat_nonempty.
  - lia.
  - unfold remove_whitespace.
    induction s as [|c r IH]; simpl; [reflexivity|].
    destruct (is_space c) eqn:E; simpl; [exact IH|].
    now rewrite (not_space_dot c E), IH.
Qed.

Lemma remove_whitespace_append (a b : string) :
  remove_whitespace (a ++ b) = (remove_whitespace a ++ remove_whitespace b)%string.
Proof. apply filter_chars_append. Qed.

(** Joining the groups by spaces and removing the spaces gives back the
    text. *)
Lemma groups_round_trip (fuel : nat) :
  forall s, (length s < fuel)%nat ->
            remove_whitespace (String.concat " " (groupsOfFour s)) = remove_whitespace s.
Proof.
  induction fuel as [|fuel IH]; intros s Hlen; [lia|].
  destruct s as [|c r]; [reflexivity|].
  rewrite groupsOfFour_step.
  assert (Hrest : (length (skip 4 (String c r)) < fuel)%nat)
    by (rewrite length_skip; simpl in *; lia).
  specialize (IH _ Hrest).
  rewrite <- (take_skip 4 (String c r)) at 3.
  rewrite remove_whitespace_append, <- IH.
  destruct (groupsOfFour (skip 4 (String c r))) as [|g gs] eqn:E.
  - cbn [String.concat]. cbn [String.concat] in IH.
    change (remove_whitespace "") with ""%string.
    clear. generalize (remove_whitespace (take 4 (String c r))).
    intros t. induction t; simpl; congruence.
  - cbn [String.concat].
    rewrite !remove_whitespace_append. reflexivity.
Qed.

End GroupFacts.

(** X6.  [formatMaskedCardNumber] writes the characters of its argument,
    white space apart, in groups of four separated by single spaces.  It
    changes nothing but the white space, and formatting a formatted text
    leaves it as it is. *)
Theorem formatMaskedCardNumber_regroups :
  forall s : string,
    CardDisplay.formatMaskedCardNumber s =
    String.concat " " (MoreTerms.groupsOfFour (JsString.remove_whitespace s))
    /\ JsString.remove_whitespace (CardDisplay.formatMaskedCardNumber s) =
       JsString.remove_whitespace s
    /\ CardDisplay.formatMaskedCardNumber (CardDisplay.formatMaskedCardNumber s) =
       CardDisplay.formatMaskedCardNumber s.
Proof.
  intros s.
  assert (Hrt : JsString.remove_whitespace (CardDisplay.formatMaskedCardNumber s) =
                JsString.remove_whitespace s).
  { rewrite formatMaskedCardNumber_groups.
    rewrite (groups_round_trip (S (length (JsString.remove_whitespace s)))) by lia.
    apply filter_chars_idempotent. }
  split; [apply formatMaskedCardNumber_groups | split; [exact Hrt|]].
  rewrite (formatMaskedCardNumber_groups (CardDisplay.formatMaskedCardNumber s)), Hrt.
  symmetry. apply formatMaskedCardNumber_groups.
Qed.

(** X7.  After [sanitizeCardDataForLogging] the security code is absent or
    empty, the card number, when there is one, passes the display check,
    a record without a card number still has none, and the other fields
    are the ones given. *)
Theorem sanitizeCardDataForLogging_is_safe :
  forall d : CardDisplay.CardLogData,
    let d' := CardDisplay.sanitizeCardDataForLogging d in
    (CardDisplay.log_cvv d' = None \/ CardDisplay.log_cvv d' = Some "")
    /\ (forall n, CardDisplay.log_cardNumber d' = Some n ->
                  CardDisplay.isPCICompliantDisplay n = true)
    /\ (CardDisplay.log_cardNumber d' = None <-> CardDisplay.log_cardNumber d = None)
    /\ CardDisplay.log_others d' = CardDisplay.log_others d.
Proof.
  intros [[n|] [[|c v]|] others]; cbn;
    try (destruct n as [|a n']; cbn);
    repeat split; auto; try discriminate; intros m; intros [= <-];
    try reflexivity;
    rewrite isPCICompliantDisplay_hasRun; now rewrite masked_has_no_run.
Qed.

Lemma sanitizeCardDataForLogging_is_safe_witness :
  CardDisplay.isPCICompliantDisplay "**** **** **** 9012" = true.
Proof.
  apply (proj1 (proj2 (sanitizeCardDataForLogging_is_safe
           (CardDisplay.mkLogData (Some "4532123456789012") (Some "123")
              [("holder", CardDisplay.JsText "John Doe")])))).
  reflexivity.
Defined.

(** ** Card actions, continued *)

Section CardCountFacts.
Import JsString Schema Db Cards CardCount.

Lemma filter_not_null (ids : list string) : filter not_null ids = ids.
Proof. induction ids as [|i ids IH]; simpl; congruence. Qed.

Lemma first_row_of_join (r : Registry) (cardId : string) (card : cards_row)
      (customer : customers_row) (rest : list (cards_row * customers_row)) :
  filter (fun row => (cards_id (fst row) =? cardId)%string) (cards_join_customers r)
  = (card, customer) :: rest ->
  In card (cards r)
  /\ cards_id card = cardId
  /\ exists others,
       filter (fun c => (customers_id c =? cards_customerId card)%string) (customers r)
       = customer :: others.
Proof.
  unfold cards_join_customers.
  induction (cards r) as [|c l IH]; cbn [flat_map]; [discriminate|].
  rewrite filter_app. intros H.
  assert (Hjoin : forall cs,
             filter (fun row : cards_row * customers_row =>
                       (cards_id (fst row) =? cardId)%string)
                    (map (fun customer0 => (c, customer0)) cs)
             = if (cards_id c =? cardId)%string
               then map (fun customer0 => (c, customer0)) cs else []).
  { induction cs as [|x cs IHc]; cbn.
    - now destruct (cards_id c =? cardId)%string.
    - rewrite IHc. now destruct (cards_id c =? cardId)%string. }
  rewrite Hjoin in H.
  destruct (cards_id c =? cardId)%string eqn:Eid.
  - destruct (filter (fun c0 => (cards_customerId c =? customers_id c0)%string)
                     (customers r)) as [|x xs] eqn:Ef.
    + cbn in H. destruct (IH H) as (Hin & Hid & Hc). split; [now right | now split].
    + cbn in H. injection H as <- <- _.
      split; [now left|]. split; [now apply String.eqb_eq|].
      exists xs. rewrite <- Ef. apply filter_ext'. intros y. apply String.eqb_sym.
  - cbn in H. destruct (IH H) as (Hin & Hid & Hc). split; [now right | now split].
Qed.

End CardCountFacts.

(** X8.  [getActiveCardCount] never raises.  It answers 0 for a blank
    identifier and when the query fails, and otherwise the number of card
    rows of the customer, whatever their status. *)
Theorem getActiveCardCount_counts_every_card :
  forall (db : Db.Connection) (key : string),
    exists n,
      CardCount.getActiveCardCount db key = Db.Resolved n
      /\ (Cards.blank key = true \/ Db.failure db (Db.CardsOfCustomer key) <> None ->
          n = 0%nat)
      /\ (Cards.blank key = false ->
          Db.failure db (Db.CardsOfCustomer key) = None ->
          n = List.length
                (filter (fun c => (Schema.cards_customerId c =? key)%string)
                        (Schema.cards (Db.registry db)))).
Proof.
  intros db key. unfold CardCount.getActiveCardCount, Db.await.
  destruct (Cards.blank key).
  - exists 0%nat. repeat split; auto. discriminate.
  - destruct (Db.failure db (Db.CardsOfCustomer key)) as [e|].
    + exists 0%nat. repeat split; auto. discriminate.
    + eexists. split; [reflexivity|]. split.
      * intros [H|H]; [discriminate | congruence].
      * intros _ _. cbn. now rewrite filter_not_null, length_map.
Qed.

Lemma getActiveCardCount_counts_every_card_witness :
  exists n,
    CardCount.getActiveCardCount (Db.healthy Sample.sampleRegistry) "c2" = Db.Resolved n
    /\ n = 1%nat.
Proof.
  destruct (getActiveCardCount_counts_every_card (Db.healthy Sample.sampleRegistry) "c2")
    as (n & Hn & _ & Hcount).
  exists n. split; [exact Hn|].
  apply Hcount; reflexivity.
Defined.

(** X9.  When [getCustomerCards] resolves for a customer that is present,
    it lists every card row of the customer once, in table order, and
    [getActiveCardCount] gives the length of that list. *)
Theorem getCustomerCards_lists_every_card :
  forall (db : Db.Connection) (zone : JsDates.TimeZone) (key : string)
         (views : list Cards.CustomerCardData),
    Cards.getCustomerCards db zone key = Db.Resolved views ->
    customerPresent (Db.registry db) key = true ->
    map Cards.id views =
    map Schema.cards_id
        (filter (fun c => (Schema.cards_customerId c =? key)%string)
                (Schema.cards (Db.registry db)))
    /\ CardCount.getActiveCardCount db key = Db.Resolved (List.length views).
Proof.
  intros db zone key views. unfold Cards.getCustomerCards, CardCount.getActiveCardCount,
    Db.await, customerPresent.
  destruct (Cards.blank key); [discriminate|].
  destruct (Db.failure db (Db.CustomerById key)); [discriminate|].
  intros H Hp. destruct (filter_some _ _ Hp) as (c & rest & E).
  rewrite E in H. cbn in H.
  destruct (Db.failure db (Db.CardsOfCustomer key)); [discriminate|].
  cbn in H. injection H as <-. cbn.
  rewrite filter_not_null, !length_map, map_map. split; reflexivity.
Qed.

Lemma getCustomerCards_lists_every_card_witness :
  map Cards.id [Cards.toCardData Sample.utc "John" None "Doe" Sample.card1] = ["card-1"]
  /\ CardCount.getActiveCardCount (Db.healthy Sample.sampleRegistry) "c1" =
     Db.Resolved 1%nat.
Proof.
  apply (getCustomerCards_lists_every_card (Db.healthy Sample.sampleRegistry)
           Sample.utc "c1"
           [Cards.toCardData Sample.utc "John" None "Doe" Sample.card1]); reflexivity.
Defined.

(** X10.  A card that [getCardById] finds belongs to the list that
    [getCustomerCards] returns for its owner, with the same view, as soon
    as the owner's identifier is not blank and the owner's queries are
    answered. *)
Theorem getCardById_agrees_with_getCustomerCards :
  forall (db : Db.Connection) (zone : JsDates.TimeZone) (key : string)
         (v : Cards.CustomerCardData),
    Cards.getCardById db zone key = Db.Resolved (Some v) ->
    exists card,
      In card (Schema.cards (Db.registry db))
      /\ Schema.cards_id card = key
      /\ (Cards.blank (Schema.cards_customerId card) = false ->
          Db.failure db (Db.CustomerById (Schema.cards_customerId card)) = None ->
          Db.failure db (Db.CardsOfCustomer (Schema.cards_customerId card)) = None ->
          exists views,
            Cards.getCustomerCards db zone (Schema.cards_customerId card) =
            Db.Resolved views
            /\ In v views).
Proof.
  intros db zone key v. unfold Cards.getCardById, Db.await.
  destruct (Cards.blank key); [discriminate|].
  destruct (Db.failure db (Db.CardWithCustomer key)); [discriminate|].
  cbn [Db.bind Db.try_catch].
  destruct (filter _ (Cards.cards_join_customers (Db.registry db)))
    as [|[card customer] rest] eqn:E; cbn; [discriminate|].
  intros [= <-].
  destruct (first_row_of_join _ _ _ _ _ E) as (Hin & Hid & others & Hc).
  exists card. split; [exact Hin|]. split; [exact Hid|].
  intros Hb Hf1 Hf2. unfold Cards.getCustomerCards, Db.await.
  rewrite Hb, Hf1, Hc, Hf2. cbn. eexists. split; [reflexivity|].
  apply in_map. apply filter_In. split; [exact Hin | apply String.eqb_refl].
Qed.

Lemma getCardById_agrees_with_getCustomerCards_witness :
  exists views,
    Cards.getCustomerCards (Db.healthy Sample.sampleRegistry) Sample.utc "c2" =
    Db.Resolved views
    /\ In (Cards.toCardData Sample.utc "Jane" (Some "A") "Smith" Sample.card2) views.
Proof.
  destruct (getCardById_agrees_with_getCustomerCards (Db.healthy Sample.sampleRegistry)
              Sample.utc "card-2"
              (Cards.toCardData Sample.utc "Jane" (Some "A") "Smith" Sample.card2)
              eq_refl)
    as (card & Hin & Hid & H).
  simpl in Hin. destruct Hin as [<-|[<-|[]]]; [discriminate Hid|].
  apply H; reflexivity.
Defined.

Section ExpirationFacts.
Import JsString CardSecurity Schema Cards.

(** Every year from 2000 to 2099 and every month are written as [MM/YY]
    and read back. *)
Lemma month_year_table :
  forallb
    (fun y =>
       forallb
         (fun m =>
            match wellFormedMMYY
                    (padStart 2 "0" (string_of_Z (Z.of_nat m + 1))
                     ++ "/" ++ slice_last 2 (string_of_Z (Z.of_nat y))) with
            | Some (mm, yy) => (mm =? Z.of_nat m + 1)%Z && (yy =? Z.of_nat y)%Z
            | None => false
            end)
         (seq 0 12))
    (seq 2000 100) = true.
Proof. vm_compute. reflexivity. Qed.

Lemma month_year_well_formed (y m : Z) :
  (2000 <= y <= 2099)%Z ->
  (0 <= m <= 11)%Z ->
  wellFormedMMYY (padStart 2 "0" (string_of_Z (m + 1))
                  ++ "/" ++ slice_last 2 (string_of_Z y)) = Some ((m + 1)%Z, y).
Proof.
  intros Hy Hm.
  pose proof month_year_table as T.
  rewrite forallb_forall in T.
  specialize (T (Z.to_nat y)).
  rewrite forallb_forall in T.
  assert (Hiny : In (Z.to_nat y) (seq 2000 100)) by (apply in_seq; lia).
  assert (Hinm : In (Z.to_nat m) (seq 0 12)) by (apply in_seq; lia).
  specialize (T Hiny (Z.to_nat m) Hinm).
  rewrite !Z2Nat.id in T by lia.
  destruct (wellFormedMMYY _) as [[mm yy]|]; [|discriminate].
  apply andb_true_iff in T as [E1 E2].
  apply Z.eqb_eq in E1, E2. now subst.
Qed.

Lemma isoDate_truthy (text : string) (ymd : Z * Z * Z) :
  JsDates.isoDate text = Some ymd -> truthy text = true.
Proof. destruct text; [discriminate | reflexivity]. Qed.

(** The text shown for a date-only column text, by the local year and
    month of its midnight in UTC. *)
Lemma formattedExpDate_local (zone : JsDates.TimeZone) (text : string) (y m d ly lm : Z) :
  JsDates.isoDate text = Some (y, m, d) ->
  (1 <= m <= 12)%Z ->
  (1 <= d <= JsDates.daysInMonth y m)%Z ->
  JsDates.localYearMonth zone (JsDates.UtcMidnight y m d) = Some (ly, lm) ->
  formattedExpDate zone (Some text) =
  (padStart 2 "0" (string_of_Z (lm + 1)) ++ "/" ++ slice_last 2 (string_of_Z ly))%string.
Proof.
  intros Hiso Hm Hd Hlocal. unfold formattedExpDate.
  rewrite (isoDate_truthy text _ Hiso). unfold JsDates.newDate. rewrite Hiso.
  replace ((1 <=? m)%Z && (m <=? 12)%Z && (1 <=? d)%Z
           && (d <=? JsDates.daysInMonth y m)%Z) with true
    by (symmetry; rewrite !andb_true_iff, !Z.leb_le; lia).
  unfold JsDates.getMonth, JsDates.getFullYear. rewrite Hlocal. reflexivity.
Qed.

Lemma expired_before (now : JsDate) (s : string) (m y : Z) :
  wellFormedMMYY s = Some (m, y) ->
  (isCardExpired now s = true <->
   (y < getFullYear now \/ (y = getFullYear now /\ m < getMonth now + 1))%Z).
Proof.
  intros W. rewrite (isCardExpired_well_formed now s m y W).
  rewrite orb_true_iff, andb_true_iff, !Z.ltb_lt, Z.eqb_eq. tauto.
Qed.

End ExpirationFacts.

(** X11.  The [MM/YY] text of a card view is built from the local month
    and year of 00:00 UTC of the stored date.  For a stored date
    [YYYY-MM-DD] it denotes the stored month and year when the time zone
    of the process is not behind UTC on that day, or the day is not the
    first of the month; when the zone is behind UTC and the day is the
    first, it denotes the month before, of the year before for January.
    In each case, for a shown year from 2000 to 2099, [isCardExpired]
    answers true on it exactly when the shown month lies before the current
    one.  The column text [infinity] gives ["NaN/aN"] and a column without
    a date gives ["N/A"], and both are read as expired. *)
Theorem formattedExpDate_round_trip :
  forall (zone : JsDates.TimeZone) (now : CardSecurity.JsDate),
    (forall (text : string) (y m d : Z),
        JsDates.isoDate text = Some (y, m, d) ->
        (1 <= m <= 12)%Z ->
        (1 <= d <= JsDates.daysInMonth y m)%Z ->
        let shown := Cards.formattedExpDate zone (Some text) in
        ((0 <= zone y m d \/ 2 <= d)%Z ->
         (2000 <= y <= 2099)%Z ->
         wellFormedMMYY shown = Some (m, y)
         /\ (CardSecurity.isCardExpired now shown = true <->
             (y < CardSecurity.getFullYear now
              \/ (y = CardSecurity.getFullYear now
                  /\ m < CardSecurity.getMonth now + 1))%Z))
        /\ ((zone y m d < 0)%Z -> d = 1%Z -> (2 <= m)%Z ->
            (2000 <= y <= 2099)%Z ->
            wellFormedMMYY shown = Some ((m - 1)%Z, y)
            /\ (CardSecurity.isCardExpired now shown = true <->
                (y < CardSecurity.getFullYear now
                 \/ (y = CardSecurity.getFullYear now
                     /\ m - 1 < CardSecurity.getMonth now + 1))%Z))
        /\ ((zone y m d < 0)%Z -> d = 1%Z -> m = 1%Z ->
            (2001 <= y <= 2100)%Z ->
            wellFormedMMYY shown = Some (12%Z, (y - 1)%Z)
            /\ (CardSecurity.isCardExpired now shown = true <->
                (y - 1 < CardSecurity.getFullYear now
                 \/ (y - 1 = CardSecurity.getFullYear now
                     /\ 12 < CardSecurity.getMonth now + 1))%Z)))
    /\ Cards.formattedExpDate zone (Some "infinity") = "NaN/aN"
    /\ CardSecurity.isCardExpired now "NaN/aN" = true
    /\ Cards.formattedExpDate zone None = "N/A"
    /\ CardSecurity.isCardExpired now "N/A" = true.
Proof.
  intros zone now. split; [|repeat split].
  intros text y m d Hiso Hm Hd shown. split; [|split].
  - intros Hz Hy.
    assert (L : JsDates.localYearMonth zone (JsDates.UtcMidnight y m d) =
                Some (y, (m - 1)%Z)).
    { unfold JsDates.localYearMonth.
      destruct (Z.ltb_spec (zone y m d) 0) as [Hlt|_]; [|reflexivity].
      destruct (Z.eqb_spec d 1) as [->|_]; [lia | reflexivity]. }
    assert (W : wellFormedMMYY shown = Some (m, y)).
    { unfold shown. rewrite (formattedExpDate_local zone text y m d _ _ Hiso Hm Hd L).
      rewrite (month_year_well_formed y (m - 1)) by lia.
      f_equal. f_equal. lia. }
    split; [exact W | exact (expired_before now shown m y W)].
  - intros Hz -> Hm2 Hy.
    assert (L : JsDates.localYearMonth zone (JsDates.UtcMidnight y m 1%Z) =
                Some (y, (m - 2)%Z)).
    { unfold JsDates.localYearMonth.
      destruct (Z.ltb_spec (zone y m 1%Z) 0) as [_|Hge]; [|lia].
      destruct (Z.eqb_spec m 1) as [->|_]; [lia | reflexivity]. }
    assert (W : wellFormedMMYY shown = Some ((m - 1)%Z, y)).
    { unfold shown. rewrite (formattedExpDate_local zone text y m 1%Z _ _ Hiso Hm Hd L).
      rewrite (month_year_well_formed y (m - 2)) by lia.
      f_equal. f_equal. lia. }
    split; [exact W | exact (expired_before now shown _ _ W)].
  - intros Hz -> -> Hy.
    assert (L : JsDates.localYearMonth zone (JsDates.UtcMidnight y 1%Z 1%Z) =
                Some ((y - 1)%Z, 11%Z)).
    { unfold JsDates.localYearMonth.
      destruct (Z.ltb_spec (zone y 1%Z 1%Z) 0) as [_|Hge]; [reflexivity | lia]. }
    assert (W : wellFormedMMYY shown = Some (12%Z, (y - 1)%Z)).
    { unfold shown. rewrite (formattedExpDate_local zone text y 1%Z 1%Z _ _ Hiso Hm Hd L).
      rewrite (month_year_well_formed (y - 1) 11) by lia.
      reflexivity. }
    split; [exact W | exact (expired_before now shown _ _ W)].
Qed.

(** A card stored as expiring on 2025-12-01 is shown in Mexico City as
    expiring in November 2025. *)
Lemma formattedExpDate_round_trip_witness :
  wellFormedMMYY (Cards.formattedExpDate Sample.mexicoCity (Some "2025-12-01")) =
  Some (11%Z, 2025%Z)
  /\ wellFormedMMYY (Cards.formattedExpDate Sample.utc (Some "2025-12-01")) =
     Some (12%Z, 2025%Z).
Proof.
  split.
  - apply (proj1 (proj2 (proj1 (formattedExpDate_round_trip Sample.mexicoCity
                                  (CardSecurity.mkDate 2026 10))
                           "2025-12-01" 2025%Z 12%Z 1%Z eq_refl
                           ltac:(lia) ltac:(vm_compute; split; discriminate))));
      [reflexivity | reflexivity | lia | lia].
  - apply (proj1 (proj1 (formattedExpDate_round_trip Sample.utc
                           (CardSecurity.mkDate 2026 10))
                    "2025-12-01" 2025%Z 12%Z 1%Z eq_refl
                    ltac:(lia) ltac:(vm_compute; split; discriminate)));
      [left; vm_compute; discriminate | lia].
Defined.

Section WarningFacts.
Import JsString CardSecurity Schema Cards CardsDisplay CardDisplay MoreTerms.

Lemma getCardBrand_values (n : string) :
  In (getCardBrand n)
     ["Visa"; "MasterCard"; "American Express"; "Discover"; "Diners Club"; "Unknown"]%string.
Proof.
  unfold getCardBrand.
  repeat match goal with
    | |- context [if ?b then _ else _] => destruct b
    end; simpl; tauto.
Qed.

Lemma hasRun_after_prefix (pre s : string) :
  forall_chars (fun c => negb (is_digit c)) pre = true ->
  hasRun is_digit 13 (pre ++ s) = hasRun is_digit 13 s.
Proof.
  induction pre as [|c r IH]; cbn [append forall_chars]; [reflexivity|].
  intros H. apply andb_true_iff in H as [Hc Hr]. apply negb_true_iff in Hc.
  rewrite hasRun_skip_char by exact Hc. now apply IH.
Qed.

Lemma getCardTypeName_name (t : CardType) (number : option string) :
  fst (getCardTypeName (cardType_text t) number) = cardType_text t.
Proof. destruct t; reflexivity. Qed.

End WarningFacts.

(** X12.  The selection screen raises no security warning for a card view
    only if the stored card is active, has an expiration date and has a
    number of valid length; a stored card of valid length without an
    expiration date is always reported as expired. *)
Theorem getCardSecurityWarning_on_views :
  forall (zone : JsDates.TimeZone) (now : CardSecurity.JsDate) (first : string)
         (middle : option string) (last : string) (card : Schema.cards_row),
    let view := Cards.toCardData zone first middle last card in
    (CardsDisplay.getCardSecurityWarning now view = None ->
     Schema.cards_status card = Schema.CardActive
     /\ Schema.cards_expirationDate card <> None
     /\ CardSecurity.isValidCardLength (Schema.cards_number card) = true)
    /\ (Schema.cards_expirationDate card = None ->
        CardSecurity.isValidCardLength (Schema.cards_number card) = true ->
        CardsDisplay.getCardSecurityWarning now view = Some CardSecurity.expiredMessage).
Proof.
  intros zone now first middle last [i owner number type st exp]. cbv zeta.
  unfold CardsDisplay.getCardSecurityWarning, Cards.toCardData,
    CardSecurity.validateCardForTransaction.
  cbn [Cards.cardNumber Cards.expirationDate Cards.status CardSecurity.cardNumber
       CardSecurity.expirationDate CardSecurity.status Schema.cards_status
       Schema.cards_expirationDate Schema.cards_number].
  split.
  - destruct (CardSecurity.isValidCardLength number); cbn; [|discriminate].
    destruct exp as [d|].
    + destruct (CardSecurity.isCardExpired now _); cbn; [discriminate|].
      destruct st; cbn; intros H; try discriminate H.
      repeat split; discriminate.
    + cbn. discriminate.
  - intros -> ->. reflexivity.
Qed.

Lemma getCardSecurityWarning_on_views_witness :
  CardsDisplay.getCardSecurityWarning (CardSecurity.mkDate 2026 10)
    (Cards.toCardData Sample.utc "Jane" (Some "A") "Smith" Sample.card2) =
  Some CardSecurity.expiredMessage.
Proof.
  apply (proj2 (getCardSecurityWarning_on_views Sample.utc (CardSecurity.mkDate 2026 10)
                  "Jane" (Some "A") "Smith" Sample.card2)); reflexivity.
Defined.

(** X13.  The display name of a card view is its stored type, debit,
    credit or prepaid, never a brand; and for every number of a
    recognised brand the screen logs a type mismatch. *)
Theorem getCardTypeName_on_views :
  forall (t : Schema.CardType) (number : string),
    fst (CardsDisplay.getCardTypeName (CardsDisplay.cardType_text t) (Some number)) =
    CardsDisplay.cardType_text t
    /\ (CardSecurity.getCardBrand number <> "Unknown" ->
        snd (CardsDisplay.getCardTypeName (CardsDisplay.cardType_text t) (Some number)) =
        [("Card type mismatch: stored=" ++ CardsDisplay.cardType_text t ++ ", detected="
          ++ CardSecurity.getCardBrand number)%string]).
Proof.
  intros t number. split; [destruct t; reflexivity|].
  intros Hb. unfold CardsDisplay.getCardTypeName. cbn [snd].
  destruct number as [|c r]; [exfalso; apply Hb; reflexivity|].
  cbn [JsString.truthy].
  pose proof (getCardBrand_values (String c r)) as Hv.
  destruct (CardSecurity.getCardBrand (String c r) =? "Unknown")%string eqn:E;
    [apply String.eqb_eq in E; contradiction|].
  cbn [negb andb].
  simpl in Hv.
  destruct Hv as [Hv|[Hv|[Hv|[Hv|[Hv|[Hv|[]]]]]]]; rewrite <- Hv in *;
    destruct t; try reflexivity; exfalso; apply Hb; reflexivity.
Qed.

Lemma getCardTypeName_on_views_witness :
  snd (CardsDisplay.getCardTypeName (CardsDisplay.cardType_text Schema.Debit)
         (Some "4532123456789012")) =
  [("Card type mismatch: stored=" ++ CardsDisplay.cardType_text Schema.Debit
    ++ ", detected=" ++ CardSecurity.getCardBrand "4532123456789012")%string].
Proof.
  apply (proj2 (getCardTypeName_on_views Schema.Debit "4532123456789012")).
  vm_compute. discriminate.
Defined.

(** X14.  The text the selection screen shows for a card view passes the
    display check, whatever the stored number. *)
Theorem formatCardForDisplay_is_compliant :
  forall v : Cards.CustomerCardData,
    CardDisplay.isPCICompliantDisplay (fst (CardsDisplay.formatCardForDisplay v)) = true.
Proof.
  intros v. rewrite isPCICompliantDisplay_hasRun.
  unfold CardsDisplay.formatCardForDisplay. cbv zeta.
  destruct (CardsDisplay.getCardTypeName _ _) as [brandName console] eqn:E.
  cbn [fst].
  assert (Hb : brandName = CardsDisplay.cardType_text (Cards.cardType v)).
  { pose proof (getCardTypeName_name (Cards.cardType v) (Some (Cards.cardNumber v))) as H.
    now rewrite E in H. }
  subst brandName.
  unfold JsString.remove_whitespace.
  rewrite !filter_chars_append.
  rewrite hasRun_after_prefix by (destruct (Cards.cardType v); reflexivity).
  rewrite hasRun_after_prefix by reflexivity.
  apply negb_true_iff, masked_has_no_run.
Qed.

(** ** The routes *)

Section RouteFacts.
Import JsString CardSecurity Schema Db Cards Types RouteTerms.

Lemma getCustomerCards_views (db : Connection) (zone : JsDates.TimeZone) (key : string)
      (views : list CustomerCardData) (v : CustomerCardData) :
  getCustomerCards db zone key = Resolved views ->
  In v views ->
  exists card first middle last,
    In card (cards (registry db))
    /\ cards_customerId card = key
    /\ v = toCardData zone first middle last card.
Proof.
  unfold getCustomerCards, await.
  destruct (blank key); [discriminate|].
  destruct (failure db (CustomerById key)); [discriminate|]. cbn [bind].
  destruct (limit1 _) as [|customer rest]; cbn; [intros [= <-] []|].
  destruct (failure db (CardsOfCustomer key)); [discriminate|].
  cbn. intros [= <-] Hin.
  apply in_map_iff in Hin as (card & <- & Hin).
  apply filter_In in Hin as [Hin Hid]. apply String.eqb_eq in Hid.
  eauto 8.
Qed.

Lemma in_map_indexed {A B : Type} (f : nat -> A -> B) (xs : list A) :
  forall i y, In y (CardsRoute.map_indexed f i xs) -> exists j x, In x xs /\ y = f j x.
Proof.
  induction xs as [|x xs IH]; intros i y; cbn; [intros []|].
  intros [<-|H]; [eauto|].
  destruct (IH _ _ H) as (j & x' & Hin & ->). eauto.
Qed.

Lemma length_map_indexed {A B : Type} (f : nat -> A -> B) (xs : list A) :
  forall i, List.length (CardsRoute.map_indexed f i xs) = List.length xs.
Proof. induction xs as [|x xs IH]; intros i; cbn; [reflexivity | now rewrite IH]. Qed.

Lemma blank_rejects (db : Connection) (zone : JsDates.TimeZone) (key : string) :
  blank key = true ->
  getCustomerCards db zone key = Rejected "Failed to fetch customer cards".
Proof. intros H. unfold getCustomerCards. now rewrite H. Qed.

Lemma route_tests (f : CustomerSearchFilters) :
  (truthy (primaryPhone f)
   && negb (Regex.test false SearchRoute.phoneNumberRegex (primaryPhone f))
   = malformedPhone (primaryPhone f))
  /\ (truthy (rfc f) && negb (Regex.test true SearchRoute.rfcNumberRegex (rfc f))
      = malformedRfc (rfc f))
  /\ (truthy (ife f) && negb (Regex.test false SearchRoute.ifeNumberRegex (ife f))
      = malformedIfe (ife f))
  /\ (truthy (postalCode f)
      && negb (Regex.test false SearchRoute.postalCodeNumberRegex (postalCode f))
      = malformedPostalCode (postalCode f)).
Proof.
  unfold SearchRoute.phoneNumberRegex, SearchRoute.rfcNumberRegex,
    SearchRoute.ifeNumberRegex, SearchRoute.postalCodeNumberRegex, Regex.Digit,
    malformedPhone, malformedRfc, malformedIfe, malformedPostalCode,
    exactlyDigits, exactlyAlphanumeric.
  rewrite !test_exactly.
  rewrite !(forall_chars_ext _ _ _ digit_class), (forall_chars_ext _ _ _ alnum_class).
  repeat split.
Qed.

(** The outcome of the search route, by cases. *)
Lemma search_route_cases (db : Connection) (p : SearchRoute.SearchParams) :
  SearchRoute.GET db p =
  if refusedByRoute (SearchRoute.filtersOf p) then
    SearchRoute.GET db p
  else
    match CustomerSearch.searchCustomers db (SearchRoute.filtersOf p) with
    | Resolved searchResponse =>
        Resolved
          (SearchRoute.mkResponse 200
             (SearchRoute.SearchBody
                (map (fun customer =>
                        SearchRoute.mkResultDTO
                          (result_id customer) (result_firstName customer)
                          (result_lastName customer) (result_secondLastName customer)
                          (result_status customer) (result_primaryPhone customer)
                          (result_primaryAddress customer))
                     (data searchResponse))
                (totalCount searchResponse)))
    | Rejected _ =>
        Resolved
          (SearchRoute.mkResponse 500
             (SearchRoute.ErrorBody "Error del servidor"
                "Error al buscar clientes. Por favor intente nuevamente."))
    end.
Proof.
  destruct (refusedByRoute (SearchRoute.filtersOf p)) eqn:E; [reflexivity|].
  unfold refusedByRoute in E.
  apply orb_false_iff in E as [E E5]. apply orb_false_iff in E as [E E4].
  apply orb_false_iff in E as [E E3]. apply orb_false_iff in E as [E1 E2].
  destruct (route_tests (SearchRoute.filtersOf p)) as (T1 & T2 & T3 & T4).
  unfold SearchRoute.GET. cbv zeta.
  rewrite E1, T1, E2, T2, E3, T3, E4, T4, E5.
  destruct (CustomerSearch.searchCustomers db _); reflexivity.
Qed.

Lemma search_route_refused (db : Connection) (p : SearchRoute.SearchParams) :
  refusedByRoute (SearchRoute.filtersOf p) = true ->
  exists error message,
    SearchRoute.GET db p =
    Resolved (SearchRoute.mkResponse 400 (SearchRoute.ErrorBody error message)).
Proof.
  destruct (route_tests (SearchRoute.filtersOf p)) as (T1 & T2 & T3 & T4).
  unfold refusedByRoute, SearchRoute.GET, SearchRoute.invalidFormat. cbv zeta.
  rewrite T1, T2, T3, T4. intros H.
  destruct (_ <? 2)%nat; [cbn; eauto|].
  destruct (malformedPhone _); [cbn; eauto|].
  destruct (malformedRfc _); [cbn; eauto|].
  destruct (malformedIfe _); [cbn; eauto|].
  destruct (malformedPostalCode _); [cbn; eauto|].
  discriminate H.
Qed.

End RouteFacts.

(** X15.  The cards route always answers.  It answers 400 exactly for the
    empty identifier, 500 exactly when the identifier is not empty and
    [getCustomerCards] raises, which it does for an identifier of white
    space only, and 200 in every other case, also for an unknown
    customer. *)
Theorem cards_route_status :
  forall (db : Db.Connection) (zone : JsDates.TimeZone) (clock : nat -> string)
         (key : string),
    exists r,
      CardsRoute.GET db zone clock key = Db.Resolved r
      /\ (CardsRoute.status r = 400%nat <-> key = "")
      /\ (CardsRoute.status r = 500%nat <->
          key <> "" /\ exists e, Cards.getCustomerCards db zone key = Db.Rejected e)
      /\ (CardsRoute.status r = 200%nat <->
          key <> ""
          /\ exists views, Cards.getCustomerCards db zone key = Db.Resolved views)
      /\ (key <> "" -> Cards.blank key = true -> CardsRoute.status r = 500%nat).
Proof.
  intros db zone clock key. unfold CardsRoute.GET.
  destruct key as [|c k].
  - eexists. split; [reflexivity|]. cbn [CardsRoute.status].
    split; [tauto|]. split; [split; [discriminate | intros [H _]; congruence]|].
    split; [split; [discriminate | intros [H _]; congruence]|].
    intros H; congruence.
  - cbn [JsString.truthy negb].
    destruct (Cards.getCustomerCards db zone (String c k)) as [views|e] eqn:E.
    + eexists. split; [reflexivity|]. cbn [CardsRoute.status].
      split; [split; discriminate|].
      split; [split; [discriminate | intros (_ & e & He); discriminate He]|].
      split; [split; [intros _; split; [discriminate | eauto] | reflexivity]|].
      intros _ Hb. rewrite (blank_rejects db zone _ Hb) in E. discriminate E.
    + eexists. split; [reflexivity|]. cbn [CardsRoute.status].
      split; [split; discriminate|].
      split; [split; [intros _; split; [discriminate | eauto] | reflexivity]|].
      split; [split; [discriminate | intros (_ & views & Hv); discriminate Hv]|].
      reflexivity.
Qed.

Lemma cards_route_status_witness :
  exists r,
    CardsRoute.GET (Db.healthy Sample.sampleRegistry) Sample.utc
                   (fun _ => "2026-11-03T00:00:00.000Z") "   " = Db.Resolved r
    /\ CardsRoute.status r = 500%nat.
Proof.
  destruct (cards_route_status (Db.healthy Sample.sampleRegistry) Sample.utc
              (fun _ => "2026-11-03T00:00:00.000Z") "   ")
    as (r & Hr & _ & _ & _ & H).
  exists r. split; [exact Hr|]. apply H; [discriminate | reflexivity].
Defined.

(** X16.  In a 200 answer of the cards route, every entry stands for a
    stored card of the customer and carries the masked form of its number,
    which passes the display check; the count is the number of entries. *)
Theorem cards_route_masks_numbers :
  forall (db : Db.Connection) (zone : JsDates.TimeZone) (clock : nat -> string)
         (key : string) (r : CardsRoute.Response),
    CardsRoute.GET db zone clock key = Db.Resolved r ->
    CardsRoute.status r = 200%nat ->
    exists entries,
      CardsRoute.body r = CardsRoute.CardsBody entries (List.length entries)
      /\ forall dto,
           In dto entries ->
           CardDisplay.isPCICompliantDisplay (CardsRoute.dto_maskedNumber dto) = true
           /\ exists card,
                In card (Schema.cards (Db.registry db))
                /\ Schema.cards_customerId card = key
                /\ CardsRoute.dto_id dto = Schema.cards_id card
                /\ CardsRoute.dto_maskedNumber dto =
                   CardSecurity.maskCardNumber (Schema.cards_number card).
Proof.
  intros db zone clock key r. unfold CardsRoute.GET.
  destruct key as [|c k]; [cbn; intros [= <-]; discriminate|].
  cbn [JsString.truthy negb].
  destruct (Cards.getCustomerCards db zone (String c k)) as [views|e] eqn:E;
    cbn; intros [= <-]; [|discriminate].
  intros _. eexists. split; [reflexivity|].
  intros dto Hin. apply in_map_indexed in Hin as (j & v & Hv & ->).
  cbn [CardsRoute.dto_maskedNumber CardsRoute.dto_id].
  split.
  - rewrite isPCICompliantDisplay_hasRun. apply negb_true_iff, masked_has_no_run.
  - destruct (getCustomerCards_views _ _ _ _ _ E Hv)
      as (card & first & middle & last & Hc & Ho & ->).
    exists card. repeat split; assumption.
Qed.

Lemma cards_route_masks_numbers_witness :
  exists entries,
    CardsRoute.CardsBody
      [CardsRoute.mkCardDTO "card-1" "**** **** **** 9012" Schema.Debit Cards.active
                            "2026-11-03T00:00:00.000Z" "12/25"] 1
    = CardsRoute.CardsBody entries (List.length entries).
Proof.
  destruct (cards_route_masks_numbers (Db.healthy Sample.sampleRegistry) Sample.utc
              (fun _ => "2026-11-03T00:00:00.000Z") "c1"
              (CardsRoute.mkResponse 200
                 (CardsRoute.CardsBody
                    [CardsRoute.mkCardDTO "card-1" "**** **** **** 9012" Schema.Debit
                       Cards.active "2026-11-03T00:00:00.000Z" "12/25"] 1))
              eq_refl eq_refl) as (entries & H & _).
  exists entries. exact H.
Defined.

(** X17.  The search route always answers, with 400, 500 or 200.  It
    answers 400 exactly when fewer than two of the filter values are
    non-empty, or the phone is not ten digits, or the RFC is not thirteen
    alphanumeric characters, or the voter id is not twenty digits, or the
    postal code is not five digits; otherwise it runs the search, and
    answers 500 exactly when the search raises. *)
Theorem search_route_gate :
  forall (db : Db.Connection) (p : SearchRoute.SearchParams),
    exists r,
      SearchRoute.GET db p = Db.Resolved r
      /\ (SearchRoute.status r = 400%nat <->
          RouteTerms.refusedByRoute (SearchRoute.filtersOf p) = true)
      /\ (SearchRoute.status r = 500%nat <->
          RouteTerms.refusedByRoute (SearchRoute.filtersOf p) = false
          /\ exists e,
               CustomerSearch.searchCustomers db (SearchRoute.filtersOf p) = Db.Rejected e)
      /\ (SearchRoute.status r = 200%nat <->
          RouteTerms.refusedByRoute (SearchRoute.filtersOf p) = false
          /\ exists response,
               CustomerSearch.searchCustomers db (SearchRoute.filtersOf p) =
               Db.Resolved response).
Proof.
  intros db p.
  destruct (RouteTerms.refusedByRoute (SearchRoute.filtersOf p)) eqn:E.
  - destruct (search_route_refused db p E) as (error & message & ->).
    eexists. split; [reflexivity|]. cbn.
    repeat split; try discriminate; try tauto; intros [H _]; discriminate H.
  - rewrite search_route_cases, E.
    destruct (CustomerSearch.searchCustomers db _) as [response|e] eqn:Es.
    + eexists. split; [reflexivity|]. cbn.
      repeat split; try discriminate; eauto.
      intros (_ & e & He). discriminate He.
    + eexists. split; [reflexivity|]. cbn.
      repeat split; try discriminate; eauto.
      intros (_ & response & Hr). discriminate Hr.
Qed.

Lemma search_route_gate_witness :
  exists r,
    SearchRoute.GET (Db.healthy Sample.sampleRegistry)
      (SearchRoute.mkParams (Some "12345") None (Some "Doe") None None None
                            None None None None None) = Db.Resolved r
    /\ SearchRoute.status r = 400%nat.
Proof.
  destruct (search_route_gate (Db.healthy Sample.sampleRegistry)
              (SearchRoute.mkParams (Some "12345") None (Some "Doe") None None None
                                    None None None None None))
    as (r & E & H400 & _).
  exists r. split; [exact E|]. apply (proj2 H400). vm_compute. reflexivity.
Defined.

(** X18.  A 200 answer of the search route lists, in table order, the
    customers that satisfy the single predicate for the filters built from
    the request, and its count is the number of entries. *)
Theorem search_route_results :
  forall (db : Db.Connection) (p : SearchRoute.SearchParams) (r : SearchRoute.Response),
    SearchRoute.GET db p = Db.Resolved r ->
    SearchRoute.status r = 200%nat ->
    exists entries,
      SearchRoute.body r = SearchRoute.SearchBody entries (List.length entries)
      /\ map SearchRoute.dto_id entries =
         map Schema.customers_id
             (filter (SinglePredicate.matchesFilters (Db.registry db)
                        (SearchRoute.filtersOf p))
                     (Schema.customers (Db.registry db))).
Proof.
  intros db p r.
  destruct (RouteTerms.refusedByRoute (SearchRoute.filtersOf p)) eqn:E.
  - destruct (search_route_refused db p E) as (error & message & ->).
    intros [= <-]. discriminate.
  - rewrite search_route_cases, E.
    destruct (CustomerSearch.searchCustomers db _) as [response|e] eqn:Es;
      intros [= <-]; [|discriminate].
    intros _. apply searchCustomers_resolved in Es. subst response.
    rewrite narrowed_single_predicate. unfold respond.
    cbn [Types.data Types.totalCount SearchRoute.body].
    eexists. split.
    + now rewrite <- (length_map
                        (fun customer =>
                           SearchRoute.mkResultDTO
                             (Types.result_id customer) (Types.result_firstName customer)
                             (Types.result_lastName customer)
                             (Types.result_secondLastName customer)
                             (Types.result_status customer)
                             (Types.result_primaryPhone customer)
                             (Types.result_primaryAddress customer))).
    + rewrite !map_map. reflexivity.
Qed.

Lemma search_route_results_witness :
  exists entries,
    map SearchRoute.dto_id entries = ["c1"; "c3"].
Proof.
  pose (p := SearchRoute.mkParams None None (Some "Doe") None None (Some "s1")
                                  None None None None None).
  destruct (SearchRoute.GET (Db.healthy Sample.sampleRegistry) p) as [r|e] eqn:E;
    [|vm_compute in E; discriminate E].
  assert (Hs : SearchRoute.status r = 200%nat).
  { vm_compute in E. injection E as <-. reflexivity. }
  destruct (search_route_results (Db.healthy Sample.sampleRegistry) p r E Hs)
    as (entries & _ & Hids).
  exists entries. exact Hids.
Defined.

Section RouteValidatorFacts.
Import JsString Types SearchValidation RouteTerms.

Lemma nonempty_truthy (s : string) : negb (s =? "")%string = truthy s.
Proof. destruct s; reflexivity. Qed.

Lemma length_active (f : CustomerSearchFilters) :
  List.length (SearchRoute.activeFilters f) =
  (Nat.b2n (truthy (primaryPhone f)) + Nat.b2n (truthy (secondaryPhone f))
   + Nat.b2n (truthy (clientNumber f)) + Nat.b2n (truthy (firstName f))
   + Nat.b2n (truthy (lastName f)) + Nat.b2n (truthy (secondLastName f))
   + Nat.b2n (truthy (dateOfBirth f)) + Nat.b2n (truthy (rfc f))
   + (Nat.b2n (truthy (stateId f)) + Nat.b2n (truthy (municipalityId f))
      + Nat.b2n (truthy (neighborhoodId f)) + Nat.b2n (truthy (postalCode f)))
   + Nat.b2n (truthy (ife f)) + Nat.b2n (truthy (passport f)))%nat.
Proof.
  unfold SearchRoute.activeFilters, SearchRoute.values.
  assert (Hcons : forall (x : string) (l : list string),
             List.length (filter (fun value => negb (value =? "")%string) (x :: l)) =
             (Nat.b2n (truthy x)
              + List.length (filter (fun value => negb (value =? "")%string) l))%nat).
  { intros x l. cbn [filter]. rewrite nonempty_truthy. now destruct (truthy x). }
  rewrite !Hcons. cbn [filter List.length]. lia.
Qed.

Lemma count_le_active (f : CustomerSearchFilters) :
  (countFilledFilters f <= List.length (SearchRoute.activeFilters f))%nat.
Proof.
  rewrite countFilledFilters_address_once, length_active.
  destruct (truthy (stateId f)), (truthy (municipalityId f)),
    (truthy (neighborhoodId f)), (truthy (postalCode f)); cbn [orb Nat.b2n]; lia.
Qed.

(** Fewer than two groups but two values or more: only address fields are
    set. *)
Lemma only_address_fields (f : CustomerSearchFilters) :
  (countFilledFilters f < 2)%nat ->
  (2 <= List.length (SearchRoute.activeFilters f))%nat ->
  truthy (primaryPhone f) = false /\ truthy (rfc f) = false /\ truthy (ife f) = false.
Proof.
  rewrite countFilledFilters_address_once, length_active.
  destruct (truthy (stateId f)), (truthy (municipalityId f)),
    (truthy (neighborhoodId f)), (truthy (postalCode f)),
    (truthy (primaryPhone f)), (truthy (rfc f)), (truthy (ife f));
    cbn [orb Nat.b2n]; intros H1 H2; repeat split; lia.
Qed.

Lemma valid_no_malformed (f : CustomerSearchFilters) :
  isValid (validateSearchFilters f) = true ->
  (2 <= countFilledFilters f)%nat /\ anyMalformed f = false.
Proof.
  unfold validateSearchFilters.
  destruct (Nat.ltb_spec (countFilledFilters f) 2) as [Hlt|Hge]; [discriminate|].
  rewrite !validatePhoneNumber_spec, validateRFC_spec, validatePostalCode_spec.
  unfold anyMalformed, malformedPhone, malformedRfc, malformedPostalCode, push_if.
  destruct (primaryPhone f) as [|a1 p1], (secondaryPhone f) as [|a2 p2],
    (rfc f) as [|a3 p3], (postalCode f) as [|a4 p4];
    cbn [truthy negb andb orb];
    repeat match goal with
      | |- context [exactlyDigits ?n ?s] => destruct (exactlyDigits n s)
      | |- context [exactlyAlphanumeric ?n ?s] => destruct (exactlyAlphanumeric n s)
      end;
    cbn; intros H; try discriminate H; split; auto.
Qed.

End RouteValidatorFacts.

Lemma route_and_validator_lines :
  forall f : Types.CustomerSearchFilters,
    (SearchValidation.countFilledFilters f
     <= List.length (SearchRoute.activeFilters f))%nat
    /\ ((SearchValidation.countFilledFilters f < 2)%nat ->
        (2 <= List.length (SearchRoute.activeFilters f))%nat ->
        malformedPostalCode (Types.postalCode f) = false ->
        SearchValidation.validateSearchFilters f =
        SearchValidation.mkResult false [] (Some SearchValidation.minimumFiltersMessage)
        /\ RouteTerms.refusedByRoute f = false)
    /\ (SearchValidation.isValid (SearchValidation.validateSearchFilters f) = true ->
        RouteTerms.refusedByRoute f = RouteTerms.malformedIfe (Types.ife f)).
Proof.
  intros f. split; [apply count_le_active|]. split.
  - intros Hc Ha Hp. split.
    + unfold SearchValidation.validateSearchFilters.
      apply Nat.ltb_lt in Hc. now rewrite Hc.
    + destruct (only_address_fields f Hc Ha) as (H1 & H2 & H3).
      unfold RouteTerms.refusedByRoute, malformedPhone, malformedRfc,
        RouteTerms.malformedIfe.
      rewrite H1, H2, H3, Hp.
      destruct (Nat.ltb_spec (List.length (SearchRoute.activeFilters f)) 2); [lia|].
      reflexivity.
  - intros Hv. destruct (valid_no_malformed f Hv) as [Hc Hm].
    pose proof (count_le_active f) as Hle.
    unfold anyMalformed in Hm.
    apply orb_false_iff in Hm as [Hm H4]. apply orb_false_iff in Hm as [Hm H3].
    apply orb_false_iff in Hm as [H1 H2].
    unfold RouteTerms.refusedByRoute. rewrite H1, H3, H4.
    destruct (Nat.ltb_spec (List.length (SearchRoute.activeFilters f)) 2); [lia|].
    cbn [orb]. now rewrite orb_false_r.
Qed.


Lemma search_route_status_400 (db : Db.Connection) (p : SearchRoute.SearchParams) :
  exists r,
    SearchRoute.GET db p = Db.Resolved r
    /\ (SearchRoute.status r = 400%nat <->
        RouteTerms.refusedByRoute (SearchRoute.filtersOf p) = true).
Proof.
  destruct (RouteTerms.refusedByRoute (SearchRoute.filtersOf p)) eqn:E.
  - destruct (search_route_refused db p E) as (error & message & ->).
    eexists. split; [reflexivity|]. cbn. tauto.
  - rewrite search_route_cases, E.
    destruct (CustomerSearch.searchCustomers db _);
      (eexists; split; [reflexivity|]; cbn; split; discriminate).
Qed.

(** X19.  The route and the form validator draw the line differently.  The
    route counts every non-empty value, the validator counts the four
    address fields once: a request that sets two address fields and
    nothing else, with a postal code of five digits if any, is refused by
    the validator for missing filters and is not refused by the route.  In
    the other direction, a filter set that the validator accepts is refused
    by the route exactly when its voter id is not twenty digits. *)
Theorem search_route_and_validator_disagree :
  forall (db : Db.Connection) (p : SearchRoute.SearchParams),
    let f := SearchRoute.filtersOf p in
    exists r,
      SearchRoute.GET db p = Db.Resolved r
      /\ (SearchValidation.countFilledFilters f
          <= List.length (SearchRoute.activeFilters f))%nat
      /\ ((SearchValidation.countFilledFilters f < 2)%nat ->
          (2 <= List.length (SearchRoute.activeFilters f))%nat ->
          malformedPostalCode (Types.postalCode f) = false ->
          SearchValidation.validateSearchFilters f =
          SearchValidation.mkResult false [] (Some SearchValidation.minimumFiltersMessage)
          /\ SearchRoute.status r <> 400%nat)
      /\ (SearchValidation.isValid (SearchValidation.validateSearchFilters f) = true ->
          (SearchRoute.status r = 400%nat <->
           RouteTerms.malformedIfe (Types.ife f) = true)).
Proof.
  intros db p f.
  destruct (search_route_status_400 db p) as (r & Hr & H400).
  destruct (route_and_validator_lines f) as (Hle & Hmin & Hvalid).
  exists r. split; [exact Hr|]. split; [exact Hle|]. split.
  - intros Hc Ha Hp. destruct (Hmin Hc Ha Hp) as [Hv Hn]. split; [exact Hv|].
    intros H. apply H400 in H. fold f in H. congruence.
  - intros Hv. rewrite H400. fold f. now rewrite (Hvalid Hv).
Qed.

Lemma search_route_and_validator_disagree_witness :
  exists r,
    SearchRoute.GET (Db.healthy Sample.sampleRegistry)
      (SearchRoute.mkParams None None None None None (Some "s1") (Some "m1")
                            None None None None) = Db.Resolved r
    /\ SearchValidation.validateSearchFilters
         (SearchRoute.filtersOf
            (SearchRoute.mkParams None None None None None (Some "s1") (Some "m1")
                                  None None None None)) =
       SearchValidation.mkResult false [] (Some SearchValidation.minimumFiltersMessage)
    /\ SearchRoute.status r <> 400%nat.
Proof.
  destruct (search_route_and_validator_disagree (Db.healthy Sample.sampleRegistry)
              (SearchRoute.mkParams None None None None None (Some "s1") (Some "m1")
                                    None None None None))
    as (r & Hr & _ & H & _).
  exists r. split; [exact Hr|].
  apply H; [vm_compute; lia | vm_compute; lia | reflexivity].
Defined.

(** ** Workflow routing *)

(** X20.  The steps form a chain: [t] is the step after [s] exactly when
    [s] is the step before [t]; nothing follows the payment step and
    nothing precedes the search step; and a step that may be entered lets
    every earlier step be entered too. *)
Theorem workflow_steps_form_a_chain :
  forall (s t : WorkflowRouting.WorkflowStep) (hasCustomer hasCard : bool),
    (WorkflowRouting.getNextWorkflowStep s = Some t <->
     WorkflowRouting.getPreviousWorkflowStep t = Some s)
    /\ WorkflowRouting.getNextWorkflowStep WorkflowRouting.StepPayment = None
    /\ WorkflowRouting.getPreviousWorkflowStep WorkflowRouting.StepSearch = None
    /\ (WorkflowRouting.getNextWorkflowStep s = Some t ->
        WorkflowRouting.canNavigateToStep t hasCustomer hasCard = true ->
        WorkflowRouting.canNavigateToStep s hasCustomer hasCard = true).
Proof.
  intros s t hasCustomer hasCard.
  split; [|split; [reflexivity | split; [reflexivity|]]].
  - destruct s, t; cbn; split; intros H; try discriminate H; reflexivity.
  - destruct s, t; cbn; intros H; try discriminate H;
      destruct hasCustomer, hasCard; cbn; intros H'; try discriminate H'; reflexivity.
Qed.

Lemma workflow_steps_form_a_chain_witness :
  WorkflowRouting.getPreviousWorkflowStep WorkflowRouting.StepPayment =
  Some WorkflowRouting.StepCards
  /\ WorkflowRouting.canNavigateToStep WorkflowRouting.StepCards true true = true.
Proof.
  split.
  - apply (proj1 (workflow_steps_form_a_chain WorkflowRouting.StepCards
                    WorkflowRouting.StepPayment true true)).
    reflexivity.
  - apply (proj2 (proj2 (proj2 (workflow_steps_form_a_chain WorkflowRouting.StepCards
                                  WorkflowRouting.StepPayment true true))));
      reflexivity.
Defined.

(** X21.  [validateWorkflowTransition] never consults the step it comes
    from: it accepts exactly the transitions whose target may be entered,
    so a step may be skipped once its requirements are met.  It reports an
    error exactly when it refuses, and a missing customer is reported
    before a missing card. *)
Theorem validateWorkflowTransition_ignores_origin :
  forall (fromStep fromStep' toStep : WorkflowRouting.WorkflowStep)
         (hasCustomer hasCard : bool),
    let r := WorkflowRouting.validateWorkflowTransition fromStep toStep hasCustomer hasCard in
    WorkflowRouting.validateWorkflowTransition fromStep' toStep hasCustomer hasCard = r
    /\ WorkflowRouting.valid r =
       WorkflowRouting.canNavigateToStep toStep hasCustomer hasCard
    /\ (WorkflowRouting.transition_error r = None <-> WorkflowRouting.valid r = true)
    /\ (WorkflowRouting.valid r = false ->
        WorkflowRouting.transition_error r =
        Some (if hasCustomer
              then "Debe seleccionar una tarjeta antes de continuar."
              else "Debe seleccionar un cliente antes de continuar.")).
Proof.
  intros fromStep fromStep' toStep hasCustomer hasCard. cbv zeta.
  split; [reflexivity|].
  destruct toStep, hasCustomer, hasCard; cbn; repeat split;
    intros H; try discriminate H; reflexivity.
Qed.

Lemma validateWorkflowTransition_ignores_origin_witness :
  WorkflowRouting.transition_error
    (WorkflowRouting.validateWorkflowTransition WorkflowRouting.StepSearch
       WorkflowRouting.StepPayment false false) =
  Some "Debe seleccionar un cliente antes de continuar.".
Proof.
  apply (proj2 (proj2 (proj2 (validateWorkflowTransition_ignores_origin
           WorkflowRouting.StepSearch WorkflowRouting.StepSearch
           WorkflowRouting.StepPayment false false)))).
  reflexivity.
Defined.

(** X22.  [getStepRoute] throws exactly for the customer detail and card
    steps without a customer id.  The breadcrumbs never throw: they end
    with the one entry that has no link, every earlier entry has a link,
    and every link is a route that [getStepRoute] returns for the same
    customer id. *)
Theorem routes_and_breadcrumbs :
  forall (step : WorkflowRouting.WorkflowStep) (customerId : option string),
    ((exists message, WorkflowRouting.getStepRoute step customerId =
                      WorkflowRouting.Thrown message) <->
     (step = WorkflowRouting.StepCustomerDetail \/ step = WorkflowRouting.StepCards)
     /\ WorkflowRouting.missing customerId = true)
    /\ (exists earlier current,
           WorkflowRouting.getWorkflowBreadcrumbs step customerId =
           earlier ++ [WorkflowRouting.mkCrumb current None]
           /\ forall crumb,
                In crumb earlier ->
                exists link target,
                  WorkflowRouting.href crumb = Some link
                  /\ WorkflowRouting.getStepRoute target customerId =
                     WorkflowRouting.Returned link).
Proof.
  intros step customerId. split.
  - destruct step; cbn; try destruct (WorkflowRouting.missing customerId);
      split; try (intros [m H]; discriminate H);
      try (intros [[H|H] H']; discriminate);
      try (intros _; split; [tauto | reflexivity]);
      try (intros _; eauto).
  - unfold WorkflowRouting.getWorkflowBreadcrumbs.
    destruct step; cbv zeta; cbn [app].
    + exists [], "Búsqueda de cliente y pago". split; [reflexivity | intros c []].
    + exists [], "Búsqueda de cliente y pago". split; [reflexivity | intros c []].
    + eexists [_], _. split; [reflexivity|].
      intros c [<-|[]]. exists WorkflowRouting.ROUTE_SEARCH, WorkflowRouting.StepSearch.
      split; reflexivity.
    + destruct (WorkflowRouting.missing customerId) eqn:E; cbn [negb app].
      * eexists [_], _. split; [reflexivity|].
        intros c [<-|[]].
        exists WorkflowRouting.ROUTE_SEARCH, WorkflowRouting.StepSearch.
        split; reflexivity.
      * eexists [_; _], _. split; [reflexivity|].
        intros c [<-|[<-|[]]].
        -- exists WorkflowRouting.ROUTE_SEARCH, WorkflowRouting.StepSearch.
           split; reflexivity.
        -- eexists _, WorkflowRouting.StepCustomerDetail.
           split; [reflexivity|]. cbn. now rewrite E.
    + destruct (WorkflowRouting.missing customerId) eqn:E; cbn [negb app].
      * eexists [_], _. split; [reflexivity|].
        intros c [<-|[]].
        exists WorkflowRouting.ROUTE_SEARCH, WorkflowRouting.StepSearch.
        split; reflexivity.
      * eexists [_; _], _. split; [reflexivity|].
        intros c [<-|[<-|[]]].
        -- exists WorkflowRouting.ROUTE_SEARCH, WorkflowRouting.StepSearch.
           split; reflexivity.
        -- eexists _, WorkflowRouting.StepCards.
           split; [reflexivity|]. cbn. now rewrite E.
Qed.

Lemma routes_and_breadcrumbs_witness :
  exists message,
    WorkflowRouting.getStepRoute WorkflowRouting.StepCards (Some "") =
    WorkflowRouting.Thrown message.
Proof.
  apply (proj2 (proj1 (routes_and_breadcrumbs WorkflowRouting.StepCards (Some "")))).
  split; [right; reflexivity | reflexivity].
Defined.

(** ** The name filters *)

Section LikeFacts.
Import JsString SearchTerms.

Lemma like_all (t : string) : CustomerSearch.like_pattern "%" t = true.
Proof. induction t as [|c r IH]; [reflexivity|]. cbn in *. exact IH. Qed.

Lemma like_any (rest t : string) :
  CustomerSearch.like_pattern (String "%" rest) t = true <->
  exists pre u, t = (pre ++ u)%string /\ CustomerSearch.like_pattern rest u = true.
Proof.
  split.
  - induction t as [|c r IH]; cbn [CustomerSearch.like_pattern]; intros H.
    + rewrite orb_false_r in H. exists ""%string, ""%string. now split.
    + apply orb_true_iff in H as [H|H].
      * exists ""%string, (String c r). now split.
      * destruct (IH H) as (pre & u & -> & Hu). exists (String c pre), u. now split.
  - intros (pre & u & -> & Hu).
    induction pre as [|c pre IH]; cbn [append].
    + destruct u; cbn [CustomerSearch.like_pattern] in *; now rewrite Hu.
    + cbn [CustomerSearch.like_pattern]. cbn [CustomerSearch.like_pattern] in IH.
      rewrite IH. apply orb_true_r.
Qed.

Lemma like_literal (c : ascii) (rest t : string) :
  (Ascii.eqb c "%" || Ascii.eqb c "_" || Ascii.eqb c "\") = false ->
  CustomerSearch.like_pattern (String c rest) t =
  match t with
  | String d t' => Ascii.eqb c d && CustomerSearch.like_pattern rest t'
  | EmptyString => false
  end.
Proof.
  destruct c as [[] [] [] [] [] [] [] []]; intros H; try discriminate H; reflexivity.
Qed.

Lemma like_plain_prefix (v : string) :
  plain v = true ->
  forall t, CustomerSearch.like_pattern (v ++ "%") t = true <->
            exists post, t = (v ++ post)%string.
Proof.
  unfold plain. induction v as [|c v IH]; cbn [append forall_chars]; intros H t.
  - rewrite like_all. split; [exists t; reflexivity | reflexivity].
  - apply andb_true_iff in H as [Hc Hv]. apply negb_true_iff in Hc.
    rewrite (like_literal c _ t Hc). destruct t as [|d t'].
    + split; [discriminate | intros [post Hp]; discriminate Hp].
    + rewrite andb_true_iff, (IH Hv t'). split.
      * intros [Hcd [post ->]]. apply Ascii.eqb_eq in Hcd. subst d. now exists post.
      * intros [post [= -> ->]]. split; [apply Ascii.eqb_refl | now exists post].
Qed.

End LikeFacts.

(** X23.  A name filter that holds none of the characters [%], [_] and
    backslash selects exactly the names that contain it, with the same
    letter case.  The two wildcards keep their meaning inside a filter
    value: the value [%] selects every name, and the value [_] every name
    that is not empty. *)
Theorem name_filter_is_substring :
  forall value name : string,
    (SearchTerms.plain value = true ->
     (CustomerSearch.like_pattern ("%" ++ value ++ "%") name = true <->
      exists before after, name = (before ++ value ++ after)%string))
    /\ CustomerSearch.like_pattern ("%" ++ "%" ++ "%") name = true
    /\ CustomerSearch.like_pattern ("%" ++ "_" ++ "%") name = JsString.truthy name.
Proof.
  intros value name. split; [|split].
  - intros Hp. change ("%" ++ value ++ "%")%string with (String "%" (value ++ "%")).
    rewrite like_any. split.
    + intros (pre & u & -> & Hu). apply (like_plain_prefix value Hp) in Hu as [post ->].
      now exists pre, post.
    + intros (before & after & ->). exists before, (value ++ after)%string.
      split; [reflexivity|]. apply (like_plain_prefix value Hp). now exists after.
  - apply like_any. exists ""%string, name. split; [reflexivity|].
    apply like_any. exists ""%string, name. split; [reflexivity | apply like_all].
  - destruct name as [|c r]; [reflexivity|]. cbn [JsString.truthy].
    apply like_any. exists ""%string, (String c r). split; [reflexivity|].
    cbn. apply like_all.
Qed.

Lemma name_filter_is_substring_witness :
  CustomerSearch.like_pattern ("%" ++ "QUIV" ++ "%") "ESQUIVEL" = true.
Proof.
  apply (proj1 (name_filter_is_substring "QUIV" "ESQUIVEL")); [reflexivity|].
  exists "ES"%string, "EL"%string. reflexivity.
Defined.

(** ** Filter validation, continued *)

(** X24.  The three format validators accept the empty string and, other
    than it, exactly the strings of ten digits, of thirteen ASCII letters
    or digits in either case, and of five digits. *)
Theorem validators_accept_exactly :
  forall s : string,
    SearchValidation.validatePhoneNumber s = (negb (JsString.truthy s) || exactlyDigits 10 s)
    /\ SearchValidation.validateRFC s =
       (negb (JsString.truthy s) || exactlyAlphanumeric 13 s)
    /\ SearchValidation.validatePostalCode s =
       (negb (JsString.truthy s) || exactlyDigits 5 s).
Proof.
  intros s. split; [apply validatePhoneNumber_spec|].
  split; [apply validateRFC_spec | apply validatePostalCode_spec].
Qed.

(** X25.  The answer of [validateSearchFilters] has one of three shapes:
    valid, with no error at all; refused for missing filters, with the
    general error and no field error; or refused for format, with no
    general error and at most one error per field, in the order phone,
    second phone, RFC, postal code. *)
Theorem validateSearchFilters_shapes :
  forall f : Types.CustomerSearchFilters,
    let r := SearchValidation.validateSearchFilters f in
    (SearchValidation.isValid r = true
     /\ SearchValidation.errors r = []
     /\ SearchValidation.generalError r = None
     /\ (2 <= SearchValidation.countFilledFilters f)%nat
     /\ anyMalformed f = false)
    \/ (SearchValidation.isValid r = false
        /\ SearchValidation.errors r = []
        /\ SearchValidation.generalError r = Some SearchValidation.minimumFiltersMessage
        /\ (SearchValidation.countFilledFilters f < 2)%nat)
    \/ (SearchValidation.isValid r = false
        /\ SearchValidation.errors r = expectedErrors f
        /\ SearchValidation.errors r <> []
        /\ SearchValidation.generalError r = None
        /\ (2 <= SearchValidation.countFilledFilters f)%nat
        /\ anyMalformed f = true).
Proof.
  intros f. cbv zeta. unfold SearchValidation.validateSearchFilters.
  destruct (Nat.ltb_spec (SearchValidation.countFilledFilters f) 2) as [Hlt|Hge].
  - right. left. cbn. repeat split. exact Hlt.
  - rewrite !validatePhoneNumber_spec, validateRFC_spec, validatePostalCode_spec.
    unfold anyMalformed, expectedErrors, malformedPhone, malformedRfc,
      malformedPostalCode.
    destruct (Types.primaryPhone f) as [|a1 p1], (Types.secondaryPhone f) as [|a2 p2],
      (Types.rfc f) as [|a3 p3], (Types.postalCode f) as [|a4 p4];
      cbn [JsString.truthy negb andb orb];
      repeat match goal with
        | |- context [exactlyDigits ?n ?s] => destruct (exactlyDigits n s)
        | |- context [exactlyAlphanumeric ?n ?s] => destruct (exactlyAlphanumeric n s)
        end;
      cbn;
      first [ left; repeat split; [exact Hge]
            | right; right; repeat split; [discriminate | exact Hge] ].
Qed.

(** ** Customer search, continued *)

Section SearchMoreFacts.
Import JsString Schema Db Types SinglePredicate SearchTerms.

Lemma nameMatches_kept (column : option string) (before after : string) :
  keptOrAdded before after ->
  nameMatches column after = true -> nameMatches column before = true.
Proof. intros [->| ->]; [reflexivity | auto]. Qed.

Lemma fieldMatches_kept (stored : option string) (before after : string) :
  keptOrAdded before after ->
  fieldMatches after stored = true -> fieldMatches before stored = true.
Proof. intros [->| ->]; [reflexivity | auto]. Qed.

Lemma existsb_impl {A : Type} (p q : A -> bool) (l : list A) :
  (forall x, p x = true -> q x = true) -> existsb p l = true -> existsb q l = true.
Proof.
  intros H. induction l as [|x l IH]; simpl; [auto|].
  intros E. apply orb_true_iff in E as [E|E]; apply orb_true_iff; auto.
Qed.

Lemma supplied_kept (before after : string) :
  keptOrAdded before after -> supplied before = true -> supplied after = true.
Proof. intros [->| ->]; [discriminate | auto]. Qed.

Lemma matches_asksMore (r : Registry) (before after : CustomerSearchFilters)
      (c : customers_row) :
  asksMore before after ->
  matchesFilters r after c = true -> matchesFilters r before c = true.
Proof.
  intros (K1 & K2 & K3 & K4 & K5 & K6 & K7 & Kp & Kg).
  unfold matchesFilters. rewrite !andb_true_iff.
  intros [[[Hn Hp] Hg] Ha]. repeat split.
  - unfold namesMatch in *. rewrite !andb_true_iff in Hn. rewrite !andb_true_iff.
    destruct Hn as [[H1 H2] H3].
    split; [split|]; eapply nameMatches_kept; eassumption.
  - unfold phoneMatches in *. destruct Kp as [[E1 E2]|[E1 E2]].
    + now rewrite E1, E2.
    + now rewrite <- E1, <- E2.
  - unfold governmentIdMatches in *. destruct Kg as [(E1 & E2 & E3)|(E1 & E2 & E3)].
    + now rewrite E1, E2, E3.
    + now rewrite <- E1, <- E2, <- E3.
  - unfold addressMatches in *.
    destruct (supplied (stateId before) || supplied (municipalityId before)
              || supplied (neighborhoodId before) || supplied (postalCode before))
      eqn:Es; [|reflexivity].
    cbn [negb orb].
    assert (Es' : supplied (stateId after) || supplied (municipalityId after)
                  || supplied (neighborhoodId after) || supplied (postalCode after)
                  = true).
    { rewrite !orb_true_iff in *.
      destruct Es as [[[H|H]|H]|H]; eauto using supplied_kept. }
    rewrite Es' in Ha. cbn [negb orb] in Ha.
    revert Ha. apply existsb_impl. intros a.
    rewrite !andb_true_iff. intros [[[[H0 H1] H2] H3] H4].
    split; [split; [split; [split|]|]|]; try assumption;
      eapply fieldMatches_kept; eassumption.
Qed.

Lemma matches_second_phone (r : Registry) (f : CustomerSearchFilters) (number : string)
      (c : customers_row) :
  secondaryPhone f = "" ->
  truthy (primaryPhone f) = true ->
  matchesFilters r f c = true ->
  matchesFilters r (withSecondaryPhone f number) c = true.
Proof.
  intros E2 E1. unfold matchesFilters, namesMatch, phoneMatches, governmentIdMatches,
    addressMatches, withSecondaryPhone, supplied.
  cbn [primaryPhone secondaryPhone firstName lastName secondLastName rfc ife passport
       stateId municipalityId neighborhoodId postalCode].
  rewrite E2, E1. cbn [truthy negb orb].
  rewrite !andb_true_iff. intros [[[Hn Hp] Hg] Ha].
  split; [split; [split; [exact Hn|] | exact Hg] | exact Ha].
  revert Hp. apply existsb_impl. intros p.
  rewrite !andb_true_iff, !orb_true_iff. intros [H0 [H|H]]; [auto|].
  unfold equals in H. cbn in H. discriminate H.
Qed.

Lemma ids_incl (p q : customers_row -> bool) (l : list customers_row) :
  (forall c, p c = true -> q c = true) ->
  incl (map customers_id (filter p l)) (map customers_id (filter q l)).
Proof.
  intros H i Hi. apply in_map_iff in Hi as (c & <- & Hc).
  apply filter_In in Hc as [Hin Hp]. apply in_map, filter_In. auto.
Qed.

Lemma resolved_ids (db : Connection) (f : CustomerSearchFilters)
      (response : CustomerSearchResponse) :
  CustomerSearch.searchCustomers db f = Resolved response ->
  map result_id (data response) =
  map customers_id (filter (matchesFilters (registry db) f) (customers (registry db))).
Proof.
  intros H. apply searchCustomers_resolved in H. subst response.
  rewrite narrowed_single_predicate. unfold respond. cbn [data].
  now rewrite map_map.
Qed.

End SearchMoreFacts.

(** X26.  The search does not ask for any filter: when nothing but
    [dateOfBirth] and [clientNumber] is supplied it returns every customer
    of the registry, in table order. *)
Theorem searchCustomers_without_filters :
  forall (r : Schema.Registry) (f : Types.CustomerSearchFilters),
    withoutUnreadFilters f = SearchTerms.noFilters ->
    CustomerSearch.searchCustomers (Db.healthy r) f =
    Db.Resolved (respond (map (enriched r) (Schema.customers r))).
Proof.
  intros r f H. rewrite searchCustomers_healthy, narrowed_single_predicate.
  rewrite filter_true; [reflexivity|].
  intros c. destruct f. unfold withoutUnreadFilters, SearchTerms.noFilters in H.
  cbn in H. injection H as -> -> -> -> -> -> -> -> -> -> -> ->.
  reflexivity.
Qed.

Lemma searchCustomers_without_filters_witness :
  CustomerSearch.searchCustomers (Db.healthy Sample.sampleRegistry)
    (Types.mkFilters "" "" "12345" "" "" "" "1990-01-01" "" "" "" "" "" "" "") =
  Db.Resolved (respond (map (enriched Sample.sampleRegistry)
                            (Schema.customers Sample.sampleRegistry))).
Proof.
  apply searchCustomers_without_filters. reflexivity.
Defined.

(** X27.  Asking for more never adds a customer.  When a second filter
    set keeps every name and address field of a first one or supplies it
    where it was empty, and keeps the phone pair and the government ids
    or supplies them where the whole group was empty, every customer the
    second search returns is returned by the first. *)
Theorem searchCustomers_narrows :
  forall (db : Db.Connection) (before after : Types.CustomerSearchFilters)
         (found found' : Types.CustomerSearchResponse),
    SearchTerms.asksMore before after ->
    CustomerSearch.searchCustomers db before = Db.Resolved found ->
    CustomerSearch.searchCustomers db after = Db.Resolved found' ->
    incl (map Types.result_id (Types.data found'))
         (map Types.result_id (Types.data found)).
Proof.
  intros db before after found found' Hmore H H'.
  rewrite (resolved_ids _ _ _ H), (resolved_ids _ _ _ H').
  apply ids_incl. intros c. now apply matches_asksMore.
Qed.

Lemma searchCustomers_narrows_witness :
  incl ["c1"] ["c1"; "c3"].
Proof.
  pose (before := Types.mkFilters "" "" "" "" "Doe" "" "" "" "s1" "" "" "" "" "").
  pose (after := Types.mkFilters "" "" "" "John" "Doe" "" "" "" "s1" "m1" "" "" "" "").
  destruct (CustomerSearch.searchCustomers (Db.healthy Sample.sampleRegistry) before)
    as [found|e] eqn:E; [|vm_compute in E; discriminate E].
  destruct (CustomerSearch.searchCustomers (Db.healthy Sample.sampleRegistry) after)
    as [found'|e] eqn:E'; [|vm_compute in E'; discriminate E'].
  assert (Hmore : SearchTerms.asksMore before after).
  { unfold SearchTerms.asksMore, SearchTerms.keptOrAdded. cbn. repeat split; auto. }
  pose proof (searchCustomers_narrows _ before after found found' Hmore E E') as H.
  vm_compute in E, E'. injection E as <-. injection E' as <-. exact H.
Defined.

(** X28.  A second phone number widens the search: when a phone number is
    supplied and a second one is added, every customer found before is
    still found. *)
Theorem searchCustomers_second_phone_widens :
  forall (db : Db.Connection) (f : Types.CustomerSearchFilters) (number : string)
         (found found' : Types.CustomerSearchResponse),
    Types.secondaryPhone f = "" ->
    JsString.truthy (Types.primaryPhone f) = true ->
    CustomerSearch.searchCustomers db f = Db.Resolved found ->
    CustomerSearch.searchCustomers db (SearchTerms.withSecondaryPhone f number) =
    Db.Resolved found' ->
    incl (map Types.result_id (Types.data found))
         (map Types.result_id (Types.data found')).
Proof.
  intros db f number found found' E2 E1 H H'.
  rewrite (resolved_ids _ _ _ H), (resolved_ids _ _ _ H').
  apply ids_incl. intros c. now apply matches_second_phone.
Qed.

Lemma searchCustomers_second_phone_widens_witness :
  incl ["c1"] ["c1"; "c2"].
Proof.
  pose (f := Types.mkFilters "5551234567" "" "" "" "" "" "" "" "s1" "" "" "" "" "").
  destruct (CustomerSearch.searchCustomers (Db.healthy Sample.sampleRegistry) f)
    as [found|e] eqn:E; [|vm_compute in E; discriminate E].
  destruct (CustomerSearch.searchCustomers (Db.healthy Sample.sampleRegistry)
              (SearchTerms.withSecondaryPhone f "5559876543"))
    as [found'|e] eqn:E'; [|vm_compute in E'; discriminate E'].
  pose proof (searchCustomers_second_phone_widens _ f "5559876543" found found'
                eq_refl eq_refl E E') as H.
  vm_compute in E, E'. injection E as <-. injection E' as <-. exact H.
Defined.

(** ** Card brands *)

Section BoundFacts.
Import JsString Regex RegexBounds CardSecurity.

Lemma iterate_consumes (icase : bool) (r : regex) (n : nat) :
  (forall pos pos', In pos' (run icase r pos) ->
                    (length (snd pos) <= length (snd pos') + maxConsumed r)%nat) ->
  forall xs pos',
    In pos' (iterate (run icase r) n xs) ->
    exists x, In x xs /\ (length (snd x) <= length (snd pos') + n * maxConsumed r)%nat.
Proof.
  intros Hr. induction n as [|n IH]; intros xs pos' Hin; cbn [iterate] in Hin.
  - exists pos'. split; [exact Hin | lia].
  - destruct (IH _ _ Hin) as (y & Hy & Hlen).
    apply in_flat_map in Hy as (x & Hx & Hxy).
    exists x. split; [exact Hx|]. specialize (Hr _ _ Hxy). lia.
Qed.

(** A match consumes no more than [maxConsumed]. *)
Lemma run_consumes (icase : bool) (r : regex) :
  forall pos pos', In pos' (run icase r pos) ->
                   (length (snd pos) <= length (snd pos') + maxConsumed r)%nat.
Proof.
  induction r as [| |c|ranges|r1 IH1 r2 IH2|r1 IH1 r2 IH2|r1 IH1 n];
    intros [b s] pos' Hin; cbn [run maxConsumed snd fst] in *.
  - destruct b; [destruct Hin as [<-|[]]; simpl; lia | destruct Hin].
  - destruct s; [destruct Hin as [<-|[]]; simpl; lia | destruct Hin].
  - unfold step_char in Hin. cbn [snd] in Hin. destruct s as [|d t]; [destruct Hin|].
    destruct (class_match _ _ d); [destruct Hin as [<-|[]]; simpl; lia | destruct Hin].
  - unfold step_char in Hin. cbn [snd] in Hin. destruct s as [|d t]; [destruct Hin|].
    destruct (class_match _ _ d); [destruct Hin as [<-|[]]; simpl; lia | destruct Hin].
  - apply in_flat_map in Hin as (p1 & H1 & H2).
    specialize (IH1 _ _ H1). specialize (IH2 _ _ H2). cbn [snd] in IH1. lia.
  - apply in_app_or in Hin as [H|H]; [specialize (IH1 _ _ H) | specialize (IH2 _ _ H)];
      cbn [snd] in *; lia.
  - destruct (iterate_consumes icase r1 n IH1 _ _ Hin) as (x & [<-|[]] & Hlen).
    cbn [snd] in Hlen. lia.
Qed.

Lemma flat_map_extend (f : position -> list position) (more : string)
      (l : list position) :
  (forall x, In x l -> f (extend more x) = map (extend more) (f x)) ->
  flat_map f (map (extend more) l) = map (extend more) (flat_map f l).
Proof.
  induction l as [|x l IH]; intros H; cbn [map flat_map]; [reflexivity|].
  rewrite map_app, H, IH; [reflexivity | | now left].
  intros y Hy. apply H. now right.
Qed.

Lemma iterate_extend (icase : bool) (r : regex) (more : string) (n : nat) :
  (forall pos, (maxConsumed r <= length (snd pos))%nat ->
               run icase r (extend more pos) = map (extend more) (run icase r pos)) ->
  forall xs,
    (forall x, In x xs -> (n * maxConsumed r <= length (snd x))%nat) ->
    iterate (run icase r) n (map (extend more) xs) =
    map (extend more) (iterate (run icase r) n xs).
Proof.
  intros Hr. induction n as [|n IH]; intros xs Hxs; cbn [iterate]; [reflexivity|].
  rewrite flat_map_extend.
  - apply IH. intros y Hy. apply in_flat_map in Hy as (x & Hx & Hxy).
    pose proof (run_consumes icase r _ _ Hxy). specialize (Hxs _ Hx). simpl in Hxs. lia.
  - intros x Hx. apply Hr. specialize (Hxs _ Hx). simpl in Hxs. lia.
Qed.

(** More text after what an expression can read changes nothing to its
    matches. *)
Lemma run_extend (icase : bool) (more : string) (r : regex) :
  endFree r = true ->
  forall pos, (maxConsumed r <= length (snd pos))%nat ->
              run icase r (extend more pos) = map (extend more) (run icase r pos).
Proof.
  induction r as [| |c|ranges|r1 IH1 r2 IH2|r1 IH1 r2 IH2|r1 IH1 n];
    intros Hfree [b s] Hlen; cbn [run maxConsumed endFree snd fst extend] in *.
  - destruct b; reflexivity.
  - discriminate Hfree.
  - unfold step_char. destruct s as [|d t]; [simpl in Hlen; lia|].
    cbn [extend snd fst append]. destruct (class_match _ _ d); reflexivity.
  - unfold step_char. destruct s as [|d t]; [simpl in Hlen; lia|].
    cbn [extend snd fst append]. destruct (class_match _ _ d); reflexivity.
  - apply andb_true_iff in Hfree as [F1 F2].
    change (b, (s ++ more)%string) with (extend more (b, s)).
    rewrite IH1 by (try assumption; cbn [snd]; lia).
    apply flat_map_extend. intros x Hx. apply IH2; [assumption|].
    pose proof (run_consumes icase r1 _ _ Hx) as Hc. cbn [snd] in Hc. lia.
  - apply andb_true_iff in Hfree as [F1 F2].
    change (b, (s ++ more)%string) with (extend more (b, s)).
    rewrite IH1, IH2 by (try assumption; cbn [snd]; lia).
    now rewrite map_app.
  - apply (iterate_extend icase r1 more n (IH1 Hfree) [(b, s)]).
    intros x [<-|[]]. exact Hlen.
Qed.

Lemma take_short (n : nat) : forall s, (length s <= n)%nat -> take n s = s.
Proof.
  induction n as [|n IH]; intros [|c r] H; simpl in *; try reflexivity; try lia.
  now rewrite IH by lia.
Qed.

Lemma matches_at_take (icase : bool) (r : regex) (k : nat) (b : bool) (s : string) :
  endFree r = true ->
  (maxConsumed r <= k)%nat ->
  matches_at icase r (b, s) = matches_at icase r (b, take k s).
Proof.
  intros Hfree Hk.
  destruct (Nat.le_gt_cases (length s) k) as [Hle|Hgt].
  - now rewrite take_short.
  - rewrite <- (take_skip k s) at 1. unfold matches_at.
    change (b, (take k s ++ skip k s)%string) with (extend (skip k s) (b, take k s)).
    rewrite run_extend; [|assumption|].
    + now destruct (run icase r (b, take k s)).
    + cbn [snd]. rewrite length_take by lia. exact Hk.
Qed.

Lemma search_alt (icase : bool) (r1 r2 : regex) (s : string) :
  forall b, search icase (Alt r1 r2) b s = search icase r1 b s || search icase r2 b s.
Proof.
  assert (Hm : forall pos, matches_at icase (Alt r1 r2) pos =
                           matches_at icase r1 pos || matches_at icase r2 pos).
  { intros pos. unfold matches_at. cbn [run].
    destruct (run icase r1 pos); [|reflexivity]. reflexivity. }
  induction s as [|c r IH]; intros b; cbn [search]; rewrite Hm.
  - now rewrite !orb_false_r.
  - rewrite IH.
    destruct (matches_at icase r1 (b, String c r)),
      (matches_at icase r2 (b, String c r)), (search icase r1 false r); reflexivity.
Qed.

(** An expression anchored at the start reads a bounded prefix of the
    subject. *)
Lemma test_bol_take (r : regex) (k : nat) (s : string) :
  endFree r = true ->
  (maxConsumed r <= k)%nat ->
  test false (Seq Bol r) s = test false (Seq Bol r) (take k s).
Proof. intros Hf Hk. rewrite !test_bol. now apply matches_at_take. Qed.

Lemma remove_whitespace_clean (s : string) :
  forall_chars (fun c => negb (is_space c)) s = true -> remove_whitespace s = s.
Proof.
  unfold remove_whitespace. induction s as [|c r IH]; simpl; [reflexivity|].
  intros H. apply andb_true_iff in H as [Hc Hr]. now rewrite Hc, IH.
Qed.

(** The six expressions of [getCardBrand] read six characters at most. *)
Lemma brand_tests_take (s : string) :
  test false visaRegex s = test false visaRegex (take 6 s)
  /\ test false masterCard5Regex s = test false masterCard5Regex (take 6 s)
  /\ test false masterCard2Regex s = test false masterCard2Regex (take 6 s)
  /\ test false amexRegex s = test false amexRegex (take 6 s)
  /\ test false discoverRegex s = test false discoverRegex (take 6 s)
  /\ test false dinersRegex s = test false dinersRegex (take 6 s).
Proof.
  repeat split;
    try (apply test_bol_take; [reflexivity | vm_compute; lia]).
  unfold discoverRegex, test. rewrite !search_alt.
  f_equal; [|f_equal; [|f_equal]];
    (apply (test_bol_take _ 6 s); [reflexivity | vm_compute; lia]).
Qed.

End BoundFacts.

(** X29.  [getCardBrand] answers one of its six names, and the answer
    depends only on the first six characters of the number that are not
    white space. *)
Theorem getCardBrand_reads_six_characters :
  forall n : string,
    CardSecurity.getCardBrand n =
    CardSecurity.getCardBrand (JsString.take 6 (JsString.remove_whitespace n))
    /\ In (CardSecurity.getCardBrand n)
          ["Visa"; "MasterCard"; "American Express"; "Discover"; "Diners Club";
           "Unknown"]%string.
Proof.
  intros n. split; [|apply getCardBrand_values].
  destruct (brand_tests_take (JsString.remove_whitespace n))
    as (H1 & H2 & H3 & H4 & H5 & H6).
  assert (Hclean : JsString.remove_whitespace
                     (JsString.take 6 (JsString.remove_whitespace n)) =
                   JsString.take 6 (JsString.remove_whitespace n)).
  { apply remove_whitespace_clean, forall_chars_take, forall_filter_chars. }
  unfold CardSecurity.getCardBrand at 2. rewrite Hclean, <- H1, <- H2, <- H3, <- H4, <- H5, <- H6.
  unfold CardSecurity.getCardBrand.
  destruct n as [|c r]; [reflexivity|]. cbn [JsString.truthy negb].
  destruct (JsString.take 6 (JsString.remove_whitespace (String c r))) as [|d t] eqn:E;
    [|reflexivity].
  cbn [JsString.truthy negb].
  assert (E0 : JsString.remove_whitespace (String c r) = ""%string).
  { destruct (JsString.remove_whitespace (String c r)); [reflexivity | discriminate E]. }
  rewrite E0. reflexivity.
Qed.

(** ** Failures of the search *)

Section SearchFailureFacts.
Import JsString Schema Db Types FailureTerms.

Lemma all_rejects {A B : Type} (f : A -> Promise B) (x : A) (l : list A) :
  In x l -> (exists e, f x = Rejected e) -> exists e, all f l = Rejected e.
Proof.
  induction l as [|y l IH]; intros Hin Hx; [destruct Hin|].
  cbn [all]. destruct Hin as [->|Hin].
  - destruct Hx as [e ->]. now exists e.
  - destruct (f y) as [v|e]; [|now exists e]. cbn [bind].
    destruct (IH Hin Hx) as [e ->]. now exists e.
Qed.

Lemma enrich_rejects (db : Connection) (c : customers_row) :
  fails db (PhoneOf (customers_id c)) = true
  \/ fails db (RfcOf (customers_id c)) = true
  \/ fails db (PrimaryAddressOf (customers_id c)) = true ->
  exists e, CustomerSearch.enrich db c = Rejected e.
Proof.
  unfold fails, CustomerSearch.enrich, await.
  destruct (failure db (PhoneOf _)) as [e1|]; [cbn; eauto|].
  destruct (failure db (RfcOf _)) as [e2|]; [cbn; eauto|].
  destruct (failure db (PrimaryAddressOf _)) as [e3|]; [cbn; eauto|].
  intros [H|[H|H]]; discriminate H.
Qed.

(** The outcome of a search, by the failures of its queries. *)
Lemma searchCustomers_outcome (db : Connection) (f : CustomerSearchFilters) :
  CustomerSearch.searchCustomers db f =
  if fails db CustomersByName
     || ((truthy (primaryPhone f) || truthy (secondaryPhone f))
         && fails db OwnersOfPhones)
     || ((truthy (rfc f) || truthy (ife f) || truthy (passport f))
         && fails db OwnersOfGovernmentIds)
     || ((truthy (stateId f) || truthy (municipalityId f)
          || truthy (neighborhoodId f) || truthy (postalCode f))
         && fails db OwnersOfAddresses)
  then Rejected "Failed to search customers"
  else
    match all (CustomerSearch.enrich db) (narrowed (registry db) f) with
    | Resolved results => Resolved (respond results)
    | Rejected _ => Rejected "Failed to search customers"
    end.
Proof.
  unfold CustomerSearch.searchCustomers, narrowed, await, fails. cbv zeta.
  destruct (failure db CustomersByName); [reflexivity|]. cbn [bind orb].
  destruct (truthy (primaryPhone f) || truthy (secondaryPhone f));
    [destruct (failure db OwnersOfPhones); [reflexivity|]|]; cbn [bind andb orb];
  (destruct (truthy (rfc f) || truthy (ife f) || truthy (passport f));
    [destruct (failure db OwnersOfGovernmentIds); [reflexivity|]|];
    cbn [bind andb orb]);
  (destruct (truthy (stateId f) || truthy (municipalityId f)
             || truthy (neighborhoodId f) || truthy (postalCode f));
    [destruct (failure db OwnersOfAddresses); [reflexivity|]|];
    cbn [bind andb orb]);
  (match goal with
   | |- context [all (CustomerSearch.enrich db) ?l] =>
       destruct (all (CustomerSearch.enrich db) l); reflexivity
   end).
Qed.

End SearchFailureFacts.

(** X30.  A search gives all its results or none.  It either resolves or
    raises the one error ["Failed to search customers"]; it raises when the
    base query fails, when the query of a pass that is run fails, and when
    any enrichment query of a customer that passed the filters fails, so
    that no partial list is ever returned. *)
Theorem searchCustomers_all_or_nothing :
  forall (db : Db.Connection) (f : Types.CustomerSearchFilters),
    ((exists response, CustomerSearch.searchCustomers db f = Db.Resolved response)
     \/ CustomerSearch.searchCustomers db f = Db.Rejected "Failed to search customers")
    /\ (FailureTerms.fails db Db.CustomersByName = true ->
        CustomerSearch.searchCustomers db f = Db.Rejected "Failed to search customers")
    /\ (JsString.truthy (Types.primaryPhone f) || JsString.truthy (Types.secondaryPhone f)
        = true ->
        FailureTerms.fails db Db.OwnersOfPhones = true ->
        CustomerSearch.searchCustomers db f = Db.Rejected "Failed to search customers")
    /\ (JsString.truthy (Types.rfc f) || JsString.truthy (Types.ife f)
        || JsString.truthy (Types.passport f) = true ->
        FailureTerms.fails db Db.OwnersOfGovernmentIds = true ->
        CustomerSearch.searchCustomers db f = Db.Rejected "Failed to search customers")
    /\ (JsString.truthy (Types.stateId f) || JsString.truthy (Types.municipalityId f)
        || JsString.truthy (Types.neighborhoodId f)
        || JsString.truthy (Types.postalCode f) = true ->
        FailureTerms.fails db Db.OwnersOfAddresses = true ->
        CustomerSearch.searchCustomers db f = Db.Rejected "Failed to search customers")
    /\ (forall c,
           In c (filter (SinglePredicate.matchesFilters (Db.registry db) f)
                        (Schema.customers (Db.registry db))) ->
           FailureTerms.fails db (Db.PhoneOf (Schema.customers_id c)) = true
           \/ FailureTerms.fails db (Db.RfcOf (Schema.customers_id c)) = true
           \/ FailureTerms.fails db (Db.PrimaryAddressOf (Schema.customers_id c)) = true ->
           CustomerSearch.searchCustomers db f =
           Db.Rejected "Failed to search customers").
Proof.
  intros db f. rewrite searchCustomers_outcome.
  split; [|split; [|split; [|split; [|split]]]].
  - destruct (_ || _); [now right|].
    destruct (Db.all _ _); [left; eauto | now right].
  - intros ->. reflexivity.
  - intros -> ->. now rewrite orb_true_r.
  - intros -> ->. cbn [andb]. now rewrite orb_true_r, orb_true_l.
  - intros -> ->. cbn [andb]. now rewrite orb_true_r.
  - intros c Hin Hf. destruct (_ || _); [reflexivity|].
    rewrite <- narrowed_single_predicate in Hin.
    destruct (all_rejects _ c _ Hin (enrich_rejects db c Hf)) as [e ->].
    reflexivity.
Qed.

Lemma searchCustomers_all_or_nothing_witness :
  CustomerSearch.searchCustomers
    (Db.mkConnection Sample.sampleRegistry
       (fun q => match q with Db.RfcOf "c3" => Some "Database error" | _ => None end))
    (Types.mkFilters "" "" "" "" "Doe" "" "" "" "s1" "" "" "" "" "") =
  Db.Rejected "Failed to search customers".
Proof.
  apply (proj2 (proj2 (proj2 (proj2 (proj2 (searchCustomers_all_or_nothing
           (Db.mkConnection Sample.sampleRegistry
              (fun q => match q with
                        | Db.RfcOf "c3" => Some "Database error"
                        | _ => None
                        end))
           (Types.mkFilters "" "" "" "" "Doe" "" "" "" "s1" "" "" "" "" ""))))))
           Sample.juan).
  - vm_compute. right. left. reflexivity.
  - right. left. reflexivity.
Defined.
